(** * A shallow embedding of the synthesis / normalisation core of sentinel

    Sources embedded:
    - [src/main_agent.py]: [validate_and_fix_issue_data], [extract_json_from_response],
      [synthesize_analysis], [create_smart_fallback_from_responses];
    - [src/uagent/metta/utils.py]: [classify_project_type],
      [analyze_repository_basic], [process_repository_query];
    - [src/uagent/metta/knowledge.py], [src/uagent/metta/repositoryrag.py]:
      the seeded fact store and its two queries;
    - [src/uagent2/pr_metta/repositoryrag.py], [src/uagent2/pr_metta/knowledge.py]:
      the pull-request classifiers.

    Python strings are [String.string]; [str.lower], [str.title] and
    [str.strip] are modelled on ASCII characters.  A Python [dict] is an
    association list in insertion order; assignment to an existing key
    replaces its value in place, assignment to a new key appends. *)

From Stdlib Require Import String Ascii List Bool Arith Lia ZArith Permutation.
Import ListNotations.
Open Scope list_scope.
Open Scope string_scope.

(* ------------------------------------------------------------------ *)
(** ** Python string primitives *)

Definition lower_char (c : ascii) : ascii :=
  let n := nat_of_ascii c in
  if (65 <=? n)%nat && (n <=? 90)%nat then ascii_of_nat (n + 32)%nat else c.

Definition upper_char (c : ascii) : ascii :=
  let n := nat_of_ascii c in
  if (97 <=? n)%nat && (n <=? 122)%nat then ascii_of_nat (n - 32)%nat else c.

Definition is_alpha (c : ascii) : bool :=
  let n := nat_of_ascii c in
  ((65 <=? n)%nat && (n <=? 90)%nat) || ((97 <=? n)%nat && (n <=? 122)%nat).

(** [s.lower()] *)
Fixpoint lower (s : string) : string :=
  match s with
  | EmptyString => EmptyString
  | String c t => String (lower_char c) (lower t)
  end.

(** [s.title()]: a cased character following a cased character is
    lowered, any other cased character is raised. *)
Fixpoint title_from (prev_cased : bool) (s : string) : string :=
  match s with
  | EmptyString => EmptyString
  | String c t =>
      if is_alpha c then
        String (if prev_cased then lower_char c else upper_char c) (title_from true t)
      else String c (title_from false t)
  end.

Definition title (s : string) : string := title_from false s.

Fixpoint is_prefix (p s : string) : bool :=
  match p, s with
  | EmptyString, _ => true
  | String a p', String b s' => Ascii.eqb a b && is_prefix p' s'
  | String _ _, EmptyString => false
  end.

(** [needle in hay] for two strings. *)
Fixpoint contains (needle hay : string) : bool :=
  is_prefix needle hay ||
  match hay with
  | EmptyString => false
  | String _ t => contains needle t
  end.

(** [sep.join(l)] *)
Fixpoint join (sep : string) (l : list string) : string :=
  match l with
  | [] => ""
  | [x] => x
  | x :: rest => x ++ sep ++ join sep rest
  end.

(** [s.replace(old, new)] for a non-empty [old]: every occurrence, left to
    right; [skip] counts the characters of a replaced occurrence still to drop. *)
Fixpoint replace_aux (old new : string) (skip : nat) (s : string) : string :=
  match s with
  | EmptyString => EmptyString
  | String c t =>
      match skip with
      | S k => replace_aux old new k t
      | O =>
          if is_prefix old s
          then new ++ replace_aux old new (String.length old - 1) t
          else String c (replace_aux old new 0 t)
      end
  end.

Definition replace_all (old new s : string) : string := replace_aux old new 0 s.

(** the characters [str.strip()] and the regex class [\s] remove (ASCII part) *)
Definition is_space (c : ascii) : bool :=
  let n := nat_of_ascii c in
  (n =? 32)%nat || ((9 <=? n)%nat && (n <=? 13)%nat) || ((28 <=? n)%nat && (n <=? 31)%nat).

Fixpoint lstrip_by (p : ascii -> bool) (s : string) : string :=
  match s with
  | EmptyString => EmptyString
  | String c t => if p c then lstrip_by p t else s
  end.

Fixpoint rev_string (s : string) : string :=
  match s with
  | EmptyString => EmptyString
  | String c t => rev_string t ++ String c EmptyString
  end.

Definition rstrip_by (p : ascii -> bool) (s : string) : string :=
  rev_string (lstrip_by p (rev_string s)).

(** [s.strip()] *)
Definition strip (s : string) : string := rstrip_by is_space (lstrip_by is_space s).

(** [s.find(sub, start)]: the first index [>= start] where [sub] occurs. *)
Fixpoint find_from_aux (sub s : string) (i : nat) : option nat :=
  if is_prefix sub s then Some i
  else match s with
       | EmptyString => None
       | String _ t => find_from_aux sub t (S i)
       end.

Definition find_from (sub s : string) (start : nat) : option nat :=
  find_from_aux sub (substring start (String.length s - start) s) start.

Definition find (sub s : string) : option nat := find_from sub s 0.

(** [s.rfind(ch)] for a one-character [ch] *)
Fixpoint rfind_aux (c : ascii) (s : string) (i : nat) (acc : option nat) : option nat :=
  match s with
  | EmptyString => acc
  | String d t => rfind_aux c t (S i) (if Ascii.eqb c d then Some i else acc)
  end.

Definition rfind (c : ascii) (s : string) : option nat := rfind_aux c s 0 None.

(** [s[i:j]] for [0 <= i <= j] *)
Definition slice (i j : nat) (s : string) : string := substring i (j - i) s.

Definition nl : string := String (ascii_of_nat 10%nat) EmptyString.

(* ------------------------------------------------------------------ *)
(** ** JSON values and dictionaries *)

(** A value produced by [json.loads]; numbers are kept as integers, which
    is all the truthiness test below distinguishes ([0] is falsy). *)
#[local] Set Warnings "-register-all".
Inductive json : Type :=
| JNull
| JBool (b : bool)
| JNum (z : Z)
| JStr (s : string)
| JList (l : list json)
| JObj (fields : list (string * json)).

Definition dict : Type := list (string * json).

(** [d.get(k)] / [k in d] *)
Fixpoint dget (k : string) (d : dict) : option json :=
  match d with
  | [] => None
  | (k', v) :: rest => if String.eqb k k' then Some v else dget k rest
  end.

Definition dmem (k : string) (d : dict) : bool :=
  match dget k d with Some _ => true | None => false end.

(** [d[k] = v] *)
Definition dset (k : string) (v : json) (d : dict) : dict :=
  if dmem k d
  then map (fun kv => if String.eqb k (fst kv) then (k, v) else kv) d
  else app d [(k, v)].

(** Python truthiness: [bool(v)] *)
Definition truthy (v : json) : bool :=
  match v with
  | JNull => false
  | JBool b => b
  | JNum z => negb (Z.eqb z 0)
  | JStr s => negb (String.eqb s "")
  | JList l => match l with [] => false | _ => true end
  | JObj f => match f with [] => false | _ => true end
  end.

(** [v in [s1, s2, ...]] for a list of strings: [==] only holds for a [str]. *)
Definition is_one_of (v : json) (allowed : list string) : bool :=
  match v with
  | JStr s => existsb (String.eqb s) allowed
  | _ => false
  end.

(** [isinstance(v, list)] *)
Definition is_list (v : json) : bool :=
  match v with JList _ => true | _ => false end.

Definition jstrs (l : list string) : json := JList (map JStr l).

(* ------------------------------------------------------------------ *)
(** ** [validate_and_fix_issue_data] (main_agent.py) *)

Definition default_labels : json := jstrs ["enhancement"; "ai-generated"].
Definition default_tech_reqs : json := jstrs ["Implementation planning"; "Code development"].
Definition default_acceptance : json := jstrs ["Feature implemented"; "Tests pass"].

Definition defaults : list (string * json) :=
  [("title", JStr "AI-Generated Repository Enhancement");
   ("body", JStr "AI-generated feature suggestion based on repository analysis.");
   ("difficulty", JStr "Medium");
   ("priority", JStr "Medium");
   ("labels", default_labels);
   ("implementation_estimate", JStr "2-3 weeks");
   ("technical_requirements", default_tech_reqs);
   ("acceptance_criteria", default_acceptance)].

Definition canonical_keys : list string := map fst defaults.

(** [if key not in issue_data or not issue_data[key]: issue_data[key] = default_value] *)
Definition fix_missing (d : dict) (kv : string * json) : dict :=
  let (k, dv) := kv in
  match dget k d with
  | Some v => if truthy v then d else dset k dv d
  | None => dset k dv d
  end.

(** [if issue_data[key] not in allowed: issue_data[key] = "Medium"]; after
    the defaults loop the key is always present, so the [None] branch
    (a [KeyError] in Python) is never taken. *)
Definition fix_enum (k : string) (allowed : list string) (d : dict) : dict :=
  match dget k d with
  | Some v => if is_one_of v allowed then d else dset k (JStr "Medium") d
  | None => dset k (JStr "Medium") d
  end.

(** [if not isinstance(issue_data[key], list): issue_data[key] = dv] *)
Definition fix_list (k : string) (dv : json) (d : dict) : dict :=
  match dget k d with
  | Some v => if is_list v then d else dset k dv d
  | None => dset k dv d
  end.

Definition validate_and_fix_issue_data (d : dict) : dict :=
  let d := fold_left fix_missing defaults d in
  let d := fix_enum "difficulty" ["Easy"; "Medium"; "Hard"] d in
  let d := fix_enum "priority" ["Low"; "Medium"; "High"] d in
  let d := fix_list "labels" default_labels d in
  let d := fix_list "technical_requirements" default_tech_reqs d in
  let d := fix_list "acceptance_criteria" default_acceptance d in
  d.

(** The property the spec asks of a normalised record: the eight canonical
    fields present and truthy, both enums in range, the three list fields
    non-empty lists. *)
Definition present_truthy (k : string) (d : dict) : bool :=
  match dget k d with Some v => truthy v | None => false end.

Definition enum_ok (k : string) (allowed : list string) (d : dict) : bool :=
  match dget k d with Some v => is_one_of v allowed | None => false end.

Definition nonempty_list (k : string) (d : dict) : bool :=
  match dget k d with Some (JList (_ :: _)) => true | _ => false end.

Definition complete_record (d : dict) : bool :=
  forallb (fun k => present_truthy k d) canonical_keys
  && enum_ok "difficulty" ["Easy"; "Medium"; "Hard"] d
  && enum_ok "priority" ["Low"; "Medium"; "High"] d
  && nonempty_list "labels" d
  && nonempty_list "technical_requirements" d
  && nonempty_list "acceptance_criteria" d.

(* ------------------------------------------------------------------ *)
(** ** [create_smart_fallback_from_responses] (main_agent.py) *)

(** [feature_patterns], in dictionary (insertion) order *)
Definition feature_patterns : list (string * list string) :=
  [("authentication", ["auth"; "login"; "user"; "session"; "oauth"; "jwt"]);
   ("search", ["search"; "filter"; "find"; "query"; "lookup"]);
   ("realtime", ["realtime"; "websocket"; "live"; "push"; "notification"]);
   ("api", ["api"; "rest"; "endpoint"; "rate limit"; "caching"]);
   ("ui", ["ui"; "interface"; "frontend"; "user experience"; "ux"]);
   ("database", ["database"; "db"; "storage"; "persistence"; "data"]);
   ("testing", ["test"; "testing"; "unit test"; "integration"]);
   ("security", ["security"; "secure"; "encryption"; "validation"])].

Definition all_keywords : list string := flat_map snd feature_patterns.

(** [sum(1 for keyword in keywords if keyword in combined_text)], with the
    substring test abstracted as [hit]. *)
Definition keyword_score (hit : string -> bool) (keywords : list string) : nat :=
  length (filter hit keywords).

(** every category with its score, in table order *)
Definition all_scores_by (hit : string -> bool) : list (string * nat) :=
  map (fun fk => (fst fk, keyword_score hit (snd fk))) feature_patterns.

(** [feature_scores]: only the categories with [score > 0], in table order *)
Definition feature_scores_by (hit : string -> bool) : list (string * nat) :=
  filter (fun p => Nat.ltb 0 (snd p)) (all_scores_by hit).

(** [max(feature_scores, key=feature_scores.get)]: the running maximum is
    replaced only by a strictly larger score, so the first maximal key wins. *)
Fixpoint max_by_score (best : string * nat) (l : list (string * nat)) : string * nat :=
  match l with
  | [] => best
  | p :: rest => if Nat.ltb (snd best) (snd p) then max_by_score p rest else max_by_score best rest
  end.

Definition best_feature_by (hit : string -> bool) : string :=
  match feature_scores_by hit with
  | [] => "search"
  | p :: rest => fst (max_by_score p rest)
  end.

Definition best_feature (combined_text : string) : string :=
  best_feature_by (fun k => contains k combined_text).

Record template := Template {
  t_title : string; t_body : string; t_difficulty : string; t_priority : string }.

Definition search_template : template :=
  Template "Add Advanced Search and Filtering Capabilities"
    "Implement full-text search with intelligent filtering to help users quickly find relevant content and improve overall user experience."
    "Easy" "Medium".

(** [feature_templates]: four of the eight categories have a template *)
Definition feature_templates : list (string * template) :=
  [("authentication",
    Template "Implement User Authentication System"
      "Add comprehensive user authentication with secure login, registration, and session management to protect user data and enable personalized experiences."
      "Medium" "High");
   ("search", search_template);
   ("realtime",
    Template "Add Real-time Updates and Notifications"
      "Implement WebSocket-based real-time updates to keep users informed of changes and improve application responsiveness."
      "Hard" "Medium");
   ("api",
    Template "Implement REST API with Rate Limiting"
      "Create a robust REST API with proper rate limiting, caching, and documentation to enable third-party integrations and improve performance."
      "Medium" "Medium")].

Fixpoint assoc {A : Type} (k : string) (l : list (string * A)) : option A :=
  match l with
  | [] => None
  | (k', v) :: rest => if String.eqb k k' then Some v else assoc k rest
  end.

(** [feature_templates.get(best_feature, feature_templates["search"])] *)
Definition select_template (best : string) : template :=
  match assoc best feature_templates with
  | Some t => t
  | None => search_template
  end.

Definition create_smart_fallback_from_responses (agent_responses : list string) (repo_url : string) : dict :=
  let combined_text := lower (join " " agent_responses) in
  let best := best_feature combined_text in
  let t := select_template best in
  [("title", JStr (t_title t));
   ("body", JStr (t_body t ++ nl ++ nl ++ "Based on analysis of: " ++ repo_url ++ nl ++ nl ++
                  "This suggestion was derived from analyzing multiple AI agent responses that highlighted the importance of "
                  ++ best ++ " functionality."));
   ("difficulty", JStr (t_difficulty t));
   ("priority", JStr (t_priority t));
   ("labels", jstrs ["enhancement"; "ai-generated"; best]);
   ("implementation_estimate", JStr "2-4 weeks");
   ("technical_requirements",
      jstrs ["Research " ++ best ++ " best practices"; "Design system architecture";
             "Implement core functionality"; "Add comprehensive testing"]);
   ("acceptance_criteria",
      jstrs [t_title t ++ " is fully implemented"; "All functionality works as expected";
             "Tests pass with >90% coverage"; "Documentation is complete"])].

(* ------------------------------------------------------------------ *)
(** ** JSON extraction and the synthesis retry loop (main_agent.py) *)

(** Python exceptions that matter to the handlers: [json.JSONDecodeError]
    and any other [Exception] (transport errors, [TypeError], ...). *)
Inductive exc : Type :=
| JSONDecodeError
| OtherException.

Inductive pyresult (A : Type) : Type :=
| POk (a : A)
| PRaise (e : exc).
Arguments POk {A} a.
Arguments PRaise {A} e.

(** [if '```json' in s: m = re.search(r'```json\s*(.*?)\s*```', s, re.DOTALL);
    if m: s = m.group(1).strip()].  The lazy group ends at the first ["```"]
    after the opening fence, and [strip] removes the whitespace the two [\s*]
    would have taken; when the first fence has no closing ["```"], no later
    fence has one either, so the search fails. *)
Definition strip_markdown (s : string) : string :=
  if contains "```json" s then
    match find "```json" s with
    | Some i =>
        let st := i + 7 in
        match find_from "```" s st with
        | Some q => strip (slice st q s)
        | None => s
        end
    | None => s
    end
  else s.

(** [start_brace = s.find('{'); end_brace = s.rfind('}')]; the candidate
    [s[start_brace:end_brace + 1]] when both exist and [end_brace > start_brace]. *)
Definition json_candidate (s : string) : option string :=
  match find "{" s, rfind "}"%char s with
  | Some a, Some b => if Nat.ltb a b then Some (slice a (b + 1) s) else None
  | _, _ => None
  end.

Definition min_required_fields : list string := ["title"; "body"; "difficulty"; "priority"].
Definition synth_required_fields : list string := ["title"; "body"; "difficulty"; "priority"; "labels"].

Definition has_fields (fields : list string) (d : dict) : bool := forallb (fun f => dmem f d) fields.

Definition synthesis_prompt (agent_responses : list string) (repo_url : string) : string :=
  "I received multiple AI agent analyses for the repository: " ++ repo_url ++ nl ++
  "Agent Responses:" ++ nl ++
  join nl (map (fun r => "Response:" ++ nl ++ r ++ nl) agent_responses) ++ nl ++
  "TASK: Analyze these responses and create ONE comprehensive GitHub issue for the BEST feature suggestion.".

(** [f"- {resp[:100]}..."] lines of the second, more forceful prompt *)
Definition retry_prompt (agent_responses : list string) : string :=
  "Previous response was not valid JSON. Let me be extremely clear:" ++ nl ++
  join nl (map (fun r => "- " ++ substring 0 100 r ++ "...") agent_responses).

Section Extraction.

(** [json.loads] applied to a candidate, which starts with ['{'] and ends
    with ['}']: it yields a JSON object or raises. *)
Variable json_loads : string -> pyresult dict.

(** [extract_json_from_response]; [None] stands for Python's [None]. *)
Definition extract_json_from_response (response : string) : option dict :=
  let cleaned := strip_markdown (strip response) in
  match json_candidate cleaned with
  | Some js =>
      match json_loads js with
      | POk d => if has_fields min_required_fields d then Some (validate_and_fix_issue_data d) else None
      | PRaise _ => None
      end
  | None => None
  end.

(** [ask_asi_one]: the model transport, given the attempt number (a fresh
    conversation id each time) and the prompt; it returns the text or raises. *)
Variable ask_asi_one : nat -> string -> pyresult string.

Variable agent_responses : list string.
Variable repo_url : string.

(** The body of one [try] of the [for attempt in range(3)] loop: its
    outcome ([Some] record on success) and the prompt for the next attempt. *)
Definition synth_attempt (attempt : nat) (prompt : string) : pyresult (option dict) * string :=
  match ask_asi_one attempt prompt with
  | PRaise e => (PRaise e, prompt)
  | POk response =>
      let cleaned := strip_markdown (strip response) in
      let parsed : pyresult (option dict) :=
        match json_candidate cleaned with
        | Some js =>
            match json_loads js with
            | POk d =>
                if has_fields synth_required_fields d
                then POk (Some (validate_and_fix_issue_data d))
                else POk None
            | PRaise JSONDecodeError => POk None
            | PRaise e => PRaise e
            end
        | None => POk None
        end in
      match parsed with
      | POk None => (POk None, if Nat.ltb attempt 2 then retry_prompt agent_responses else prompt)
      | r => (r, prompt)
      end
  end.

Definition attempt_succeeded (r : pyresult (option dict)) : bool :=
  match r with POk (Some _) => true | _ => false end.

Inductive synth_outcome : Type :=
| Synthesized (d : dict)
| FellBack (d : dict).

(** The loop; the [except Exception] around each attempt turns a raised
    attempt into a failed one.  Also returned: the calls made to the model
    (attempt number and prompt), in order. *)
Fixpoint synth_loop (attempts : list nat) (prompt : string) : list (nat * string) * synth_outcome :=
  match attempts with
  | [] => ([], FellBack (create_smart_fallback_from_responses agent_responses repo_url))
  | i :: rest =>
      let (r, prompt') := synth_attempt i prompt in
      match r with
      | POk (Some d) => ([(i, prompt)], Synthesized d)
      | _ => let (calls, out) := synth_loop rest prompt' in ((i, prompt) :: calls, out)
      end
  end.

Definition synthesize_analysis : list (nat * string) * synth_outcome :=
  synth_loop [0; 1; 2] (synthesis_prompt agent_responses repo_url).

End Extraction.

(* ------------------------------------------------------------------ *)
(** ** The fact store (hyperon MeTTa space)

    A space is the list of its atoms in the order they were added.  An atom
    is an expression [(rel subj obj)] whose [obj] is a symbol [S(..)] or a
    grounded [ValueAtom(..)].  [metta.run("!(match &self (rel subj $x) $x)")]
    returns one result list holding the matching [obj]s.

    The matches come in the order the atoms were added.  That is hyperon's
    order when the matching objects are all symbols or all grounded values;
    it lists grounded values before symbols when both kinds match.  The
    query text splices the subject in as written, so [subj] stands for a
    name the MeTTa parser reads back as that same symbol; the seeded names
    are such names. *)

Inductive atom_obj : Type :=
| Sym (s : string)
| Val (s : string).

Record atom := Atom3 { a_rel : string; a_subj : string; a_obj : atom_obj }.

Definition space : Type := list atom.

(** [metta.space().add_atom(E(S(rel), S(subj), obj))] *)
Definition add_atom (a : atom) (sp : space) : space := app sp [a].

Definition match_objs (rel subj : string) (sp : space) : list atom_obj :=
  map a_obj (filter (fun a => String.eqb rel (a_rel a) && String.eqb subj (a_subj a)) sp).

Definition metta_run_match (rel subj : string) (sp : space) : list (list atom_obj) :=
  [match_objs rel subj sp].

Definition dquote : string := String (ascii_of_nat 34%nat) EmptyString.

(** [str(atom)]: a symbol prints as its name, a grounded string with quotes *)
Definition atom_str (o : atom_obj) : string :=
  match o with
  | Sym s => s
  | Val s => dquote ++ s ++ dquote
  end.

(** [x.strip(dquote)]: surrounding double quotes removed *)
Definition strip_quotes (s : string) : string :=
  let q := fun c => Ascii.eqb c (ascii_of_nat 34%nat) in rstrip_by q (lstrip_by q s).

Definition str_mem (x : string) (l : list string) : bool := existsb (String.eqb x) l.

(** [if s and s not in acc: acc.append(s)] over the nested results *)
Definition collect_symbols (results : list (list atom_obj)) (acc : list string) : list string :=
  fold_left (fun acc item =>
               let s := strip (atom_str item) in
               if negb (String.eqb s "") && negb (str_mem s acc) then app acc [s] else acc)
            (concat results) acc.

(** [r[0].get_object().value]: only a grounded value has one *)
Definition first_value (r : list atom_obj) : pyresult (option string) :=
  match r with
  | [] => POk None
  | Val s :: _ => POk (Some s)
  | Sym _ :: _ => PRaise OtherException
  end.

Fixpoint first_values (results : list (list atom_obj)) : pyresult (list string) :=
  match results with
  | [] => POk []
  | r :: rest =>
      match first_value r, first_values rest with
      | PRaise e, _ => PRaise e
      | _, PRaise e => PRaise e
      | POk None, POk l => POk l
      | POk (Some s), POk l => POk (s :: l)
      end
  end.

(** *** [initialize_knowledge_graph] (uagent/metta/knowledge.py) *)

Definition pt (ty f : string) : atom := Atom3 "project_type" ty (Sym f).
Definition feat (f d : string) : atom := Atom3 "feature" f (Val d).

Definition repo_seed : list atom :=
  [pt "web_app" "authentication"; pt "web_app" "api_documentation"; pt "web_app" "testing_framework";
   pt "ai_ml" "model_versioning"; pt "ai_ml" "data_pipeline"; pt "ai_ml" "experiment_tracking";
   pt "mobile_app" "push_notifications"; pt "mobile_app" "offline_support";
   pt "scraping" "data_storage"; pt "scraping" "scheduled_scraping"; pt "scraping" "proxy_rotation";
   pt "scraping" "data_visualization"; pt "scraping" "rate_limiting"; pt "scraping" "error_handling";
   pt "competitive_programming" "solution_organization"; pt "competitive_programming" "automated_testing";
   pt "competitive_programming" "complexity_analysis";
   pt "documentation" "search_functionality"; pt "documentation" "content_organization";
   pt "documentation" "interactive_examples";
   feat "authentication" "User authentication and authorization system with login/logout functionality";
   feat "api_documentation" "Interactive API documentation using Swagger/OpenAPI for better developer experience";
   feat "testing_framework" "Comprehensive testing suite with unit, integration, and end-to-end tests";
   feat "model_versioning" "ML model versioning system for tracking experiments and model rollbacks";
   feat "data_pipeline" "Automated data processing pipeline for ETL operations and data validation";
   feat "experiment_tracking" "ML experiment tracking system to monitor model performance and metrics";
   feat "push_notifications" "Push notification system for real-time user engagement and updates";
   feat "offline_support" "Offline functionality support for seamless user experience without internet";
   feat "data_storage" "Persistent data storage with database integration for scraped data management";
   feat "scheduled_scraping" "Automated scheduling system for regular data collection with cron jobs";
   feat "proxy_rotation" "Proxy rotation system to avoid IP blocking and ensure continuous scraping";
   feat "data_visualization" "Interactive dashboards and charts to visualize scraped data trends";
   feat "rate_limiting" "Smart rate limiting to respect website policies and avoid detection";
   feat "error_handling" "Robust error handling with retry mechanisms and failure notifications";
   feat "solution_organization" "Organize solutions by problem difficulty, topic, and platform with clear folder structure";
   feat "automated_testing" "Automated test cases to verify solution correctness with multiple test inputs";
   feat "complexity_analysis" "Time and space complexity analysis documentation for each solution";
   feat "search_functionality" "Advanced search with filters for programming languages, topics, and difficulty";
   feat "content_organization" "Hierarchical content organization with categories and tagging system";
   feat "interactive_examples" "Interactive code examples with live execution and editing capabilities";
   feat "ci_cd_pipeline" "Continuous Integration/Continuous Deployment pipeline for automated testing and deployment";
   feat "monitoring_dashboard" "Real-time monitoring dashboard for system health and performance metrics"].

Definition initialize_knowledge_graph (sp : space) : space := fold_left (fun s a => add_atom a s) repo_seed sp.

(** *** [RepositoryRAG] (uagent/metta/repositoryrag.py) *)

Definition query_project_features (sp : space) (project_type : string) : list string :=
  collect_symbols (metta_run_match "project_type" (strip_quotes project_type) sp) [].

Definition get_feature_description (sp : space) (feature_name : string) : pyresult (list string) :=
  first_values (metta_run_match "feature" (strip_quotes feature_name) sp).

(* ------------------------------------------------------------------ *)
(** ** [classify_project_type] and [process_repository_query] (uagent/metta/utils.py) *)

(** [repo_data] as built by [analyze_repository_basic]; [None] is Python's [None]. *)
Record repo_info := RepoInfo {
  rd_name : option string;
  rd_language : option string;
  rd_description : option string;
  rd_topics : list string }.

(** [x.lower() if x else ""] *)
Definition lower_or_empty (x : option string) : string :=
  match x with Some s => lower s | None => "" end.

(** [any(keyword in text for keyword in keywords)] *)
Definition any_in (keywords : list string) (text : string) : bool :=
  existsb (fun k => contains k text) keywords.

(** [any(keyword in topics for keyword in keywords)]: list membership *)
Definition any_member (keywords topics : list string) : bool :=
  existsb (fun k => str_mem k topics) keywords.

Definition ai_keywords : list string :=
  ["ai/ml"; "machine learning"; "ml"; "ai"; "artificial intelligence"; "neural"; "model"; "tensorflow"; "pytorch"].
Definition scraping_keywords : list string :=
  ["scrap"; "scraping"; "crawler"; "spider"; "harvest"; "data collection"; "web scraping"].
Definition doc_keywords : list string :=
  ["documentation"; "docs"; "guide"; "tutorial"; "reference"; "manual"; "learning resource"].
Definition scraping_name_keywords : list string :=
  ["scrap"; "crawler"; "spider"; "harvest"; "trends"; "twitter"; "instagram"; "facebook"].
Definition cp_keywords : list string :=
  ["leet"; "leetcode"; "algorithm"; "competitive"; "contest"; "cph"; "coding"].
Definition doc_name_keywords : list string :=
  ["docs"; "documentation"; "guide"; "tutorial"; "reference"; "manual"].
Definition ai_topic_keywords : list string :=
  ["machine-learning"; "ai"; "ml"; "tensorflow"; "pytorch"; "scikit-learn"; "data-science"].
Definition mobile_topics : list string := ["android"; "ios"; "mobile"; "flutter"; "react-native"].

(** PRIORITY 1: the description keyword groups, in the order tested *)
Definition classify_by_description (description : string) : option string :=
  if String.eqb description "" then None
  else if any_in ai_keywords description then Some "ai_ml"
  else if any_in scraping_keywords description then Some "scraping"
  else if any_in doc_keywords description then Some "documentation"
  else None.

Definition classify_project_type (repo_data : option repo_info) : string :=
  match repo_data with
  | None => "web_app"
  | Some rd =>
      let name := lower_or_empty (rd_name rd) in
      let language := lower_or_empty (rd_language rd) in
      let description := lower_or_empty (rd_description rd) in
      let topics := map lower (filter (fun t => negb (String.eqb t "")) (rd_topics rd)) in
      match classify_by_description description with
      | Some ty => ty
      | None =>
          if any_in scraping_name_keywords name then "scraping"
          else if any_in cp_keywords name then "competitive_programming"
          else if any_in doc_name_keywords name then "documentation"
          else if negb (match topics with [] => true | _ => false end) &&
                  any_member ai_topic_keywords topics then "ai_ml"
          else if negb (match topics with [] => true | _ => false end) &&
                  any_member mobile_topics topics then "mobile_app"
          else if str_mem language ["swift"; "kotlin"] || String.eqb language "dart" then "mobile_app"
          else if String.eqb language "solidity" then "blockchain"
          else "web_app"
      end
  end.

(** The GitHub repository JSON fields [analyze_repository_basic] reads;
    a missing ["name"] is [Some ""] ([data.get("name", "")]). *)
Record gh_repo := GhRepo {
  gh_name : option string;
  gh_language : option string;
  gh_description : option string;
  gh_topics : list string }.

(** [s.rstrip("/")] *)
Definition rstrip_slash (s : string) : string :=
  rstrip_by (fun c => Ascii.eqb c "/"%char) s.

Section Repository.

(** [requests.get(api_url)] followed by [response.json()]: the status code
    and the decoded body, or an exception. *)
Variable github_get : string -> pyresult (nat * gh_repo).

Definition analyze_repository_basic (repo_url : string) : option repo_info :=
  let path := rstrip_slash (replace_all "https://github.com/" "" repo_url) in
  if negb (contains "/" path) then None
  else match github_get ("https://api.github.com/repos/" ++ path) with
       | POk (status, data) =>
           if Nat.eqb status 200 then
             Some (RepoInfo (gh_name data)
                            (Some (lower_or_empty (gh_language data)))
                            (Some (match gh_description data with Some d => d | None => "" end))
                            (gh_topics data))
           else None
       | PRaise _ => None
       end.

Record feature_entry := FeatureEntry { fe_name : string; fe_description : string }.

Definition cicd_entry : feature_entry :=
  FeatureEntry "CI/CD Pipeline"
    "Continuous Integration/Continuous Deployment pipeline for automated testing and deployment".
Definition monitoring_entry : feature_entry :=
  FeatureEntry "Monitoring Dashboard"
    "Real-time monitoring dashboard for system health and performance metrics".

(** the [for feature in features] loop *)
Fixpoint describe_features (sp : space) (features : list string) : pyresult (list feature_entry) :=
  match features with
  | [] => POk []
  | f :: rest =>
      match get_feature_description sp f with
      | PRaise e => PRaise e
      | POk descriptions =>
          let description :=
            match descriptions with
            | d :: _ => d
            | [] => "Enhancement for " ++ replace_all "_" " " f
            end in
          match describe_features sp rest with
          | PRaise e => PRaise e
          | POk l => POk (FeatureEntry (title (replace_all "_" " " f)) description :: l)
          end
      end
  end.

(** [if len(result) == 0]: the two generic entries *)
Definition add_fallback_features (result : list feature_entry) : list feature_entry :=
  match result with
  | [] => [cicd_entry; monitoring_entry]
  | _ => result
  end.

Definition process_repository_query (repo_url : string) (sp : space) : pyresult (list feature_entry) :=
  match analyze_repository_basic repo_url with
  | None => POk [FeatureEntry "Error" "Could not analyze repository"]
  | Some repo_data =>
      let project_type := classify_project_type (Some repo_data) in
      let features := query_project_features sp project_type in
      match describe_features sp features with
      | PRaise e => PRaise e
      | POk result => POk (add_fallback_features result)
      end
  end.

End Repository.

(** A GitHub API that knows one repository, acme/scraper-bot. *)
Definition scraper_bot_github (api_url : string) : pyresult (nat * gh_repo) :=
  if String.eqb api_url "https://api.github.com/repos/acme/scraper-bot"
  then POk (200%nat, GhRepo (Some "scraper-bot") (Some "Python") (Some "a web scraping tool") [])
  else PRaise OtherException.

(** The entries [process_repository_query] builds for a scraping project. *)
Definition scraping_entries : list feature_entry :=
  [FeatureEntry "Data Storage" "Persistent data storage with database integration for scraped data management";
   FeatureEntry "Scheduled Scraping" "Automated scheduling system for regular data collection with cron jobs";
   FeatureEntry "Proxy Rotation" "Proxy rotation system to avoid IP blocking and ensure continuous scraping";
   FeatureEntry "Data Visualization" "Interactive dashboards and charts to visualize scraped data trends";
   FeatureEntry "Rate Limiting" "Smart rate limiting to respect website policies and avoid detection";
   FeatureEntry "Error Handling" "Robust error handling with retry mechanisms and failure notifications"].

(* ------------------------------------------------------------------ *)
(** ** Pull-request classification (uagent2/pr_metta) *)

Definition prt (ty area : string) : atom := Atom3 "pr_type" ty (Sym area).
Definition ana (area d : string) : atom := Atom3 "analysis" area (Val d).
Definition fpat (pat ty : string) : atom := Atom3 "file_pattern" pat (Sym ty).

(** [initialize_pr_knowledge_graph] (uagent2/pr_metta/knowledge.py) *)
Definition pr_seed : list atom :=
  [prt "feature" "functionality_review"; prt "feature" "code_quality_check";
   prt "feature" "test_coverage"; prt "feature" "documentation_update";
   prt "bugfix" "root_cause_analysis"; prt "bugfix" "regression_testing"; prt "bugfix" "edge_case_handling";
   prt "refactor" "code_structure_improvement"; prt "refactor" "performance_impact";
   prt "refactor" "maintainability_check";
   prt "docs" "content_clarity"; prt "docs" "technical_accuracy"; prt "docs" "completeness_check";
   prt "security" "vulnerability_assessment"; prt "security" "security_best_practices";
   prt "security" "access_control_review";
   prt "performance" "benchmark_analysis"; prt "performance" "resource_usage";
   prt "performance" "scalability_impact";
   ana "functionality_review" "Review the new functionality for correctness and completeness";
   ana "code_quality_check" "Assess code quality, readability, and adherence to standards";
   ana "test_coverage" "Verify adequate test coverage for new functionality";
   ana "documentation_update" "Check if documentation is updated for new features";
   ana "root_cause_analysis" "Analyze if the root cause of the bug is properly addressed";
   ana "regression_testing" "Ensure the fix doesn't introduce new issues";
   ana "edge_case_handling" "Verify edge cases and error conditions are handled";
   ana "code_structure_improvement" "Evaluate improvements in code organization and structure";
   ana "performance_impact" "Assess potential performance implications of refactoring";
   ana "maintainability_check" "Review how changes improve code maintainability";
   ana "content_clarity" "Check documentation clarity and understandability";
   ana "technical_accuracy" "Verify technical accuracy of documentation changes";
   ana "completeness_check" "Ensure documentation covers all necessary aspects";
   ana "vulnerability_assessment" "Assess potential security vulnerabilities in changes";
   ana "security_best_practices" "Verify adherence to security best practices";
   ana "access_control_review" "Review access control and permission changes";
   ana "benchmark_analysis" "Analyze performance benchmarks and improvements";
   ana "resource_usage" "Review resource usage implications of changes";
   ana "scalability_impact" "Assess impact on system scalability";
   fpat "test" "feature"; fpat "spec" "feature"; fpat "README" "docs"; fpat "doc" "docs";
   fpat "security" "security"; fpat "auth" "security"; fpat "perf" "performance";
   fpat "benchmark" "performance"].

Definition initialize_pr_knowledge_graph (sp : space) : space := fold_left (fun s a => add_atom a s) pr_seed sp.

Definition file_patterns : list string :=
  ["test"; "spec"; "README"; "doc"; "security"; "auth"; "perf"; "benchmark"].

(** one changed file: every pattern it contains adds the types its
    [file_pattern] facts name *)
Definition classify_file (sp : space) (acc : list string) (file_path : string) : list string :=
  let file_lower := lower file_path in
  fold_left (fun acc pattern =>
               if contains (lower pattern) file_lower
               then collect_symbols (metta_run_match "file_pattern" pattern sp) acc
               else acc)
            file_patterns acc.

(** [PullRequestRAG.classify_pr_by_files] *)
Definition classify_pr_by_files (sp : space) (file_changes : list string) : list string :=
  match fold_left (classify_file sp) file_changes [] with
  | [] => ["feature"]
  | l => l
  end.

Definition type_keywords : list (string * list string) :=
  [("bugfix", ["fix"; "bug"; "issue"; "error"; "problem"; "resolve"]);
   ("feature", ["add"; "new"; "implement"; "feature"; "enhance"]);
   ("refactor", ["refactor"; "restructure"; "reorganize"; "cleanup"]);
   ("docs", ["documentation"; "readme"; "docs"; "guide"]);
   ("security", ["security"; "vulnerability"; "auth"; "permission"]);
   ("performance", ["performance"; "optimize"; "speed"; "benchmark"])].

(** [f"{x}"] of a [str] or [None] *)
Definition py_str (x : option string) : string :=
  match x with Some s => s | None => "None" end.

(** [PullRequestRAG.analyze_pr_title_description] *)
Definition analyze_pr_title_description (title_ : string) (description : option string) : list string :=
  let combined_text := lower (title_ ++ " " ++ py_str description) in
  match map fst (filter (fun tk => any_in (snd tk) combined_text) type_keywords) with
  | [] => ["feature"]
  | l => l
  end.

(** [pr_data] with the defaults of its [.get] calls already applied *)
Record pr_info := PrInfo {
  pr_title : string;
  pr_body : option string;
  pr_changed_files : list string }.

Record plan_item := PlanItem { pi_area : string; pi_description : string; pi_pr_type : string }.

Record analysis_plan := AnalysisPlan { pr_types : list string; plan : list plan_item }.

(** the elements of [l] without duplicates, in the order of their first
    occurrence *)
Fixpoint dedup (l : list string) : list string :=
  match l with
  | [] => []
  | x :: rest => x :: filter (fun y => negb (String.eqb x y)) (dedup rest)
  end.

Definition query_pr_analysis_areas (sp : space) (pr_type : string) : list string :=
  collect_symbols (metta_run_match "pr_type" (strip_quotes pr_type) sp) [].

Definition get_analysis_description (sp : space) (area : string) : pyresult (list string) :=
  first_values (metta_run_match "analysis" (strip_quotes area) sp).

Fixpoint plan_for_areas (sp : space) (ty : string) (areas : list string) : pyresult (list plan_item) :=
  match areas with
  | [] => POk []
  | a :: rest =>
      match get_analysis_description sp a, plan_for_areas sp ty rest with
      | PRaise e, _ => PRaise e
      | _, PRaise e => PRaise e
      | POk [], POk l => POk l
      | POk (d :: _), POk l => POk (PlanItem a d ty :: l)
      end
  end.

Fixpoint plan_for_types (sp : space) (types : list string) : pyresult (list plan_item) :=
  match types with
  | [] => POk []
  | ty :: rest =>
      match plan_for_areas sp ty (query_pr_analysis_areas sp ty), plan_for_types sp rest with
      | PRaise e, _ => PRaise e
      | _, PRaise e => PRaise e
      | POk l1, POk l2 => POk (app l1 l2)
      end
  end.

(** [PullRequestRAG.get_comprehensive_analysis_plan].  [list(set(...))]
    lists the set in its iteration order, which Python leaves unspecified
    (it follows the string hashes of the run): [set_list] is the list one
    run gets, a permutation of [dedup] of the argument. *)
Definition get_comprehensive_analysis_plan_by (set_list : list string -> list string)
    (sp : space) (pr : pr_info) : pyresult analysis_plan :=
  let title_types := analyze_pr_title_description (pr_title pr) (pr_body pr) in
  let file_types := classify_pr_by_files sp (pr_changed_files pr) in
  let all_types := set_list (app title_types file_types) in
  match plan_for_types sp all_types with
  | PRaise e => PRaise e
  | POk p => POk (AnalysisPlan all_types p)
  end.

(** a run whose set order is the order of first occurrence *)
Definition get_comprehensive_analysis_plan (sp : space) (pr : pr_info) : pyresult analysis_plan :=
  get_comprehensive_analysis_plan_by dedup sp pr.

(* ------------------------------------------------------------------ *)
(** ** The title clean-up of [parse_direct_response]'s regex path (main_agent.py) *)

(** the regex class [\w] (ASCII part) *)
Definition is_word_char (c : ascii) : bool :=
  let n := nat_of_ascii c in
  is_alpha c || ((48 <=? n)%nat && (n <=? 57)%nat) || (n =? 95)%nat.

(** [s.split('.')[0]] *)
Fixpoint before_dot (s : string) : string :=
  match s with
  | EmptyString => EmptyString
  | String c t => if Ascii.eqb c "."%char then EmptyString else String c (before_dot t)
  end.

(** [title = re.sub(r'^[^\w]*', '', title); title = title.split('.')[0];
    if len(title) > 80: title = title[:77] + "..."] *)
Definition clean_title (t : string) : string :=
  let t := lstrip_by (fun c => negb (is_word_char c)) t in
  let t := before_dot t in
  if Nat.ltb 80 (String.length t) then substring 0 77 t ++ "..." else t.

(** A parsed object with exactly the four minimum fields. *)
Definition four_field_record : dict :=
  [("title", JStr "Add export"); ("body", JStr "Export data as CSV");
   ("difficulty", JStr "Easy"); ("priority", JStr "Low")].

(* ------------------------------------------------------------------ *)
(** ** More string primitives *)

Definition is_digit (c : ascii) : bool :=
  let n := nat_of_ascii c in (48 <=? n)%nat && (n <=? 57)%nat.

(** the longest prefix whose characters satisfy [p], and the rest *)
Fixpoint span (p : ascii -> bool) (s : string) : string * string :=
  match s with
  | EmptyString => ("", "")
  | String c t => if p c then let (a, b) := span p t in (String c a, b) else ("", s)
  end.

(** [s] with the literal prefix [p] consumed, if [s] starts with it *)
Fixpoint strip_prefix (p s : string) : option string :=
  match p, s with
  | EmptyString, _ => Some s
  | String a p', String b s' => if Ascii.eqb a b then strip_prefix p' s' else None
  | String _ _, EmptyString => None
  end.

(** [s.endswith(suf)] *)
Definition ends_with (suf s : string) : bool := is_prefix (rev_string suf) (rev_string s).

(** [s.split(sep)] for a one-character separator *)
Fixpoint split_on (sep : ascii) (s : string) : list string :=
  match s with
  | EmptyString => [""]
  | String c t =>
      if Ascii.eqb c sep then "" :: split_on sep t
      else match split_on sep t with
           | w :: ws => String c w :: ws
           | [] => [String c ""]
           end
  end.

(** [int(s)] of a string of ASCII digits *)
Fixpoint digits_value_acc (acc : Z) (s : string) : Z :=
  match s with
  | EmptyString => acc
  | String c t => digits_value_acc (10 * acc + (Z.of_nat (nat_of_ascii c) - 48))%Z t
  end.

Definition digits_value (s : string) : Z := digits_value_acc 0%Z s.

(** [s.isdigit()] (ASCII digits) *)
Definition is_digits (s : string) : bool :=
  negb (String.eqb s "") && forallb is_digit (list_ascii_of_string s).

Definition not_slash (c : ascii) : bool := negb (Ascii.eqb c "/"%char).

(* ------------------------------------------------------------------ *)
(** ** [classify_pr_priority] and [analyze_code_changes] (uagent2/pr_metta/utils.py) *)

(** an entry of [pr_data['file_changes']] *)
Record file_change := FileChange {
  fc_filename : string; fc_status : string; fc_additions : Z; fc_deletions : Z }.

(** the fields of the record [fetch_pr_data] builds that these functions read *)
Record pr_record := PrRecord {
  pd_title : string;
  pd_additions : Z;
  pd_deletions : Z;
  pd_changed_files_count : Z;
  pd_labels : list string }.

Record priority_result := PriorityResult {
  pp_priority : string; pp_score : Z; pp_factors : list string }.

Definition classify_pr_priority (pr_data : pr_record) : priority_result :=
  let labels := map lower (pd_labels pr_data) in
  let '(score, factors) :=
    if existsb (fun label => str_mem label ["critical"; "urgent"; "hotfix"]) labels
    then (3%Z, ["Critical/Urgent labels"])
    else if existsb (fun label => str_mem label ["high"; "important"]) labels
    then (2%Z, ["High priority labels"])
    else (0%Z, []) in
  let '(score, factors) :=
    if any_in ["security"; "vulnerability"; "auth"] (lower (pd_title pr_data))
    then ((score + 2)%Z, app factors ["Security-related changes"])
    else (score, factors) in
  let '(score, factors) :=
    if Z.ltb 20 (pd_changed_files_count pr_data)
    then ((score + 1)%Z, app factors ["Large number of files changed"])
    else (score, factors) in
  let '(score, factors) :=
    if Z.ltb 1000 (pd_additions pr_data + pd_deletions pr_data)
    then ((score + 1)%Z, app factors ["Large code changes"])
    else (score, factors) in
  let priority := if Z.leb 4 score then "High" else if Z.leb 2 score then "Medium" else "Low" in
  PriorityResult priority score factors.

(** a dict of counts, in insertion order *)
Definition counter : Type := list (string * Z).

(** [d[k] = d.get(k, 0) + 1] *)
Definition incr (k : string) (d : counter) : counter :=
  match assoc k d with
  | Some n => map (fun kv => if String.eqb k (fst kv) then (k, (n + 1)%Z) else kv) d
  | None => app d [(k, 1%Z)]
  end.

(** [filename.split('.')[-1] if '.' in filename else 'no_extension'] *)
Definition file_ext (filename : string) : string :=
  if contains "." filename then last (split_on "."%char filename) "" else "no_extension".

Definition language_map : list (string * string) :=
  [("py", "Python"); ("js", "JavaScript"); ("ts", "TypeScript"); ("java", "Java");
   ("cpp", "C++"); ("c", "C"); ("go", "Go"); ("rs", "Rust"); ("php", "PHP");
   ("rb", "Ruby"); ("md", "Markdown")].

(** [language_map.get(ext, ext)] *)
Definition language_of (ext : string) : string :=
  match assoc ext language_map with Some l => l | None => ext end.

Record significant_change := SignificantChange {
  sc_file : string; sc_additions : Z; sc_deletions : Z }.

Record change_summary := ChangeSummary {
  cs_total_files : nat;
  cs_file_types : counter;
  cs_change_types : counter;
  cs_language_distribution : counter;
  cs_significant_changes : list significant_change }.

(** one iteration of the [for file_change in file_changes] loop *)
Definition analyze_change (cs : change_summary) (file_change : file_change) : change_summary :=
  let filename := fc_filename file_change in
  let status := fc_status file_change in
  let change_types :=
    match assoc status (cs_change_types cs) with
    | Some _ => incr status (cs_change_types cs)
    | None => incr "modified" (cs_change_types cs)
    end in
  let ext := file_ext filename in
  let file_types := incr ext (cs_file_types cs) in
  let language := language_of ext in
  let language_distribution := incr language (cs_language_distribution cs) in
  let significant_changes :=
    if Z.ltb 50 (fc_additions file_change + fc_deletions file_change)
    then app (cs_significant_changes cs)
             [SignificantChange filename (fc_additions file_change) (fc_deletions file_change)]
    else cs_significant_changes cs in
  ChangeSummary (cs_total_files cs) file_types change_types language_distribution significant_changes.

Definition change_type_keys : list string := ["added"; "modified"; "deleted"; "renamed"].

Definition analyze_code_changes (file_changes : list file_change) : change_summary :=
  fold_left analyze_change file_changes
    (ChangeSummary (length file_changes) [] (map (fun k => (k, 0%Z)) change_type_keys) [] []).

(* ------------------------------------------------------------------ *)
(** ** [extract_pr_info_from_url] (uagent2/pr_metta/utils.py) *)

(** [([^/]+)/([^/]+)/pull/(\d+)] matched at the start of [s].  Each [+]
    run is followed by a character its class excludes, so only its longest
    run can lead to a match; [\d+] ends the pattern and takes every digit. *)
Definition match_pull_path (s : string) : option (string * string * string) :=
  let (owner, r1) := span not_slash s in
  if String.eqb owner "" then None else
  match strip_prefix "/" r1 with
  | None => None
  | Some r2 =>
      let (repo, r3) := span not_slash r2 in
      if String.eqb repo "" then None else
      match strip_prefix "/pull/" r3 with
      | None => None
      | Some r4 =>
          let (pr_number, _) := span is_digit r4 in
          if String.eqb pr_number "" then None else Some (owner, repo, pr_number)
      end
  end.

(** [re.search(lit + r'([^/]+)/([^/]+)/pull/(\d+)', s)]: the leftmost match *)
Fixpoint search_pull (lit s : string) : option (string * string * string) :=
  match match strip_prefix lit s with Some r => match_pull_path r | None => None end with
  | Some m => Some m
  | None => match s with EmptyString => None | String _ t => search_pull lit t end
  end.

(** the literal heads of the three [patterns], in order *)
Definition pr_url_patterns : list string :=
  ["https://github.com/"; "github.com/"; "https://www.github.com/"].

Fixpoint first_pull_match (patterns : list string) (pr_url : string) : option (string * string * string) :=
  match patterns with
  | [] => None
  | p :: rest =>
      match search_pull p pr_url with
      | Some m => Some m
      | None => first_pull_match rest pr_url
      end
  end.

Record pr_url_info := PrUrlInfo {
  pu_owner : string; pu_repo : string; pu_pr_number : Z; pu_api_url : string }.

Definition extract_pr_info_from_url (pr_url : string) : option pr_url_info :=
  match first_pull_match pr_url_patterns pr_url with
  | Some (owner, repo, pr_number) =>
      Some (PrUrlInfo owner repo (digits_value pr_number)
              ("https://api.github.com/repos/" ++ owner ++ "/" ++ repo ++ "/pulls/" ++ pr_number))
  | None => None
  end.

(* ------------------------------------------------------------------ *)
(** ** [extract_repo_info] (main_agent.py) *)

(** [$] without MULTILINE: the end of the string, or just before a final newline *)
Definition at_end (s : string) : bool := String.eqb s "" || String.eqb s nl.

(** dot-star then [$]: the dot matches any character but a newline *)
Fixpoint dot_star_end (s : string) : bool :=
  at_end s ||
  match s with
  | EmptyString => false
  | String c t => negb (Ascii.eqb c (ascii_of_nat 10)) && dot_star_end t
  end.

(** an optional group of ['?'] and dot-star, then [$] *)
Definition query_end (s : string) : bool :=
  match strip_prefix "?" s with Some r => dot_star_end r | None => false end || at_end s.

(** an optional ['/'], the optional query group, then [$] *)
Definition slash_query_end (s : string) : bool :=
  match strip_prefix "/" s with Some r => query_end r | None => false end || query_end s.

(** an optional [.git], an optional ['/'], the optional query group, then [$] *)
Definition repo_tail (s : string) : bool :=
  match strip_prefix ".git" s with Some r => slash_query_end r | None => false end || slash_query_end s.

(** the lazy [([^/]+?)] followed by the tail: the shortest non-empty run
    of non-slash characters after which the tail matches *)
Fixpoint lazy_repo (s : string) : option string :=
  match s with
  | EmptyString => None
  | String c t =>
      if not_slash c then
        if repo_tail t then Some (String c "")
        else match lazy_repo t with Some r => Some (String c r) | None => None end
      else None
  end.

(** the pattern of [extract_repo_info] matched at the start of [s]: the
    literal [github.com], ['/'] or [':'], the greedy owner run of non-slash
    characters, ['/'], the lazy repository run, then the tail *)
Definition match_repo_at (s : string) : option (string * string) :=
  match strip_prefix "github.com" s with
  | Some (String c r) =>
      if Ascii.eqb c "/"%char || Ascii.eqb c ":"%char then
        let (owner, r1) := span not_slash r in
        if String.eqb owner "" then None else
        match strip_prefix "/" r1 with
        | Some r2 => match lazy_repo r2 with Some repo => Some (owner, repo) | None => None end
        | None => None
        end
      else None
  | _ => None
  end.

Fixpoint search_repo (s : string) : option (string * string) :=
  match match_repo_at s with
  | Some m => Some m
  | None => match s with EmptyString => None | String _ t => search_repo t end
  end.

(** [None] is the [ValueError("Invalid GitHub repository URL")] *)
Definition extract_repo_info (repo_url : string) : option (string * string) :=
  match search_repo repo_url with
  | None => None
  | Some (owner, repo) =>
      let repo := if ends_with ".git" repo then substring 0 (String.length repo - 4) repo else repo in
      Some (owner, repo)
  end.

(* ------------------------------------------------------------------ *)
(** ** [select_best_agents] (main_agent.py) *)

(** the class [[\d,\s]] *)
Definition index_char (c : ascii) : bool := is_digit c || Ascii.eqb c ","%char || is_space c.

(** [re.search(r'\[([\d,\s]+)\]', response).group(1)]: at a ['['] the run of
    class characters must be followed by [']'], which the class excludes,
    so only the longest run can match. *)
Fixpoint find_index_list (s : string) : option string :=
  match s with
  | EmptyString => None
  | String c t =>
      let here :=
        if Ascii.eqb c "["%char then
          let (run, rest) := span index_char t in
          if String.eqb run "" then None
          else match rest with
               | String d _ => if Ascii.eqb d "]"%char then Some run else None
               | EmptyString => None
               end
        else None in
      match here with
      | Some g => Some g
      | None => find_index_list t
      end
  end.

(** [[int(i.strip()) for i in indices_str.split(',') if i.strip().isdigit()]] *)
Definition parse_indices (indices_str : string) : list Z :=
  map (fun i => digits_value (strip i))
      (filter (fun i => is_digits (strip i)) (split_on ","%char indices_str)).

Section Selection.

Variable agent : Type.

(** [select_best_agents]; [reply] is what [ask_asi_one] returned for the
    selection prompt, or the exception it raised (the prompt itself, built
    from the first ten agents, only influences that reply). *)
Definition select_best_agents (agents : list agent) (reply : pyresult string) : list agent :=
  match agents with
  | [] => []
  | _ =>
      match reply with
      | PRaise _ => firstn 3 agents
      | POk response =>
          match find_index_list response with
          | Some indices_str =>
              flat_map (fun i =>
                          if Z.ltb i (Z.of_nat (length agents))
                          then match nth_error agents (Z.to_nat i) with Some a => [a] | None => [] end
                          else [])
                       (parse_indices indices_str)
          | None => firstn 3 agents
          end
      end
  end.

End Selection.

(* ------------------------------------------------------------------ *)
(** ** [get_session_id] (main_agent.py) *)

Section Sessions.

(** [str(uuid.uuid4())]: the [n]-th identifier drawn *)
Variable uuid4 : nat -> string.

Record session_state := SessionState {
  session_map : list (string * string); uuids_drawn : nat }.

Definition get_session_id (st : session_state) (conv_id : string) : string * session_state :=
  match assoc conv_id (session_map st) with
  | Some sid => (sid, st)
  | None =>
      let sid := uuid4 (uuids_drawn st) in
      (sid, SessionState (app (session_map st) [(conv_id, sid)]) (S (uuids_drawn st)))
  end.

(** a sequence of [get_session_id] calls *)
Definition run_sessions (st : session_state) (conv_ids : list string) : session_state :=
  fold_left (fun st c => snd (get_session_id st c)) conv_ids st.

End Sessions.

(* ------------------------------------------------------------------ *)
(** ** [create_github_payload] (main_agent.py) *)

(** [d.get(k, default)] *)
Definition dget_default (k : string) (dv : json) (d : dict) : json :=
  match dget k d with Some v => v | None => dv end.

Definition is_str (v : json) : bool := match v with JStr _ => true | _ => false end.

(** [[prefix + x for x in v]]: iterating a list, the characters of a [str]
    or the keys of a dict; [+] raises [TypeError] on an item that is not a
    [str], and a number, boolean or [None] is not iterable. *)
Definition bullet_items (prefix : string) (v : json) : pyresult (list string) :=
  match v with
  | JList l =>
      fold_right (fun x acc =>
                    match x, acc with
                    | JStr s, POk r => POk ((prefix ++ s) :: r)
                    | JStr _, PRaise e => PRaise e
                    | _, _ => PRaise OtherException
                    end) (POk []) l
  | JStr s => POk (map (fun c => prefix ++ String c "") (list_ascii_of_string s))
  | JObj kvs => POk (map (fun kv => prefix ++ fst kv) kvs)
  | _ => PRaise OtherException
  end.

Record github_payload := GithubPayload {
  gp_title : json; gp_body : string; gp_assignees : list json; gp_labels : json }.

Section Payload.

(** [format(v)] of a value that is not a [str]: Python's rendering of
    numbers, booleans, [None], lists and dicts *)
Variable py_format : json -> string.

Definition format_value (v : json) : string :=
  match v with JStr s => s | _ => py_format v end.

Definition create_github_payload (issue_data : dict) : pyresult github_payload :=
  match bullet_items "- " (dget_default "technical_requirements" (JList []) issue_data),
        bullet_items "- [ ] " (dget_default "acceptance_criteria" (JList []) issue_data) with
  | POk reqs, POk criteria =>
      let formatted_body :=
        "## Feature Description" ++ nl ++
        format_value (dget_default "body" (JStr "AI-generated feature suggestion") issue_data) ++ nl ++ nl ++
        "## Implementation Details" ++ nl ++
        "**Difficulty Level**: " ++ format_value (dget_default "difficulty" (JStr "Medium") issue_data) ++ nl ++
        "**Priority**: " ++ format_value (dget_default "priority" (JStr "Medium") issue_data) ++ nl ++
        "**Estimated Time**: " ++ format_value (dget_default "implementation_estimate" (JStr "TBD") issue_data) ++ nl ++ nl ++
        "## Technical Requirements" ++ nl ++ join nl reqs ++ nl ++ nl ++
        "## Acceptance Criteria" ++ nl ++ join nl criteria ++ nl ++ nl ++
        "---" ++ nl ++
        "*This issue was created by AI agents analyzing the repository structure and suggesting enhancements.*" ++ nl in
      POk (GithubPayload (dget_default "title" (JStr "AI-Generated Enhancement") issue_data)
                         formatted_body []
                         (dget_default "labels" (jstrs ["enhancement"]) issue_data))
  | PRaise e, _ => PRaise e
  | _, PRaise e => PRaise e
  end.

End Payload.

(* ------------------------------------------------------------------ *)
(** ** [create_fallback_issue_data] (main_agent.py) *)

(** [feature_suggestions], in dictionary order *)
Definition feature_suggestions : list (string * template) :=
  [("authentication",
    Template "Implement User Authentication System"
      "Add comprehensive user authentication with login, registration, and session management."
      "Medium" "High");
   ("search",
    Template "Add Advanced Search and Filtering"
      "Implement full-text search with filtering capabilities to improve user experience."
      "Easy" "Medium");
   ("api",
    Template "Implement REST API with Rate Limiting"
      "Create a RESTful API with proper rate limiting and caching for better performance."
      "Medium" "Medium");
   ("realtime",
    Template "Add Real-time Updates with WebSockets"
      "Implement WebSocket connections for real-time data synchronization."
      "Hard" "Medium")].

(** the [for keyword, feature in feature_suggestions.items()] loop with its [break] *)
Fixpoint first_suggestion (all_text : string) (l : list (string * template)) (dflt : template) : template :=
  match l with
  | [] => dflt
  | (keyword, feature) :: rest =>
      if contains keyword all_text then feature else first_suggestion all_text rest dflt
  end.

Definition search_suggestion : template :=
  Template "Add Advanced Search and Filtering"
    "Implement full-text search with filtering capabilities to improve user experience."
    "Easy" "Medium".

Definition create_fallback_issue_data (agent_responses : list string) (repo_url : string) : dict :=
  let all_text := lower (join " " agent_responses) in
  let selected_feature := first_suggestion all_text feature_suggestions search_suggestion in
  [("title", JStr (t_title selected_feature));
   ("body", JStr (t_body selected_feature ++ nl ++ nl ++
                  "This suggestion is based on analysis of the repository at: " ++ repo_url ++ nl ++ nl ++
                  "Agent Analysis Summary:" ++ nl ++
                  join nl (map (fun response => "- " ++ substring 0 100 response ++ "...") agent_responses)));
   ("difficulty", JStr (t_difficulty selected_feature));
   ("priority", JStr (t_priority selected_feature));
   ("labels", jstrs ["enhancement"; "ai-generated"; "fallback"]);
   ("implementation_estimate", JStr "2-4 weeks");
   ("technical_requirements",
      jstrs ["Research best practices"; "Design system architecture";
             "Implement core functionality"; "Add comprehensive testing"]);
   ("acceptance_criteria",
      jstrs ["Feature is fully implemented"; "All tests pass";
             "Documentation is updated"; "Code review is completed"])].

(* ------------------------------------------------------------------ *)
(** ** [RepositoryRAG.add_knowledge] and [PullRequestRAG.add_pr_knowledge] *)

(** the [object_value] argument: a [str] becomes a [ValueAtom]; any other
    value is an atom and is added as it is *)
Inductive py_value : Type :=
| PyStr (s : string)
| PyAtom (o : atom_obj).

(** the arrow of the returned message as the source file spells it: the
    UTF-8 bytes of U+00E2 U+2020 U+2019 *)
Definition arrow_text : string :=
  String (ascii_of_nat 195) (String (ascii_of_nat 162) (String (ascii_of_nat 226)
    (String (ascii_of_nat 128) (String (ascii_of_nat 160) (String (ascii_of_nat 226)
      (String (ascii_of_nat 128) (String (ascii_of_nat 153) EmptyString))))))).

(** [if isinstance(object_value, str): object_value = ValueAtom(object_value)] *)
Definition to_atom_obj (v : py_value) : atom_obj :=
  match v with PyStr s => Val s | PyAtom o => o end.

Definition add_knowledge (relation_type subject : string) (object_value : py_value) (sp : space)
    : space * string :=
  let object_value := to_atom_obj object_value in
  (add_atom (Atom3 relation_type subject object_value) sp,
   "Added " ++ relation_type ++ ": " ++ subject ++ " " ++ arrow_text ++ " " ++ atom_str object_value).

Definition add_pr_knowledge (relation_type subject : string) (object_value : py_value) (sp : space)
    : space * string :=
  let object_value := to_atom_obj object_value in
  (add_atom (Atom3 relation_type subject object_value) sp,
   "Added " ++ relation_type ++ ": " ++ subject ++ " " ++ arrow_text ++ " " ++ atom_str object_value).

(** A name the MeTTa queries read back as one symbol: non-empty, made of
    letters, digits, ['_'] and ['-']. *)
Definition plain_name (s : string) : bool :=
  negb (String.eqb s "") &&
  forallb (fun c => is_alpha c || is_digit c || Ascii.eqb c "_"%char || Ascii.eqb c "-"%char)
          (list_ascii_of_string s).

(** A [str] that [str(ValueAtom(s))] prints as [dquote ++ s ++ dquote]:
    printable ASCII without a double quote or a backslash, which is what
    [repr] keeps as it is. *)
Definition plain_text (s : string) : bool :=
  forallb (fun c => Nat.leb 32 (nat_of_ascii c) && Nat.leb (nat_of_ascii c) 126 &&
                    negb (Ascii.eqb c (ascii_of_nat 34)) && negb (Ascii.eqb c (ascii_of_nat 92)))
          (list_ascii_of_string s).

(** a description seeded by [initialize_knowledge_graph] *)
Definition seeded_description (d : string) : bool :=
  existsb (fun a => String.eqb (a_rel a) "feature" &&
                    match a_obj a with Val v => String.eqb v d | Sym _ => false end) repo_seed.

(** the [change_types] key a status is counted under *)
Definition change_bucket (status : string) : string :=
  if str_mem status change_type_keys then status else "modified".

(** how many elements of [l] [f] maps to [k] *)
Definition count_by {A : Type} (f : A -> string) (k : string) (l : list A) : nat :=
  length (filter (fun x => String.eqb (f x) k) l).

(** a counter entry for [n] occurrences: absent when [n = 0] *)
Definition count_entry (n : nat) : option Z :=
  if Nat.eqb n 0 then None else Some (Z.of_nat n).

(** the one-digit index [n] as text *)
Definition digit_str (n : nat) : string := String (ascii_of_nat (48 + n)) EmptyString.

(** a character the repository group of [extract_repo_info] can end on
    freely: not ['/'], ['?'] or a newline *)
Definition plain_repo_char (c : ascii) : bool :=
  not_slash c && negb (Ascii.eqb c "?"%char) && negb (Ascii.eqb c (ascii_of_nat 10)).

(** a list value whose items are all [str]s *)
Definition str_items (v : json) : bool :=
  match v with JList l => forallb is_str l | _ => false end.

(* ------------------------------------------------------------------ *)
(** ** [process_pr_query] (uagent2/pr_metta/utils.py) *)

(** The fields of the dictionary [fetch_pr_data] returns that
    [process_pr_query] and [get_comprehensive_analysis_plan] read;
    [mergeable] is JSON [null], [true] or [false]. *)
Record fetched_pr := FetchedPr {
  fp_title : string;
  fp_body : option string;
  fp_additions : Z;
  fp_deletions : Z;
  fp_changed_files : list string;
  fp_file_changes : list file_change;
  fp_labels : list string;
  fp_mergeable : option bool;
  fp_comments_count : Z;
  fp_review_comments_count : Z }.

Record analysis_entry := AnalysisEntry { ae_analysis : string; ae_description : string }.

Section PrQuery.

(** [fetch_pr_data(pr_url)]: [None] when the URL does not parse or a
    request fails (it catches its own exceptions) *)
Variable fetch_pr_data : string -> option fetched_pr.
(** [str(n)] of an [int], [str(l)] of a list of [str], [str(e)] of an exception *)
Variable int_str : Z -> string.
Variable list_repr : list string -> string.
Variable exc_str : exc -> string.

Definition process_pr_query (pr_url : string) (pr_rag : space) : list analysis_entry :=
  match fetch_pr_data pr_url with
  | None => [AnalysisEntry "Failed to fetch PR data" "Could not retrieve PR information from GitHub"]
  | Some pr_data =>
      let change_summary := analyze_code_changes (fp_file_changes pr_data) in
      match get_comprehensive_analysis_plan pr_rag
              (PrInfo (fp_title pr_data) (fp_body pr_data) (fp_changed_files pr_data)) with
      | PRaise e => [AnalysisEntry "Error" ("Failed to analyze PR: " ++ exc_str e)]
      | POk analysis_result =>
          [AnalysisEntry "PR Overview"
             ("Title: " ++ fp_title pr_data ++ ", Files: " ++ int_str (Z.of_nat (cs_total_files change_summary)) ++
              ", +" ++ int_str (fp_additions pr_data) ++ "/-" ++ int_str (fp_deletions pr_data));
           AnalysisEntry "Change Analysis"
             ("Languages: " ++ join ", " (map fst (cs_language_distribution change_summary)) ++
              ", Types: " ++ list_repr (fp_labels pr_data))] ++
          map (fun item => AnalysisEntry (title (replace_all "_" " " (pi_area item))) (pi_description item))
              (plan analysis_result) ++
          (if match fp_mergeable pr_data with Some false => true | _ => false end
           then [AnalysisEntry "Merge Conflicts"
                   "This PR has merge conflicts that need to be resolved before merging"]
           else []) ++
          (if Z.eqb (fp_comments_count pr_data) 0 && Z.eqb (fp_review_comments_count pr_data) 0
           then [AnalysisEntry "Review Status"
                   "No comments or reviews yet - consider requesting reviews from team members"]
           else [])
      end
  end.

End PrQuery.

(* ------------------------------------------------------------------ *)
(** ** [discover_analysis_agents] (main_agent.py) *)

(** An agent record of the marketplace search: its ["address"] (the empty
    string when the key is missing, as [agent.get('address', '')] gives),
    its other fields, and the ["search_query"] field the loop sets. *)
Record agent_rec := AgentRec {
  ag_address : string;
  ag_fields : dict;
  ag_search_query : option string }.

Definition search_queries (repo_url : string) : list string :=
  ["analyze repository code structure and suggest features for " ++ repo_url;
   "code analysis repository feature suggestions";
   "langchain code analyzer";
   "repository analysis AI agent";
   "GitHub repository feature enhancement"].

Section Discovery.

(** [fetch.ai(query)]: [POk (Some agents)] when the answer is truthy and has
    an ["ais"] list, [POk None] when it is falsy or has no ["ais"] key, or
    an exception (caught by the loop, which moves to the next query) *)
Variable fetch_ai : string -> pyresult (option (list agent_rec)).

(** the inner loop: [unique_addresses] and [all_agents] *)
Definition add_agent (query : string) (st : list string * list agent_rec) (agent : agent_rec)
    : list string * list agent_rec :=
  let '(unique_addresses, all_agents) := st in
  let address := ag_address agent in
  if negb (String.eqb address "") && negb (str_mem address unique_addresses)
  then (app unique_addresses [address],
        app all_agents [AgentRec (ag_address agent) (ag_fields agent) (Some query)])
  else (unique_addresses, all_agents).

Definition search_step (st : list string * list agent_rec) (query : string) : list string * list agent_rec :=
  match fetch_ai query with
  | POk (Some agents) => fold_left (add_agent query) agents st
  | POk None => st
  | PRaise _ => st
  end.

Definition discover_analysis_agents (repo_url : string) : list agent_rec :=
  snd (fold_left search_step (search_queries repo_url) ([], [])).

End Discovery.

(** the values [classify_project_type] can return *)
Definition project_type_names : list string :=
  ["web_app"; "ai_ml"; "scraping"; "competitive_programming"; "documentation"; "mobile_app"; "blockchain"].

(** Predicates used by the proofs below. *)

Definition sets_truthy (k : string) (f : dict -> dict) : Prop :=
  forall d, f d = d \/ exists v, truthy v = true /\ f d = dset k v d.

Definition list_at (k : string) (d : dict) : bool :=
  match dget k d with Some v => is_list v | None => false end.

Definition attempt_failed (json_loads : string -> pyresult dict) (ask : nat -> string -> pyresult string)
    (rs : list string) (call : nat * string) : bool :=
  negb (attempt_succeeded (fst (synth_attempt json_loads ask rs (fst call) (snd call)))).

(* ================================================================== *)
(** * Proofs *)

(** ** Dictionary lemmas *)

Lemma dget_app (k : string) (d1 d2 : dict) :
  dget k (app d1 d2) = match dget k d1 with Some v => Some v | None => dget k d2 end.
Proof.
  induction d1 as [|[k' v'] rest IH]; simpl; [reflexivity|].
  destruct (String.eqb k k'); [reflexivity|exact IH].
Qed.

Lemma dget_map_set (k : string) (v : json) (d : dict) :
  dget k (map (fun kv => if String.eqb k (fst kv) then (k, v) else kv) d) =
  if dmem k d then Some v else None.
Proof.
  unfold dmem.
  induction d as [|[k' v'] rest IH]; simpl; [reflexivity|].
  destruct (String.eqb k k') eqn:E; simpl.
  - rewrite String.eqb_refl. reflexivity.
  - rewrite E. exact IH.
Qed.

Lemma dget_dset_same (k : string) (v : json) (d : dict) : dget k (dset k v d) = Some v.
Proof.
  unfold dset. destruct (dmem k d) eqn:M.
  - rewrite dget_map_set, M. reflexivity.
  - rewrite dget_app. unfold dmem in M. destruct (dget k d); [discriminate|].
    simpl. rewrite String.eqb_refl. reflexivity.
Qed.

Lemma dget_map_set_other (k k' : string) (v : json) (d : dict) :
  k <> k' ->
  dget k (map (fun kv => if String.eqb k' (fst kv) then (k', v) else kv) d) = dget k d.
Proof.
  intro Hne.
  induction d as [|[k'' v''] rest IH]; simpl; [reflexivity|].
  destruct (String.eqb k' k'') eqn:E; simpl.
  - apply String.eqb_eq in E. subst k''.
    apply String.eqb_neq in Hne. rewrite Hne. exact IH.
  - destruct (String.eqb k k''); [reflexivity|exact IH].
Qed.

Lemma dget_dset_other (k k' : string) (v : json) (d : dict) :
  k <> k' -> dget k (dset k' v d) = dget k d.
Proof.
  intro Hne. unfold dset. destruct (dmem k' d).
  - apply dget_map_set_other; exact Hne.
  - rewrite dget_app. destruct (dget k d); [reflexivity|].
    simpl. apply String.eqb_neq in Hne. rewrite Hne. reflexivity.
Qed.

(** ** The steps of [validate_and_fix_issue_data]

    Each step either leaves the record alone or assigns one key a truthy
    value; everything below follows from that shape. *)

Lemma sets_truthy_present (k : string) (f : dict -> dict) (k' : string) (d : dict) :
  sets_truthy k f -> present_truthy k' d = true -> present_truthy k' (f d) = true.
Proof.
  intros Hf Hp. destruct (Hf d) as [-> | (v & Hv & ->)]; [exact Hp|].
  unfold present_truthy in *.
  destruct (String.eqb_spec k' k) as [<- | Hne].
  - rewrite dget_dset_same. exact Hv.
  - rewrite dget_dset_other by exact Hne. exact Hp.
Qed.

Lemma sets_truthy_other (k : string) (f : dict -> dict) (k' : string) (d : dict) :
  sets_truthy k f -> k' <> k -> dget k' (f d) = dget k' d.
Proof.
  intros Hf Hne. destruct (Hf d) as [-> | (v & _ & ->)]; [reflexivity|].
  apply dget_dset_other; exact Hne.
Qed.

Lemma fix_missing_sets (kv : string * json) :
  truthy (snd kv) = true -> sets_truthy (fst kv) (fun d => fix_missing d kv).
Proof.
  destruct kv as [k dv]; simpl; intros Hdv d. unfold fix_missing.
  destruct (dget k d) as [v|]; [destruct (truthy v)|]; eauto.
Qed.

Lemma fix_missing_makes (k : string) (dv : json) (d : dict) :
  truthy dv = true -> present_truthy k (fix_missing d (k, dv)) = true.
Proof.
  intro Hdv. unfold fix_missing, present_truthy.
  destruct (dget k d) as [v|] eqn:E; [destruct (truthy v) eqn:T|].
  - rewrite E. exact T.
  - rewrite dget_dset_same. exact Hdv.
  - rewrite dget_dset_same. exact Hdv.
Qed.

Lemma fix_enum_sets (k : string) (allowed : list string) : sets_truthy k (fix_enum k allowed).
Proof.
  intro d. unfold fix_enum.
  destruct (dget k d) as [v|]; [destruct (is_one_of v allowed)|];
    eauto using eq_refl.
  - right. exists (JStr "Medium"). split; reflexivity.
  - right. exists (JStr "Medium"). split; reflexivity.
Qed.

Lemma fix_list_sets (k : string) (dv : json) : truthy dv = true -> sets_truthy k (fix_list k dv).
Proof.
  intros Hdv d. unfold fix_list.
  destruct (dget k d) as [v|]; [destruct (is_list v)|]; eauto.
Qed.

Lemma fix_enum_ok (k : string) (allowed : list string) (d : dict) :
  In "Medium" allowed -> enum_ok k allowed (fix_enum k allowed d) = true.
Proof.
  intro Hin.
  assert (HM : is_one_of (JStr "Medium") allowed = true).
  { simpl. apply existsb_exists. exists "Medium". split; [exact Hin|reflexivity]. }
  unfold fix_enum, enum_ok.
  destruct (dget k d) as [v|] eqn:E; [destruct (is_one_of v allowed) eqn:O|].
  - rewrite E. exact O.
  - rewrite dget_dset_same. exact HM.
  - rewrite dget_dset_same. exact HM.
Qed.

Lemma fix_list_is_list (k : string) (dv : json) (d : dict) :
  is_list dv = true ->
  match dget k (fix_list k dv d) with Some v => is_list v | None => false end = true.
Proof.
  intro Hdv. unfold fix_list.
  destruct (dget k d) as [v|] eqn:E; [destruct (is_list v) eqn:O|].
  - rewrite E. exact O.
  - rewrite dget_dset_same. exact Hdv.
  - rewrite dget_dset_same. exact Hdv.
Qed.

Lemma fold_fix_missing_present (ds : list (string * json)) (d : dict) (k : string) :
  Forall (fun kv => truthy (snd kv) = true) ds ->
  (In k (map fst ds) \/ present_truthy k d = true) ->
  present_truthy k (fold_left fix_missing ds d) = true.
Proof.
  revert d. induction ds as [|[k' dv] rest IH]; simpl; intros d Hall Hk.
  - destruct Hk as [[]|Hk]; exact Hk.
  - inversion Hall as [|? ? Hdv Hrest]; subst. simpl in Hdv.
    apply IH; [exact Hrest|].
    destruct Hk as [[<- | Hin] | Hp].
    + right. apply fix_missing_makes. exact Hdv.
    + left. exact Hin.
    + right. apply (sets_truthy_present k' (fun d => fix_missing d (k', dv)));
        [apply (fix_missing_sets (k', dv)); exact Hdv | exact Hp].
Qed.

Lemma defaults_truthy : Forall (fun kv => truthy (snd kv) = true) defaults.
Proof. repeat constructor. Qed.

Lemma after_defaults_present (d : dict) (k : string) :
  In k canonical_keys -> present_truthy k (fold_left fix_missing defaults d) = true.
Proof.
  intro Hk. apply fold_fix_missing_present; [exact defaults_truthy|left; exact Hk].
Qed.

Lemma sets_truthy_fix_missing_default (kv : string * json) :
  In kv defaults -> sets_truthy (fst kv) (fun d => fix_missing d kv).
Proof.
  intro Hin. apply fix_missing_sets.
  pose proof defaults_truthy as H. rewrite Forall_forall in H. exact (H kv Hin).
Qed.

Lemma enum_ok_other (k k' : string) (allowed : list string) (f : dict -> dict) (d : dict) :
  sets_truthy k' f -> k <> k' -> enum_ok k allowed (f d) = enum_ok k allowed d.
Proof.
  intros Hf Hne. unfold enum_ok. rewrite (sets_truthy_other k' f k d Hf Hne). reflexivity.
Qed.

Lemma list_at_other (k k' : string) (f : dict -> dict) (d : dict) :
  sets_truthy k' f -> k <> k' -> list_at k (f d) = list_at k d.
Proof.
  intros Hf Hne. unfold list_at. rewrite (sets_truthy_other k' f k d Hf Hne). reflexivity.
Qed.

Lemma nonempty_list_of (k : string) (d : dict) :
  list_at k d = true -> present_truthy k d = true -> nonempty_list k d = true.
Proof.
  unfold list_at, present_truthy, nonempty_list.
  destruct (dget k d) as [v|]; [|discriminate].
  destruct v as [| | | |l|]; try discriminate.
  destruct l; [discriminate|reflexivity].
Qed.

Ltac step_present :=
  match goal with
  | |- present_truthy _ (fix_list ?k ?dv _) = true =>
      apply (sets_truthy_present k (fix_list k dv)); [apply fix_list_sets; reflexivity|]
  | |- present_truthy _ (fix_enum ?k ?a _) = true =>
      apply (sets_truthy_present k (fix_enum k a)); [apply fix_enum_sets|]
  end.

Lemma validate_present (d : dict) (k : string) :
  In k canonical_keys -> present_truthy k (validate_and_fix_issue_data d) = true.
Proof.
  intro Hk. unfold validate_and_fix_issue_data.
  do 5 step_present. apply after_defaults_present. exact Hk.
Qed.

Lemma validate_difficulty (d : dict) :
  enum_ok "difficulty" ["Easy"; "Medium"; "Hard"] (validate_and_fix_issue_data d) = true.
Proof.
  unfold validate_and_fix_issue_data.
  rewrite (enum_ok_other _ "acceptance_criteria" _ (fix_list "acceptance_criteria" default_acceptance));
    [|apply fix_list_sets; reflexivity|discriminate].
  rewrite (enum_ok_other _ "technical_requirements" _ (fix_list "technical_requirements" default_tech_reqs));
    [|apply fix_list_sets; reflexivity|discriminate].
  rewrite (enum_ok_other _ "labels" _ (fix_list "labels" default_labels));
    [|apply fix_list_sets; reflexivity|discriminate].
  rewrite (enum_ok_other _ "priority" _ (fix_enum "priority" ["Low"; "Medium"; "High"]));
    [|apply fix_enum_sets|discriminate].
  apply fix_enum_ok. simpl; auto.
Qed.

Lemma validate_priority (d : dict) :
  enum_ok "priority" ["Low"; "Medium"; "High"] (validate_and_fix_issue_data d) = true.
Proof.
  unfold validate_and_fix_issue_data.
  rewrite (enum_ok_other _ "acceptance_criteria" _ (fix_list "acceptance_criteria" default_acceptance));
    [|apply fix_list_sets; reflexivity|discriminate].
  rewrite (enum_ok_other _ "technical_requirements" _ (fix_list "technical_requirements" default_tech_reqs));
    [|apply fix_list_sets; reflexivity|discriminate].
  rewrite (enum_ok_other _ "labels" _ (fix_list "labels" default_labels));
    [|apply fix_list_sets; reflexivity|discriminate].
  apply fix_enum_ok. simpl; auto.
Qed.

Lemma validate_lists (d : dict) :
  list_at "labels" (validate_and_fix_issue_data d) = true /\
  list_at "technical_requirements" (validate_and_fix_issue_data d) = true /\
  list_at "acceptance_criteria" (validate_and_fix_issue_data d) = true.
Proof.
  unfold validate_and_fix_issue_data.
  set (d0 := fix_enum "priority" _ (fix_enum "difficulty" _ (fold_left fix_missing defaults d))).
  repeat split.
  - rewrite (list_at_other _ "acceptance_criteria" (fix_list "acceptance_criteria" default_acceptance));
      [|apply fix_list_sets; reflexivity|discriminate].
    rewrite (list_at_other _ "technical_requirements" (fix_list "technical_requirements" default_tech_reqs));
      [|apply fix_list_sets; reflexivity|discriminate].
    apply fix_list_is_list; reflexivity.
  - rewrite (list_at_other _ "acceptance_criteria" (fix_list "acceptance_criteria" default_acceptance));
      [|apply fix_list_sets; reflexivity|discriminate].
    apply fix_list_is_list; reflexivity.
  - apply fix_list_is_list; reflexivity.
Qed.

Lemma validate_complete_record (d : dict) : complete_record (validate_and_fix_issue_data d) = true.
Proof.
  unfold complete_record.
  destruct (validate_lists d) as (L1 & L2 & L3).
  rewrite validate_difficulty, validate_priority.
  rewrite !nonempty_list_of; try assumption;
    try (apply validate_present; simpl; tauto).
  rewrite !andb_true_r.
  apply forallb_forall. intros k Hk. apply validate_present. exact Hk.
Qed.

(** ** A complete record is left unchanged *)

Lemma fold_fix_missing_id (ds : list (string * json)) (d : dict) :
  (forall k, In k (map fst ds) -> present_truthy k d = true) ->
  fold_left fix_missing ds d = d.
Proof.
  induction ds as [|[k dv] rest IH]; cbn [fold_left map fst]; intro H; [reflexivity|].
  assert (Hk : present_truthy k d = true) by (apply H; left; reflexivity).
  unfold present_truthy in Hk.
  assert (E : fix_missing d (k, dv) = d).
  { unfold fix_missing. destruct (dget k d) as [v|]; [|discriminate]. rewrite Hk. reflexivity. }
  rewrite E. apply IH. intros k' Hk'. apply H. right. exact Hk'.
Qed.

Lemma fix_enum_id (k : string) (allowed : list string) (d : dict) :
  enum_ok k allowed d = true -> fix_enum k allowed d = d.
Proof.
  unfold enum_ok, fix_enum. destruct (dget k d) as [v|]; [|discriminate].
  intro H. rewrite H. reflexivity.
Qed.

Lemma fix_list_id (k : string) (dv : json) (d : dict) :
  nonempty_list k d = true -> fix_list k dv d = d.
Proof.
  unfold nonempty_list, fix_list. destruct (dget k d) as [v|]; [|discriminate].
  destruct v as [| | | |l|]; try discriminate. reflexivity.
Qed.

Lemma validate_complete_id (d : dict) :
  complete_record d = true -> validate_and_fix_issue_data d = d.
Proof.
  unfold complete_record. intro H.
  repeat rewrite andb_true_iff in H.
  destruct H as (((((Hall & Hdiff) & Hprio) & Hlab) & Htech) & Hacc).
  rewrite forallb_forall in Hall.
  unfold validate_and_fix_issue_data.
  rewrite (fold_fix_missing_id defaults d Hall).
  rewrite (fix_enum_id _ _ d Hdiff), (fix_enum_id _ _ d Hprio).
  rewrite (fix_list_id _ _ d Hlab), (fix_list_id _ _ d Htech), (fix_list_id _ _ d Hacc).
  reflexivity.
Qed.

(** ** Keys outside the eight canonical fields are never touched *)

Lemma fold_fix_missing_other (ds : list (string * json)) (d : dict) (k : string) :
  ~ In k (map fst ds) -> dget k (fold_left fix_missing ds d) = dget k d.
Proof.
  revert d. induction ds as [|[k' dv] rest IH]; cbn [fold_left map fst]; intros d Hk; [reflexivity|].
  rewrite IH by (simpl in Hk; tauto).
  unfold fix_missing.
  assert (Hne : k <> k') by (intro E; apply Hk; left; symmetry; exact E).
  clear IH Hk.
  destruct (dget k' d) as [v|]; [destruct (truthy v)|];
    try reflexivity; apply dget_dset_other; exact Hne.
Qed.

Lemma not_canonical (k : string) :
  str_mem k canonical_keys = false -> ~ In k canonical_keys.
Proof.
  intros H Hin. unfold str_mem in H.
  assert (existsb (String.eqb k) canonical_keys = true).
  { apply existsb_exists. exists k. split; [exact Hin|apply String.eqb_refl]. }
  congruence.
Qed.

Lemma validate_frame (d : dict) (k : string) :
  ~ In k canonical_keys -> dget k (validate_and_fix_issue_data d) = dget k d.
Proof.
  intro Hk. unfold validate_and_fix_issue_data.
  assert (N : forall k', In k' canonical_keys -> k <> k') by (intros k' Hk' ->; contradiction).
  rewrite (sets_truthy_other "acceptance_criteria" (fix_list "acceptance_criteria" default_acceptance) k);
    [| apply fix_list_sets; reflexivity | apply N; simpl; tauto].
  rewrite (sets_truthy_other "technical_requirements" (fix_list "technical_requirements" default_tech_reqs) k);
    [| apply fix_list_sets; reflexivity | apply N; simpl; tauto].
  rewrite (sets_truthy_other "labels" (fix_list "labels" default_labels) k);
    [| apply fix_list_sets; reflexivity | apply N; simpl; tauto].
  rewrite (sets_truthy_other "priority" (fix_enum "priority" ["Low"; "Medium"; "High"]) k);
    [| apply fix_enum_sets | apply N; simpl; tauto].
  rewrite (sets_truthy_other "difficulty" (fix_enum "difficulty" ["Easy"; "Medium"; "Hard"]) k);
    [| apply fix_enum_sets | apply N; simpl; tauto].
  apply fold_fix_missing_other. exact Hk.
Qed.

(** ** Extraction outcomes *)

Lemma extract_json_cases (json_loads : string -> pyresult dict) (response : string) :
  extract_json_from_response json_loads response = None \/
  exists d, has_fields min_required_fields d = true /\
            extract_json_from_response json_loads response = Some (validate_and_fix_issue_data d).
Proof.
  unfold extract_json_from_response.
  destruct (json_candidate _) as [js|]; [|left; reflexivity].
  destruct (json_loads js) as [d|e]; [|left; reflexivity].
  destruct (has_fields min_required_fields d) eqn:H; [|left; reflexivity].
  right. exists d. split; [exact H|reflexivity].
Qed.

Lemma synth_attempt_cases (json_loads : string -> pyresult dict) (ask : nat -> string -> pyresult string)
    (rs : list string) (i : nat) (p : string) :
  match fst (synth_attempt json_loads ask rs i p) with
  | POk (Some r) => exists d, has_fields synth_required_fields d = true /\ r = validate_and_fix_issue_data d
  | _ => True
  end.
Proof.
  unfold synth_attempt.
  destruct (ask i p) as [response|e]; [|exact I].
  destruct (json_candidate _) as [js|]; [|exact I].
  destruct (json_loads js) as [d|[|]]; [|exact I|exact I].
  destruct (has_fields synth_required_fields d) eqn:H; [|exact I].
  exists d. split; [exact H|reflexivity].
Qed.

(** ** The synthesis loop *)

Lemma synth_loop_spec (json_loads : string -> pyresult dict) (ask : nat -> string -> pyresult string)
    (rs : list string) (url : string) (attempts : list nat) (prompt : string) :
  let L := synth_loop json_loads ask rs url attempts prompt in
  map fst (fst L) = firstn (length (fst L)) attempts /\
  ((exists pre i p d, fst L = app pre [(i, p)] /\
                      forallb (attempt_failed json_loads ask rs) pre = true /\
                      fst (synth_attempt json_loads ask rs i p) = POk (Some d) /\
                      snd L = Synthesized d)
   \/ (length (fst L) = length attempts /\
       forallb (attempt_failed json_loads ask rs) (fst L) = true /\
       snd L = FellBack (create_smart_fallback_from_responses rs url))).
Proof.
  revert prompt. induction attempts as [|i rest IH]; intro prompt; cbn zeta.
  - simpl. split; [reflexivity|]. right. repeat split.
  - simpl synth_loop.
    destruct (synth_attempt json_loads ask rs i prompt) as [r prompt'] eqn:E.
    assert (Hfail : match r with POk (Some _) => False | _ => True end ->
                    attempt_failed json_loads ask rs (i, prompt) = true).
    { unfold attempt_failed. simpl. rewrite E. simpl. destruct r as [[d|]|e]; simpl; tauto. }
    destruct r as [[d|]|e].
    + simpl. split; [reflexivity|]. left. exists [], i, prompt, d.
      rewrite E. repeat split.
    + specialize (IH prompt'). cbn zeta in IH.
      destruct (synth_loop json_loads ask rs url rest prompt') as [calls out].
      simpl in IH |- *. destruct IH as [Hmap Hcases].
      split; [rewrite Hmap; reflexivity|].
      destruct Hcases as [(pre & i' & p' & d & Hc & Hf & Hs & Ho) | (Hl & Hf & Ho)].
      * left. exists ((i, prompt) :: pre), i', p', d. subst calls.
        repeat split; try assumption. simpl. rewrite Hfail by exact I. exact Hf.
      * right. repeat split; try assumption; [simpl; rewrite Hl; reflexivity|].
        simpl. rewrite Hfail by exact I. exact Hf.
    + specialize (IH prompt'). cbn zeta in IH.
      destruct (synth_loop json_loads ask rs url rest prompt') as [calls out].
      simpl in IH |- *. destruct IH as [Hmap Hcases].
      split; [rewrite Hmap; reflexivity|].
      destruct Hcases as [(pre & i' & p' & d & Hc & Hf & Hs & Ho) | (Hl & Hf & Ho)].
      * left. exists ((i, prompt) :: pre), i', p', d. subst calls.
        repeat split; try assumption. simpl. rewrite Hfail by exact I. exact Hf.
      * right. repeat split; try assumption; [simpl; rewrite Hl; reflexivity|].
        simpl. rewrite Hfail by exact I. exact Hf.
Qed.

Lemma substring_length_le (n m : nat) (s : string) : String.length (substring n m s) <= m.
Proof.
  revert n m. induction s as [|c t IH]; intros n m; destruct n, m; simpl; try lia.
  - specialize (IH 0 m). lia.
  - apply IH.
  - apply IH.
Qed.

Lemma str_length_app (a b : string) : String.length (a ++ b) = String.length a + String.length b.
Proof. induction a as [|c t IH]; simpl; [reflexivity|rewrite IH; reflexivity]. Qed.

Lemma clean_title_short (t : string) : String.length (clean_title t) <= 80.
Proof.
  unfold clean_title.
  destruct (Nat.ltb 80 _) eqn:E.
  - rewrite str_length_app. pose proof (substring_length_le 0 77 (before_dot
      (lstrip_by (fun c => negb (is_word_char c)) t))). simpl. lia.
  - apply Nat.ltb_ge in E. exact E.
Qed.

(** ** Keyword scoring of the fallback *)

Lemma max_by_score_spec (l : list (string * nat)) (b : string * nat) :
  exists pre post,
    b :: l = app pre (max_by_score b l :: post) /\
    Forall (fun p => snd p < snd (max_by_score b l)) pre /\
    Forall (fun p => snd p <= snd (max_by_score b l)) post.
Proof.
  revert b. induction l as [|p rest IH]; intro b.
  - exists [], []. simpl. repeat split; constructor.
  - cbn [max_by_score]. destruct (Nat.ltb (snd b) (snd p)) eqn:E.
    + apply Nat.ltb_lt in E.
      destruct (IH p) as (pre & post & Heq & Hpre & Hpost).
      generalize dependent (max_by_score p rest). intros r Heq Hpre Hpost.
      exists (b :: pre), post.
      split; [simpl; rewrite Heq; reflexivity|]. split; [|exact Hpost].
      constructor; [|exact Hpre].
      destruct pre as [|q pre0]; simpl in Heq; injection Heq as Hq _.
      * rewrite <- Hq. exact E.
      * subst q. inversion Hpre; subst. lia.
    + apply Nat.ltb_ge in E.
      destruct (IH b) as (pre & post & Heq & Hpre & Hpost).
      generalize dependent (max_by_score b rest). intros r Heq Hpre Hpost.
      destruct pre as [|q pre0]; simpl in Heq; injection Heq as Hq Hrest.
      * subst r post. exists [], (p :: rest). simpl. repeat split; [constructor|].
        constructor; [exact E|exact Hpost].
      * subst q. inversion Hpre as [|? ? Hb Hpre0]; subst.
        exists (b :: p :: pre0), post. simpl.
        repeat split; [|exact Hpost]. constructor; [exact Hb|]. constructor; [lia|exact Hpre0].
Qed.

Lemma filter_split {A : Type} (f : A -> bool) (l pre post : list A) (x : A) :
  filter f l = app pre (x :: post) ->
  exists pre' post', l = app pre' (x :: post') /\ filter f pre' = pre /\ filter f post' = post.
Proof.
  revert pre. induction l as [|a l' IH]; intros pre H.
  - destruct pre; discriminate.
  - simpl in H. destruct (f a) eqn:Fa.
    + destruct pre as [|q pre0]; simpl in H; injection H as Hq Hl.
      * subst x. exists [], l'. repeat split. exact Hl.
      * subst q. destruct (IH pre0 Hl) as (pre1 & post1 & E1 & F1 & F2).
        exists (a :: pre1), post1. simpl. rewrite Fa, E1, F1. repeat split. exact F2.
    + destruct (IH pre H) as (pre1 & post1 & E1 & F1 & F2).
      exists (a :: pre1), post1. simpl. rewrite Fa, E1. repeat split; assumption.
Qed.

Lemma filter_nil_forall {A : Type} (f : A -> bool) (l : list A) :
  filter f l = [] -> Forall (fun x => f x = false) l.
Proof.
  induction l as [|a l' IH]; simpl; intro H; [constructor|].
  destruct (f a) eqn:Fa; [discriminate|]. constructor; [exact Fa|]. apply IH. exact H.
Qed.

Lemma best_feature_by_spec (hit : string -> bool) :
  let sc := all_scores_by hit in
  let b := best_feature_by hit in
  (Forall (fun p => snd p = 0) sc /\ b = "search") \/
  (exists pre n post, sc = app pre ((b, n) :: post) /\ 0 < n /\
     Forall (fun p => snd p < n) pre /\ Forall (fun p => snd p <= n) post).
Proof.
  cbn zeta. unfold best_feature_by, feature_scores_by.
  set (f := fun p : string * nat => Nat.ltb 0 (snd p)).
  destruct (filter f (all_scores_by hit)) as [|p rest] eqn:Ef.
  - left. split; [|reflexivity].
    apply filter_nil_forall in Ef. eapply Forall_impl; [|exact Ef].
    intros q Hq. unfold f in Hq. apply Nat.ltb_ge in Hq. lia.
  - right.
    destruct (max_by_score_spec rest p) as (pre & post & Heq & Hpre & Hpost).
    set (r := max_by_score p rest) in *.
    rewrite Heq in Ef.
    assert (Hr : f r = true).
    { assert (Hin : In r (filter f (all_scores_by hit))) by (rewrite Ef; apply in_elt).
      apply filter_In in Hin. apply Hin. }
    unfold f in Hr. apply Nat.ltb_lt in Hr.
    destruct (filter_split f _ _ _ _ Ef) as (pre' & post' & E1 & F1 & F2).
    exists pre', (snd r), post'.
    rewrite <- (surjective_pairing r). split; [exact E1|]. split; [exact Hr|]. split.
    + apply Forall_forall. intros q Hq. destruct (f q) eqn:Fq.
      * assert (Hq' : In q pre) by (rewrite <- F1; apply filter_In; split; assumption).
        rewrite Forall_forall in Hpre. apply Hpre. exact Hq'.
      * unfold f in Fq. apply Nat.ltb_ge in Fq. lia.
    + apply Forall_forall. intros q Hq. destruct (f q) eqn:Fq.
      * assert (Hq' : In q post) by (rewrite <- F2; apply filter_In; split; assumption).
        rewrite Forall_forall in Hpost. apply Hpost. exact Hq'.
      * unfold f in Fq. apply Nat.ltb_ge in Fq. lia.
Qed.

Lemma best_feature_by_ext (hit1 hit2 : string -> bool) :
  (forall k, In k all_keywords -> hit1 k = hit2 k) ->
  best_feature_by hit1 = best_feature_by hit2.
Proof.
  intro H. unfold best_feature_by, feature_scores_by.
  assert (E : all_scores_by hit1 = all_scores_by hit2).
  { unfold all_scores_by. apply map_ext_in. intros fk Hfk. f_equal.
    unfold keyword_score. f_equal. apply filter_ext_in. intros k Hk.
    apply H. unfold all_keywords. apply in_flat_map. exists fk. split; assumption. }
  rewrite E. reflexivity.
Qed.

Lemma best_feature_by_category (hit : string -> bool) :
  In (best_feature_by hit) (map fst feature_patterns).
Proof.
  destruct (best_feature_by_spec hit) as [(_ & ->) | (pre & n & post & E & _)].
  - simpl. tauto.
  - change (map fst feature_patterns) with (map fst (all_scores_by hit)).
    rewrite E, map_app. apply in_or_app. right. left. reflexivity.
Qed.

Lemma is_prefix_app (a b s : string) : is_prefix (a ++ b) s = true -> is_prefix a s = true.
Proof.
  revert s. induction a as [|c a' IH]; intros s H; [reflexivity|].
  destruct s as [|d s']; [discriminate|]. simpl in *.
  apply andb_true_iff in H. destruct H as [H1 H2]. rewrite H1. simpl. apply IH. exact H2.
Qed.

Lemma contains_app_l (a b t : string) : contains (a ++ b) t = true -> contains a t = true.
Proof.
  induction t as [|c t' IH]; simpl; intro H.
  - rewrite orb_false_r in H. rewrite (is_prefix_app a b _ H). reflexivity.
  - apply orb_true_iff in H. destruct H as [H|H].
    + rewrite (is_prefix_app a b _ H). reflexivity.
    + rewrite (IH H). apply orb_true_r.
Qed.

(** ** Lower-casing and substring search *)

Lemma is_prefix_lower (p s : string) :
  is_prefix p s = true -> is_prefix (lower p) (lower s) = true.
Proof.
  revert s. induction p as [|a p IH]; intros s H; [reflexivity|].
  destruct s as [|b s]; [discriminate|].
  simpl in *. apply andb_true_iff in H as [Hab H].
  apply Ascii.eqb_eq in Hab. subst b.
  rewrite Ascii.eqb_refl. simpl. apply IH. exact H.
Qed.

Lemma contains_lower (n h : string) :
  contains n h = true -> contains (lower n) (lower h) = true.
Proof.
  induction h as [|c h IH]; intro H.
  - change (is_prefix n "" || false = true) in H. rewrite orb_false_r in H.
    change (is_prefix (lower n) "" || false = true).
    rewrite orb_false_r. exact (is_prefix_lower n "" H).
  - change (contains n (String c h)) with (is_prefix n (String c h) || contains n h) in H.
    change (contains (lower n) (lower (String c h)))
      with (is_prefix (lower n) (String (lower_char c) (lower h)) || contains (lower n) (lower h)).
    apply orb_true_iff in H as [H|H].
    + pose proof (is_prefix_lower n (String c h) H) as Hp. simpl lower in Hp.
      rewrite Hp. reflexivity.
    + rewrite (IH H). apply orb_true_r.
Qed.

Lemma contains_empty_hay (n : string) : n <> "" -> contains n "" = false.
Proof. destruct n; [congruence|reflexivity]. Qed.

Lemma lower_app (a b : string) : lower (a ++ b) = lower a ++ lower b.
Proof. induction a as [|c a IH]; simpl; [reflexivity|]. rewrite IH. reflexivity. Qed.

Lemma is_prefix_self_app (p s : string) : is_prefix p (p ++ s) = true.
Proof.
  induction p as [|c p IH]; [reflexivity|].
  simpl. rewrite Ascii.eqb_refl. exact IH.
Qed.

Lemma contains_prefix_app (p s : string) : contains p (p ++ s) = true.
Proof.
  destruct p as [|c p]; [destruct s; reflexivity|].
  change (contains (String c p) (String c p ++ s))
    with (is_prefix (String c p) (String c p ++ s) || contains (String c p) (p ++ s)).
  rewrite is_prefix_self_app. reflexivity.
Qed.

(** ** Project classification *)

Lemma classify_by_description_machine_learning (d : string) :
  contains "machine learning" d = true -> classify_by_description (lower d) = Some "ai_ml".
Proof.
  intro H. apply contains_lower in H. change (lower "machine learning") with "machine learning" in H.
  unfold classify_by_description.
  destruct (String.eqb_spec (lower d) "") as [E|E].
  - rewrite E in H. discriminate H.
  - replace (any_in ai_keywords (lower d)) with true; [reflexivity|].
    symmetry. unfold any_in. apply existsb_exists.
    exists "machine learning". split; [simpl; tauto | exact H].
Qed.

Lemma classify_project_type_description (rd : repo_info) (ty : string) :
  classify_by_description (lower_or_empty (rd_description rd)) = Some ty ->
  classify_project_type (Some rd) = ty.
Proof. intro H. unfold classify_project_type. cbv zeta. rewrite H. reflexivity. Qed.

(** ** Pull-request classification *)

Lemma initialize_pr_knowledge_graph_nil : initialize_pr_knowledge_graph [] = pr_seed.
Proof. vm_compute. reflexivity. Qed.

Definition pr_type_names : list string :=
  ["feature"; "bugfix"; "refactor"; "docs"; "security"; "performance"].

Lemma filter_all_false {A : Type} (f : A -> bool) (l : list A) :
  (forall x, In x l -> f x = false) -> filter f l = [].
Proof.
  induction l as [|a l IH]; intro H; simpl; [reflexivity|].
  rewrite (H a (or_introl eq_refl)). apply IH. intros x Hx. apply H. right. exact Hx.
Qed.

Lemma pr_seed_pr_type_subjects :
  forallb (fun a => negb (String.eqb "pr_type" (a_rel a)) || str_mem (a_subj a) pr_type_names) pr_seed = true.
Proof. vm_compute. reflexivity. Qed.

Lemma match_objs_pr_type_other (s : string) :
  ~ In s pr_type_names -> match_objs "pr_type" s pr_seed = [].
Proof.
  intro H. unfold match_objs. rewrite filter_all_false; [reflexivity|].
  intros a Ha. pose proof pr_seed_pr_type_subjects as Hs.
  rewrite forallb_forall in Hs. specialize (Hs a Ha).
  destruct (String.eqb "pr_type" (a_rel a)); [|reflexivity].
  rewrite orb_false_l in Hs. destruct (String.eqb_spec s (a_subj a)) as [E|E]; [|reflexivity].
  exfalso. apply H. rewrite E. unfold str_mem in Hs.
  apply existsb_exists in Hs as (y & Hy & Ey). apply String.eqb_eq in Ey. subst y. exact Hy.
Qed.

Lemma plan_for_areas_pr_seed (ty : string) :
  exists l, plan_for_areas pr_seed ty (query_pr_analysis_areas pr_seed ty) = POk l.
Proof.
  unfold query_pr_analysis_areas, metta_run_match.
  destruct (in_dec string_dec (strip_quotes ty) pr_type_names) as [Hin|Hout].
  - simpl in Hin.
    repeat (destruct Hin as [Hin|Hin]; [rewrite <- Hin; vm_compute; eexists; reflexivity|]).
    destruct Hin.
  - rewrite (match_objs_pr_type_other _ Hout). eexists. reflexivity.
Qed.

Lemma plan_for_types_pr_seed (types : list string) :
  exists p, plan_for_types pr_seed types = POk p.
Proof.
  induction types as [|ty rest IH]; [eexists; reflexivity|].
  destruct (plan_for_areas_pr_seed ty) as [l Hl]. destruct IH as [p Hp].
  simpl. rewrite Hl, Hp. eexists. reflexivity.
Qed.

Lemma dedup_NoDup (l : list string) : NoDup (dedup l).
Proof.
  induction l as [|x rest IH]; simpl; constructor.
  - rewrite filter_In. intros [_ H]. rewrite String.eqb_refl in H. discriminate H.
  - apply NoDup_filter. exact IH.
Qed.

Lemma dedup_In (x : string) (l : list string) : In x (dedup l) <-> In x l.
Proof.
  induction l as [|y rest IH]; simpl; [tauto|].
  rewrite filter_In, <- IH.
  destruct (String.eqb_spec y x) as [<-|Hne]; simpl.
  - tauto.
  - split; [intros [H|[H _]]; tauto|].
    intros [H|H]; [tauto|right; split; [exact H|reflexivity]].
Qed.

(** a set order: a permutation of [dedup] lists each element once *)
Lemma set_list_facts (set_list : list string -> list string) (l : list string) :
  Permutation (set_list l) (dedup l) ->
  NoDup (set_list l) /\ (forall x, In x (set_list l) <-> In x l).
Proof.
  intro Hp. split.
  - apply (Permutation_NoDup (Permutation_sym Hp)). apply dedup_NoDup.
  - intro x. rewrite <- (dedup_In x l). split; apply Permutation_in; [exact Hp|apply Permutation_sym; exact Hp].
Qed.

Lemma fold_left_keeps {A : Type} (f : list string -> A -> list string) (x : string) :
  (forall acc y, In x acc -> In x (f acc y)) ->
  forall l acc, In x acc -> In x (fold_left f l acc).
Proof.
  intros Hf l. induction l as [|y l IH]; intros acc H; simpl; [exact H|].
  apply IH, Hf, H.
Qed.

Lemma fold_left_cons_keeps {A : Type} (f : list string -> A -> list string) (x : string)
    (y0 : A) (l : list A) (acc : list string) :
  (forall acc y, In x acc -> In x (f acc y)) ->
  In x (f acc y0) -> In x (fold_left f (y0 :: l) acc).
Proof. intros Hf H. simpl. apply fold_left_keeps; assumption. Qed.

Lemma collect_symbols_keeps (x : string) (r : list (list atom_obj)) (acc : list string) :
  In x acc -> In x (collect_symbols r acc).
Proof.
  unfold collect_symbols. apply fold_left_keeps.
  intros acc' y H. destruct (_ && _); [apply in_or_app; left|]; exact H.
Qed.

Lemma collect_symbols_single (s : string) (acc : list string) :
  strip s = s -> s <> "" -> In s (collect_symbols [[Sym s]] acc).
Proof.
  intros Hs Hne. unfold collect_symbols. simpl. rewrite Hs.
  destruct (String.eqb_spec s "") as [E|_]; [congruence|]. simpl.
  destruct (str_mem s acc) eqn:M; simpl.
  - unfold str_mem in M. apply existsb_exists in M as (y & Hy & E).
    apply String.eqb_eq in E. subst y. exact Hy.
  - apply in_or_app. right. left. reflexivity.
Qed.

Lemma classify_file_keeps (sp : space) (x : string) (acc : list string) (f : string) :
  In x acc -> In x (classify_file sp acc f).
Proof.
  unfold classify_file. apply fold_left_keeps.
  intros acc' y H. destruct (contains _ _); [apply collect_symbols_keeps|]; exact H.
Qed.

Lemma classify_file_test_utils (acc : list string) :
  In "feature" (classify_file pr_seed acc "test_utils.py").
Proof.
  unfold classify_file, file_patterns.
  apply fold_left_cons_keeps.
  - intros acc' y H. destruct (contains _ _); [apply collect_symbols_keeps|]; exact H.
  - change (contains (lower "test") (lower "test_utils.py")) with true. cbv iota.
    change (metta_run_match "file_pattern" "test" pr_seed) with [[Sym "feature"]].
    apply collect_symbols_single; [reflexivity | discriminate].
Qed.

Lemma classify_pr_by_files_test_utils (files : list string) :
  In "test_utils.py" files -> In "feature" (classify_pr_by_files pr_seed files).
Proof.
  intro H. apply in_split in H as (pre & post & ->).
  unfold classify_pr_by_files.
  assert (Hf : In "feature" (fold_left (classify_file pr_seed) (app pre ("test_utils.py" :: post)) [])).
  { rewrite fold_left_app. simpl.
    apply fold_left_keeps; [intros; apply classify_file_keeps; assumption|].
    apply classify_file_test_utils. }
  destruct (fold_left _ _ _); [left; reflexivity | exact Hf].
Qed.

Lemma analyze_pr_title_fix (rest : string) (body : option string) :
  In "bugfix" (analyze_pr_title_description ("Fix" ++ rest) body).
Proof.
  unfold analyze_pr_title_description.
  rewrite !lower_app. change (lower "Fix") with "fix".
  cbn [type_keywords filter].
  replace (any_in ["fix"; "bug"; "issue"; "error"; "problem"; "resolve"]
             ("fix" ++ lower rest ++ lower " " ++ lower (py_str body))) with true.
  - simpl. left. reflexivity.
  - symmetry. unfold any_in. cbn [existsb]. rewrite contains_prefix_app. reflexivity.
Qed.

(** ** Repository query *)

Lemma add_fallback_features_nonempty (l : list feature_entry) :
  l <> [] -> add_fallback_features l = l.
Proof. destruct l; [congruence|reflexivity]. Qed.

(* ================================================================== *)
(** * Claims *)

(** C1: [synthesize_analysis] calls the model at most three times (attempts
    0, 1, 2 in order) and always ends in one of two ways: a record that a
    successful attempt produced after only failed attempts (every such
    record complete), or, after exactly three failed attempts (a raised
    exception counting as a failure), the deterministic fallback record. *)
Theorem synthesize_analysis_terminates (json_loads : string -> pyresult dict)
    (ask : nat -> string -> pyresult string) (rs : list string) (url : string) :
  let S := synthesize_analysis json_loads ask rs url in
  length (fst S) <= 3 /\
  map fst (fst S) = firstn (length (fst S)) [0; 1; 2] /\
  ((exists pre i p d, fst S = app pre [(i, p)] /\
                      forallb (attempt_failed json_loads ask rs) pre = true /\
                      fst (synth_attempt json_loads ask rs i p) = POk (Some d) /\
                      snd S = Synthesized d /\ complete_record d = true)
   \/ (length (fst S) = 3 /\
       forallb (attempt_failed json_loads ask rs) (fst S) = true /\
       snd S = FellBack (create_smart_fallback_from_responses rs url))).
Proof.
  cbn zeta. unfold synthesize_analysis.
  destruct (synth_loop_spec json_loads ask rs url [0; 1; 2] (synthesis_prompt rs url))
    as [Hmap Hcases].
  assert (Hlen : length (fst (synth_loop json_loads ask rs url [0; 1; 2] (synthesis_prompt rs url))) <= 3).
  { rewrite <- (length_map fst), Hmap. rewrite length_firstn. simpl. lia. }
  split; [exact Hlen|]. split; [exact Hmap|].
  destruct Hcases as [(pre & i & p & d & Hc & Hf & Hs & Ho) | H].
  - left. exists pre, i, p, d. repeat split; try assumption.
    pose proof (synth_attempt_cases json_loads ask rs i p) as Hd. rewrite Hs in Hd.
    destruct Hd as (d0 & _ & ->). apply validate_complete_record.
  - right. exact H.
Qed.

(** ** The two enum fields after the defaulting pass *)

Lemma fix_missing_get (k : string) (kv : string * json) (d : dict) :
  dget k (fix_missing d kv) =
  if String.eqb k (fst kv)
  then match dget k d with Some v => if truthy v then Some v else Some (snd kv) | None => Some (snd kv) end
  else dget k d.
Proof.
  destruct kv as [k' dv]. unfold fix_missing. cbn [fst snd].
  destruct (String.eqb_spec k k') as [Ek|Hne].
  - subst k'. try rewrite String.eqb_refl.
    destruct (dget k d) as [v|] eqn:E; [destruct (truthy v)|];
      try rewrite dget_dset_same; try rewrite E; reflexivity.
  - destruct (dget k' d) as [v|]; [destruct (truthy v)|]; try reflexivity;
      apply dget_dset_other; exact Hne.
Qed.

Lemma fold_fix_missing_get (ds : list (string * json)) (d : dict) (k : string) (dv : json) :
  NoDup (map fst ds) -> In (k, dv) ds ->
  dget k (fold_left fix_missing ds d) =
  match dget k d with Some v => if truthy v then Some v else Some dv | None => Some dv end.
Proof.
  revert d. induction ds as [|[k' dv'] rest IH]; intros d Hn Hin; [destruct Hin|].
  cbn [fold_left]. cbn [map fst] in Hn. inversion Hn as [|? ? Hk' Hr]; subst.
  destruct Hin as [E|Hin].
  - injection E as E1 E2. subst k' dv'. rewrite fold_fix_missing_other by exact Hk'.
    rewrite fix_missing_get. cbn [fst snd]. rewrite String.eqb_refl. reflexivity.
  - rewrite (IH _ Hr Hin). rewrite fix_missing_get. cbn [fst snd].
    assert (Hne : k <> k').
    { intro E. subst k'. apply Hk'. apply in_map_iff. exists (k, dv). split; [reflexivity|exact Hin]. }
    apply String.eqb_neq in Hne. rewrite Hne. reflexivity.
Qed.

Lemma defaults_keys_NoDup : NoDup (map fst defaults).
Proof.
  cbn. repeat constructor; cbn; intro H; repeat destruct H as [H|H]; try discriminate H; exact H.
Qed.

Lemma fix_enum_value (k : string) (allowed : list string) (d d1 : dict) :
  is_one_of (JStr "Medium") allowed = true -> is_one_of (JStr "") allowed = false ->
  dget k d1 = match dget k d with Some v => if truthy v then Some v else Some (JStr "Medium")
                                 | None => Some (JStr "Medium") end ->
  dget k (fix_enum k allowed d1) =
  Some (match dget k d with Some v => if is_one_of v allowed then v else JStr "Medium"
                          | None => JStr "Medium" end).
Proof.
  intros HM HE H1. unfold fix_enum. rewrite H1.
  destruct (dget k d) as [v|] eqn:Ed; [destruct (truthy v) eqn:T|].
  - destruct (is_one_of v allowed);
      [rewrite H1; try rewrite Ed; try rewrite T; reflexivity|apply dget_dset_same].
  - rewrite HM, H1; try rewrite Ed; try rewrite T.
    destruct v as [| | |s| |]; try reflexivity.
    cbn [truthy] in T. apply negb_false_iff, String.eqb_eq in T. subst s. rewrite HE. reflexivity.
  - rewrite HM, H1; try rewrite Ed. reflexivity.
Qed.

Lemma validate_difficulty_value (d : dict) :
  dget "difficulty" (validate_and_fix_issue_data d) =
  Some (match dget "difficulty" d with
        | Some v => if is_one_of v ["Easy"; "Medium"; "Hard"] then v else JStr "Medium"
        | None => JStr "Medium" end).
Proof.
  unfold validate_and_fix_issue_data.
  rewrite (sets_truthy_other "acceptance_criteria" (fix_list "acceptance_criteria" default_acceptance));
    [|apply fix_list_sets; reflexivity|discriminate].
  rewrite (sets_truthy_other "technical_requirements" (fix_list "technical_requirements" default_tech_reqs));
    [|apply fix_list_sets; reflexivity|discriminate].
  rewrite (sets_truthy_other "labels" (fix_list "labels" default_labels));
    [|apply fix_list_sets; reflexivity|discriminate].
  rewrite (sets_truthy_other "priority" (fix_enum "priority" ["Low"; "Medium"; "High"]));
    [|apply fix_enum_sets|discriminate].
  apply fix_enum_value; [reflexivity|reflexivity|].
  apply fold_fix_missing_get; [exact defaults_keys_NoDup|simpl; tauto].
Qed.

Lemma validate_priority_value (d : dict) :
  dget "priority" (validate_and_fix_issue_data d) =
  Some (match dget "priority" d with
        | Some v => if is_one_of v ["Low"; "Medium"; "High"] then v else JStr "Medium"
        | None => JStr "Medium" end).
Proof.
  unfold validate_and_fix_issue_data.
  rewrite (sets_truthy_other "acceptance_criteria" (fix_list "acceptance_criteria" default_acceptance));
    [|apply fix_list_sets; reflexivity|discriminate].
  rewrite (sets_truthy_other "technical_requirements" (fix_list "technical_requirements" default_tech_reqs));
    [|apply fix_list_sets; reflexivity|discriminate].
  rewrite (sets_truthy_other "labels" (fix_list "labels" default_labels));
    [|apply fix_list_sets; reflexivity|discriminate].
  apply fix_enum_value; [reflexivity|reflexivity|].
  rewrite (sets_truthy_other "difficulty" (fix_enum "difficulty" ["Easy"; "Medium"; "Hard"]));
    [|apply fix_enum_sets|discriminate].
  apply fold_fix_missing_get; [exact defaults_keys_NoDup|simpl; tauto].
Qed.

(** C2: the defaulting pass always returns a complete record (eight truthy
    fields, both enums in range, three non-empty lists); it keeps a
    [difficulty] or [priority] inside its enum and sets any other value,
    a missing one included, to ["Medium"]; and both extraction paths
    return either such a record or a failure. *)
Theorem normalised_record_complete :
  (forall d, complete_record (validate_and_fix_issue_data d) = true) /\
  (forall d,
     dget "difficulty" (validate_and_fix_issue_data d) =
       Some (match dget "difficulty" d with
             | Some v => if is_one_of v ["Easy"; "Medium"; "Hard"] then v else JStr "Medium"
             | None => JStr "Medium" end) /\
     dget "priority" (validate_and_fix_issue_data d) =
       Some (match dget "priority" d with
             | Some v => if is_one_of v ["Low"; "Medium"; "High"] then v else JStr "Medium"
             | None => JStr "Medium" end)) /\
  (forall json_loads response,
     match extract_json_from_response json_loads response with
     | Some r => complete_record r = true
     | None => True
     end) /\
  (forall json_loads ask rs i p,
     match fst (synth_attempt json_loads ask rs i p) with
     | POk (Some r) => complete_record r = true
     | _ => True
     end).
Proof.
  split; [exact validate_complete_record|].
  split; [intro d; split; [apply validate_difficulty_value|apply validate_priority_value]|].
  split.
  - intros json_loads response.
    destruct (extract_json_cases json_loads response) as [-> | (d & _ & ->)]; [exact I|].
    apply validate_complete_record.
  - intros json_loads ask rs i p.
    pose proof (synth_attempt_cases json_loads ask rs i p) as H.
    destruct (fst (synth_attempt json_loads ask rs i p)) as [[r|]|e]; try exact I.
    destruct H as (d & _ & ->). apply validate_complete_record.
Qed.

(** The extraction inside [synthesize_analysis] on a model that answers
    every prompt with a parsed object lacking [labels]. *)
Lemma synth_attempt_no_labels (d : dict) (rs : list string) (i : nat) (p : string) :
  has_fields synth_required_fields d = false ->
  synth_attempt (fun _ => POk d) (fun _ _ => POk "{x}") rs i p =
    (POk None, if Nat.ltb i 2 then retry_prompt rs else p).
Proof.
  intro H. unfold synth_attempt. cbv beta iota.
  change (json_candidate (strip_markdown (strip "{x}"))) with (Some "{x}").
  cbv beta iota. rewrite H. reflexivity.
Qed.

(** C3 (code defect): the two extraction paths disagree on the fields
    they require.  A parsed object with title, body, difficulty and
    priority but no labels passes [extract_json_from_response], which
    returns the defaulting pass's record; the extraction [synthesize_analysis]
    runs rejects it.  When the model answers every attempt with that
    object, all three attempts fail and the smart fallback is returned. *)
Theorem synthesis_rejects_record_without_labels (rs : list string) (url : string) :
  let loads := fun _ : string => POk four_field_record in
  let ask := fun (_ : nat) (_ : string) => POk "{x}" in
  has_fields min_required_fields four_field_record = true /\
  dmem "labels" four_field_record = false /\
  extract_json_from_response loads "{x}" = Some (validate_and_fix_issue_data four_field_record) /\
  synthesize_analysis loads ask rs url =
    ([(0, synthesis_prompt rs url); (1, retry_prompt rs); (2, retry_prompt rs)],
     FellBack (create_smart_fallback_from_responses rs url)).
Proof.
  cbv zeta. split; [reflexivity|]. split; [reflexivity|]. split; [reflexivity|].
  unfold synthesize_analysis. cbn [synth_loop].
  rewrite !synth_attempt_no_labels by reflexivity. reflexivity.
Qed.

(** C5: the defaulting pass is idempotent, for every record (the four
    minimum fields are not even needed). *)
Theorem validate_and_fix_idempotent (d : dict) :
  validate_and_fix_issue_data (validate_and_fix_issue_data d) = validate_and_fix_issue_data d.
Proof.
  apply validate_complete_id. apply validate_complete_record.
Qed.

(** C9 (code defect): the JSON paths keep the model's title as it is; a
    title of 81 characters comes out of [synthesize_analysis] unchanged,
    while the regex path's [clean_title] caps every title at 80. *)
Theorem json_path_keeps_long_title :
  let t := "Introduce a pluggable analytics pipeline with streaming ingestion and dashboards!" in
  let d := [("title", JStr t); ("body", JStr "b"); ("difficulty", JStr "Easy");
            ("priority", JStr "Low"); ("labels", jstrs ["enhancement"])] in
  String.length t = 81 /\
  dget "title" (validate_and_fix_issue_data d) = Some (JStr t) /\
  fst (synth_attempt (fun _ => POk d) (fun _ _ => POk "{x}") [] 0 "p") =
    POk (Some (validate_and_fix_issue_data d)) /\
  (forall s, String.length (clean_title s) <= 80).
Proof.
  cbn zeta. split; [reflexivity|]. split; [vm_compute; reflexivity|].
  split; [vm_compute; reflexivity|]. exact clean_title_short.
Qed.

(** C10: [validate_and_fix_issue_data] leaves every key outside the eight
    canonical fields as it was. *)
Theorem validate_and_fix_frame (d : dict) (k : string) :
  str_mem k canonical_keys = false ->
  dget k (validate_and_fix_issue_data d) = dget k d.
Proof.
  intro H. apply validate_frame. apply not_canonical. exact H.
Qed.

Lemma validate_and_fix_frame_witness :
  str_mem "source" canonical_keys = false /\
  dget "source" (validate_and_fix_issue_data [("source", JStr "agent"); ("title", JStr "")]) =
    Some (JStr "agent").
Proof.
  split; [reflexivity|].
  exact (validate_and_fix_frame [("source", JStr "agent"); ("title", JStr "")] "source" eq_refl).
Defined.

(** C4 (as amended): the fallback scores the eight categories by counting
    the keywords found in the lower-cased joined text, picks the first
    category of maximal positive score (["search"] when no keyword hits),
    and uses that category's template when it has one (authentication,
    search, realtime, api); ui, database, testing and security have none and
    get the search template, their name still in the labels.  Text hitting
    only auth, login and oauth gives the authentication template; text
    hitting no keyword gives the search template. *)
Theorem fallback_selects_first_best_category (rs : list string) (url : string) :
  let t := lower (join " " rs) in
  let b := best_feature t in
  let out := create_smart_fallback_from_responses rs url in
  ((Forall (fun p => snd p = 0) (all_scores_by (fun k => contains k t)) /\ b = "search") \/
   (exists pre n post, all_scores_by (fun k => contains k t) = app pre ((b, n) :: post) /\ 0 < n /\
      Forall (fun p => snd p < n) pre /\ Forall (fun p => snd p <= n) post)) /\
  ((In b ["authentication"; "search"; "realtime"; "api"] /\
    assoc b feature_templates = Some (select_template b)) \/
   (In b ["ui"; "database"; "testing"; "security"] /\ select_template b = search_template)) /\
  dget "title" out = Some (JStr (t_title (select_template b))) /\
  dget "labels" out = Some (jstrs ["enhancement"; "ai-generated"; b]) /\
  (forallb (fun k => negb (contains k t)) all_keywords = true ->
     b = "search" /\ dget "title" out = Some (JStr (t_title search_template))) /\
  (contains "authentication" t && contains "login" t && contains "oauth" t &&
   forallb (fun k => str_mem k ["auth"; "login"; "oauth"] || negb (contains k t)) all_keywords = true ->
     b = "authentication" /\ dget "title" out = Some (JStr "Implement User Authentication System")).
Proof.
  cbn zeta.
  set (t := lower (join " " rs)).
  assert (Htitle : dget "title" (create_smart_fallback_from_responses rs url) =
                   Some (JStr (t_title (select_template (best_feature t))))) by reflexivity.
  assert (Hlabels : dget "labels" (create_smart_fallback_from_responses rs url) =
                    Some (jstrs ["enhancement"; "ai-generated"; best_feature t])) by reflexivity.
  rewrite Htitle, Hlabels.
  split; [apply best_feature_by_spec|].
  split.
  { pose proof (best_feature_by_category (fun k => contains k t)) as Hc.
    fold (best_feature t) in Hc. clear Htitle Hlabels.
    generalize dependent (best_feature t). intros b Hc.
    simpl in Hc.
    repeat (destruct Hc as [<- | Hc];
      [first [left; split; [simpl; tauto | reflexivity]
             | right; split; [simpl; tauto | reflexivity]] |]).
    destruct Hc. }
  split; [reflexivity|]. split; [reflexivity|]. split.
  - intro H. rewrite forallb_forall in H.
    assert (Hb : best_feature t = "search").
    { unfold best_feature. rewrite (best_feature_by_ext _ (fun _ => false)); [reflexivity|].
      intros k Hk. specialize (H k Hk). destruct (contains k t); [discriminate|reflexivity]. }
    rewrite Hb. split; reflexivity.
  - intro H. repeat rewrite andb_true_iff in H.
    destruct H as (((Ha & Hl) & Ho) & H). rewrite forallb_forall in H.
    assert (Hb : best_feature t = "authentication").
    { unfold best_feature.
      rewrite (best_feature_by_ext _ (fun k => str_mem k ["auth"; "login"; "oauth"])); [reflexivity|].
      intros k Hk. specialize (H k Hk).
      destruct (str_mem k ["auth"; "login"; "oauth"]) eqn:M.
      - unfold str_mem in M. simpl in M.
        repeat rewrite orb_true_iff in M.
        destruct M as [M|[M|[M|M]]]; try discriminate; apply String.eqb_eq in M; subst k.
        + exact (contains_app_l "auth" "entication" t Ha).
        + exact Hl.
        + exact Ho.
      - destruct (contains k t); [discriminate|reflexivity]. }
    rewrite Hb. split; reflexivity.
Qed.

Lemma fallback_selects_first_best_category_witness :
  best_feature (lower (join " " ["Authentication with login and OAuth"; "oauth again"])) = "authentication" /\
  dget "title" (create_smart_fallback_from_responses ["Authentication with login and OAuth"; "oauth again"] "u") =
    Some (JStr "Implement User Authentication System").
Proof.
  destruct (fallback_selects_first_best_category ["Authentication with login and OAuth"; "oauth again"] "u")
    as (_ & _ & _ & _ & _ & H).
  apply H. vm_compute. reflexivity.
Defined.

(** C4 fails as stated: text about databases selects the database
    category, which has no template, and the search template is used. *)
Lemma fallback_database_uses_search_template :
  best_feature (lower (join " " ["Add database storage"])) = "database" /\
  assoc "database" feature_templates = None /\
  dget "title" (create_smart_fallback_from_responses ["Add database storage"] "u") =
    Some (JStr "Add Advanced Search and Filtering Capabilities").
Proof. vm_compute. repeat split. Qed.

(** C6: the description is tested before the name.  Whenever the
    description contains ["machine learning"], the description groups
    already answer [ai_ml], and [classify_project_type] returns [ai_ml]
    whatever the name (a name with ["crawler"] included), language and
    topics. *)
Theorem description_beats_name (rd : repo_info) (d : string)
    (Hd : rd_description rd = Some d) (Hml : contains "machine learning" d = true) :
  classify_by_description (lower d) = Some "ai_ml" /\
  classify_project_type (Some rd) = "ai_ml".
Proof.
  pose proof (classify_by_description_machine_learning d Hml) as Hc.
  split; [exact Hc|].
  apply classify_project_type_description. rewrite Hd. exact Hc.
Qed.

Lemma description_beats_name_witness :
  classify_by_description (lower "A web crawler that uses machine learning") = Some "ai_ml" /\
  classify_project_type
    (Some (RepoInfo (Some "smart-crawler") (Some "python")
                    (Some "A web crawler that uses machine learning") ["scraping"])) = "ai_ml".
Proof.
  apply (description_beats_name
           (RepoInfo (Some "smart-crawler") (Some "python")
                     (Some "A web crawler that uses machine learning") ["scraping"])
           "A web crawler that uses machine learning"); vm_compute; reflexivity.
Defined.

(** C7: the pull-request types are the union of the title/body
    classifier's and the file classifier's results, each type once,
    whatever order the set gives them.  For a PR titled "Fix null pointer
    in parser" whose changed files include [test_utils.py], with any body,
    the plan is computed without error and its [pr_types] contain [bugfix]
    (from the title) and [feature] (from the file pattern [test]). *)
Theorem pr_types_union_of_classifiers (set_list : list string -> list string)
    (Hs : forall l, Permutation (set_list l) (dedup l))
    (body : option string) (files : list string) (H : In "test_utils.py" files) :
  let pr := PrInfo "Fix null pointer in parser" body files in
  let sp := initialize_pr_knowledge_graph [] in
  exists p, get_comprehensive_analysis_plan_by set_list sp pr = POk p /\
    NoDup (pr_types p) /\
    (forall x, In x (pr_types p) <->
       In x (analyze_pr_title_description (pr_title pr) (pr_body pr)) \/
       In x (classify_pr_by_files sp (pr_changed_files pr))) /\
    In "bugfix" (analyze_pr_title_description (pr_title pr) (pr_body pr)) /\
    In "feature" (classify_pr_by_files sp (pr_changed_files pr)) /\
    In "bugfix" (pr_types p) /\ In "feature" (pr_types p).
Proof.
  cbn zeta. rewrite initialize_pr_knowledge_graph_nil.
  unfold get_comprehensive_analysis_plan_by. cbn [pr_title pr_body pr_changed_files].
  set (tt := analyze_pr_title_description "Fix null pointer in parser" body).
  set (ft := classify_pr_by_files pr_seed files).
  destruct (set_list_facts set_list (app tt ft) (Hs _)) as [Hd Hm].
  destruct (plan_for_types_pr_seed (set_list (app tt ft))) as [p Hp].
  rewrite Hp. eexists. split; [reflexivity|]. cbn [pr_types].
  assert (Hu : forall x, In x (set_list (app tt ft)) <-> In x tt \/ In x ft).
  { intro x. rewrite Hm. apply in_app_iff. }
  assert (Hb : In "bugfix" tt) by exact (analyze_pr_title_fix " null pointer in parser" body).
  assert (Hf : In "feature" ft) by exact (classify_pr_by_files_test_utils files H).
  split; [exact Hd|]. split; [exact Hu|]. split; [exact Hb|]. split; [exact Hf|].
  split; apply Hu; [left; exact Hb | right; exact Hf].
Qed.

(** C7 in a run whose set lists the types in reverse order of first
    occurrence. *)
Lemma pr_types_union_of_classifiers_witness :
  (forall l, Permutation (rev (dedup l)) (dedup l)) /\
  In "test_utils.py" ["src/parser.py"; "test_utils.py"] /\
  exists p, get_comprehensive_analysis_plan_by (fun l => rev (dedup l)) (initialize_pr_knowledge_graph [])
              (PrInfo "Fix null pointer in parser" (Some "Handles empty input") ["src/parser.py"; "test_utils.py"])
            = POk p /\ In "bugfix" (pr_types p) /\ In "feature" (pr_types p).
Proof.
  assert (Hs : forall l, Permutation (rev (dedup l)) (dedup l))
    by (intro l; apply Permutation_sym, Permutation_rev).
  assert (H : In "test_utils.py" ["src/parser.py"; "test_utils.py"]) by (simpl; tauto).
  split; [exact Hs|]. split; [exact H|].
  destruct (pr_types_union_of_classifiers (fun l => rev (dedup l)) Hs (Some "Handles empty input") _ H)
    as (p & Hp & _ & _ & _ & _ & Hb & Hf).
  exists p. split; [exact Hp|]. split; [exact Hb | exact Hf].
Defined.

(** C8: for https://github.com/acme/scraper-bot whose fetched description
    is "a web scraping tool", the classifier yields [scraping] and the
    query returns the six scraping features of the seeded fact store, in
    seeding order, each with its seeded description: Data Storage and Rate
    Limiting among them, no entry twice, and neither generic CI/CD nor
    monitoring entry, since the generic entries are added only to an
    empty list. *)
Theorem scraper_bot_features (github_get : string -> pyresult (nat * gh_repo))
    (n l : option string) (tops : list string)
    (Hget : github_get "https://api.github.com/repos/acme/scraper-bot" =
            POk (200%nat, GhRepo n l (Some "a web scraping tool") tops)) :
  let url := "https://github.com/acme/scraper-bot" in
  classify_project_type (analyze_repository_basic github_get url) = "scraping" /\
  query_project_features (initialize_knowledge_graph []) "scraping" =
    ["data_storage"; "scheduled_scraping"; "proxy_rotation"; "data_visualization";
     "rate_limiting"; "error_handling"] /\
  process_repository_query github_get url (initialize_knowledge_graph []) = POk scraping_entries /\
  In (FeatureEntry "Data Storage" "Persistent data storage with database integration for scraped data management")
     scraping_entries /\
  In (FeatureEntry "Rate Limiting" "Smart rate limiting to respect website policies and avoid detection")
     scraping_entries /\
  NoDup scraping_entries /\
  ~ In cicd_entry scraping_entries /\ ~ In monitoring_entry scraping_entries /\
  (forall r, r <> [] -> add_fallback_features r = r).
Proof.
  cbn zeta.
  assert (Ha : analyze_repository_basic github_get "https://github.com/acme/scraper-bot" =
               Some (RepoInfo n (Some (lower_or_empty l)) (Some "a web scraping tool") tops)).
  { unfold analyze_repository_basic.
    change (rstrip_slash (replace_all "https://github.com/" "" "https://github.com/acme/scraper-bot"))
      with "acme/scraper-bot".
    change (negb (contains "/" "acme/scraper-bot")) with false. cbv iota.
    change ("https://api.github.com/repos/" ++ "acme/scraper-bot")
      with "https://api.github.com/repos/acme/scraper-bot".
    rewrite Hget. reflexivity. }
  assert (Hc : classify_project_type (Some (RepoInfo n (Some (lower_or_empty l)) (Some "a web scraping tool") tops))
               = "scraping").
  { apply classify_project_type_description. vm_compute. reflexivity. }
  split; [rewrite Ha; exact Hc|].
  split; [vm_compute; reflexivity|].
  split.
  { unfold process_repository_query. rewrite Ha, Hc. vm_compute. reflexivity. }
  split; [simpl; tauto|]. split; [simpl; tauto|].
  split.
  { unfold scraping_entries.
    repeat constructor; simpl; intuition discriminate. }
  split; [unfold scraping_entries; simpl; intuition discriminate|].
  split; [unfold scraping_entries; simpl; intuition discriminate|].
  exact add_fallback_features_nonempty.
Qed.

Lemma scraper_bot_features_witness :
  classify_project_type (analyze_repository_basic scraper_bot_github "https://github.com/acme/scraper-bot")
    = "scraping" /\
  process_repository_query scraper_bot_github "https://github.com/acme/scraper-bot" (initialize_knowledge_graph [])
    = POk scraping_entries.
Proof.
  destruct (scraper_bot_features scraper_bot_github (Some "scraper-bot") (Some "Python") []
              ltac:(vm_compute; reflexivity)) as (Hc & _ & Hp & _).
  split; [exact Hc | exact Hp].
Defined.


(* ================================================================== *)
(** * Further properties of the code *)

(** ** [classify_pr_priority] *)

Lemma existsb_lower_label (f : string -> bool) (labels : list string) (l : string) :
  In l labels -> f (lower l) = true -> existsb f (map lower labels) = true.
Proof.
  intros Hin Hf. apply existsb_exists. exists (lower l).
  split; [apply in_map; exact Hin|exact Hf].
Qed.

(** X1: a critical, urgent or hotfix label, in any case, lifts a pull
    request out of [Low] whatever else it has; with a security keyword in
    the title as well it is [High]. *)
Theorem critical_label_priority (pr : pr_record) (l : string) :
  In l (pd_labels pr) ->
  str_mem (lower l) ["critical"; "urgent"; "hotfix"] = true ->
  pp_priority (classify_pr_priority pr) <> "Low" /\
  (any_in ["security"; "vulnerability"; "auth"] (lower (pd_title pr)) = true ->
   pp_priority (classify_pr_priority pr) = "High").
Proof.
  intros Hin Hl. unfold classify_pr_priority.
  rewrite (existsb_lower_label _ _ l Hin Hl).
  destruct (any_in _ _), (Z.ltb 20 _), (Z.ltb 1000 _); simpl;
    split; try discriminate; intro H; first [reflexivity | discriminate H].
Qed.

Lemma critical_label_priority_witness :
  In "Hotfix" ["Hotfix"] /\
  pp_priority (classify_pr_priority (PrRecord "Patch auth token leak" 3 1 1 ["Hotfix"])) <> "Low" /\
  (any_in ["security"; "vulnerability"; "auth"] (lower "Patch auth token leak") = true ->
   pp_priority (classify_pr_priority (PrRecord "Patch auth token leak" 3 1 1 ["Hotfix"])) = "High").
Proof.
  split; [left; reflexivity|].
  exact (critical_label_priority (PrRecord "Patch auth token leak" 3 1 1 ["Hotfix"]) "Hotfix"
           (or_introl eq_refl) eq_refl).
Defined.

(** X2: labels alone never make a pull request [High]: without a
    security keyword in the title, with at most 20 changed files and at
    most 1000 changed lines, the score is at most 3, whatever the labels. *)
Theorem labels_alone_not_high (pr : pr_record) :
  any_in ["security"; "vulnerability"; "auth"] (lower (pd_title pr)) = false ->
  (pd_changed_files_count pr <= 20)%Z ->
  (pd_additions pr + pd_deletions pr <= 1000)%Z ->
  (pp_score (classify_pr_priority pr) <= 3)%Z /\ pp_priority (classify_pr_priority pr) <> "High".
Proof.
  intros Hs Hf Hc. unfold classify_pr_priority.
  rewrite Hs. rewrite (proj2 (Z.ltb_ge _ _) Hf), (proj2 (Z.ltb_ge _ _) Hc).
  destruct (existsb _ _); [|destruct (existsb _ _)]; simpl; split; (lia || discriminate).
Qed.

Lemma labels_alone_not_high_witness :
  (pp_score (classify_pr_priority (PrRecord "Bump version" 400 500 20 ["critical"; "HIGH"])) <= 3)%Z /\
  pp_priority (classify_pr_priority (PrRecord "Bump version" 400 500 20 ["critical"; "HIGH"])) <> "High".
Proof.
  apply (labels_alone_not_high (PrRecord "Bump version" 400 500 20 ["critical"; "HIGH"]));
    [reflexivity | simpl; lia | simpl; lia].
Defined.

(** X3: adding labels never lowers the score nor takes away a [High]
    priority. *)
Theorem priority_monotone_in_labels (pr : pr_record) (more : list string) :
  let pr' := PrRecord (pd_title pr) (pd_additions pr) (pd_deletions pr)
                      (pd_changed_files_count pr) (app (pd_labels pr) more) in
  (pp_score (classify_pr_priority pr) <= pp_score (classify_pr_priority pr'))%Z /\
  (pp_priority (classify_pr_priority pr) = "High" -> pp_priority (classify_pr_priority pr') = "High").
Proof.
  unfold classify_pr_priority.
  cbn [pd_labels pd_title pd_additions pd_deletions pd_changed_files_count].
  rewrite map_app, !existsb_app.
  destruct (existsb (fun label => str_mem label ["critical"; "urgent"; "hotfix"]) (map lower (pd_labels pr))),
           (existsb (fun label => str_mem label ["critical"; "urgent"; "hotfix"]) (map lower more)),
           (existsb (fun label => str_mem label ["high"; "important"]) (map lower (pd_labels pr))),
           (existsb (fun label => str_mem label ["high"; "important"]) (map lower more)),
           (any_in ["security"; "vulnerability"; "auth"] (lower (pd_title pr))),
           (Z.ltb 20 (pd_changed_files_count pr)), (Z.ltb 1000 (pd_additions pr + pd_deletions pr));
    simpl; split; try lia; intro H; first [reflexivity | discriminate H].
Qed.

(** ** [analyze_code_changes] *)

Lemma assoc_app {A : Type} (k : string) (l1 l2 : list (string * A)) :
  assoc k (app l1 l2) = match assoc k l1 with Some v => Some v | None => assoc k l2 end.
Proof.
  induction l1 as [|[k' v'] rest IH]; simpl; [reflexivity|].
  destruct (String.eqb k k'); [reflexivity|exact IH].
Qed.

Lemma assoc_map_upd_other (k j : string) (m : Z) (d : counter) :
  String.eqb k j = false ->
  assoc k (map (fun kv => if String.eqb j (fst kv) then (j, m) else kv) d) = assoc k d.
Proof.
  intro Hkj. induction d as [|[k' v'] rest IH]; simpl; [reflexivity|].
  destruct (String.eqb j k') eqn:E; simpl.
  - apply String.eqb_eq in E. subst k'. rewrite Hkj. exact IH.
  - destruct (String.eqb k k'); [reflexivity|exact IH].
Qed.

Lemma assoc_map_upd (k j : string) (n : Z) (d : counter) :
  assoc j d = Some n ->
  assoc k (map (fun kv => if String.eqb j (fst kv) then (j, (n + 1)%Z) else kv) d) =
  if String.eqb k j then Some (n + 1)%Z else assoc k d.
Proof.
  induction d as [|[k' v'] rest IH]; simpl; [discriminate|].
  destruct (String.eqb j k') eqn:E; simpl.
  - apply String.eqb_eq in E. subst k'. intro Hn. injection Hn as <-.
    destruct (String.eqb k j) eqn:Ekj; [reflexivity|].
    apply assoc_map_upd_other. exact Ekj.
  - intro Hj. rewrite (IH Hj).
    destruct (String.eqb k j) eqn:Ekj; [|reflexivity].
    apply String.eqb_eq in Ekj. subst k. rewrite E. reflexivity.
Qed.

Lemma assoc_incr (k j : string) (d : counter) :
  assoc k (incr j d) =
  if String.eqb k j then Some (match assoc k d with Some n => (n + 1)%Z | None => 1%Z end)
  else assoc k d.
Proof.
  unfold incr. destruct (assoc j d) as [n|] eqn:E.
  - rewrite (assoc_map_upd k j n d E).
    destruct (String.eqb k j) eqn:Ekj; [|reflexivity].
    apply String.eqb_eq in Ekj. subst k. rewrite E. reflexivity.
  - rewrite assoc_app. simpl.
    destruct (String.eqb k j) eqn:Ekj.
    + apply String.eqb_eq in Ekj. subst k. rewrite E. reflexivity.
    + destruct (assoc k d); reflexivity.
Qed.

Lemma count_by_cons {A : Type} (f : A -> string) (k : string) (x : A) (l : list A) :
  count_by f k (x :: l) = ((if String.eqb (f x) k then 1 else 0) + count_by f k l)%nat.
Proof. unfold count_by. simpl. destruct (String.eqb (f x) k); reflexivity. Qed.

(** counting with [incr] over a list *)
Lemma assoc_incr_fold {A : Type} (f : A -> string) (k : string) (l : list A) (d : counter) :
  assoc k (fold_left (fun d x => incr (f x) d) l d) =
  match assoc k d with
  | Some m => Some (m + Z.of_nat (count_by f k l))%Z
  | None => count_entry (count_by f k l)
  end.
Proof.
  revert d. induction l as [|x l IH]; intro d; simpl.
  - destruct (assoc k d); [rewrite Z.add_0_r|]; reflexivity.
  - rewrite IH, assoc_incr, count_by_cons, (String.eqb_sym (f x) k).
    destruct (String.eqb k (f x)).
    + destruct (assoc k d); unfold count_entry; [f_equal; lia|].
      replace (Nat.eqb (1 + count_by f k l) 0) with false by reflexivity.
      f_equal; lia.
    + reflexivity.
Qed.

Lemma analyze_change_fold (l : list file_change) (cs : change_summary) :
  cs_total_files (fold_left analyze_change l cs) = cs_total_files cs /\
  cs_change_types (fold_left analyze_change l cs) =
    fold_left (fun ct fc => match assoc (fc_status fc) ct with
                            | Some _ => incr (fc_status fc) ct
                            | None => incr "modified" ct
                            end) l (cs_change_types cs) /\
  cs_file_types (fold_left analyze_change l cs) =
    fold_left (fun d fc => incr (file_ext (fc_filename fc)) d) l (cs_file_types cs) /\
  cs_language_distribution (fold_left analyze_change l cs) =
    fold_left (fun d fc => incr (language_of (file_ext (fc_filename fc))) d) l
              (cs_language_distribution cs) /\
  cs_significant_changes (fold_left analyze_change l cs) =
    app (cs_significant_changes cs)
        (map (fun fc => SignificantChange (fc_filename fc) (fc_additions fc) (fc_deletions fc))
             (filter (fun fc => Z.ltb 50 (fc_additions fc + fc_deletions fc)) l)).
Proof.
  revert cs. induction l as [|fc l IH]; intro cs; simpl.
  - rewrite app_nil_r. repeat split.
  - destruct (IH (analyze_change cs fc)) as (H1 & H2 & H3 & H4 & H5).
    rewrite H1, H2, H3, H4, H5. simpl. repeat split.
    destruct (Z.ltb 50 _); simpl; [rewrite <- app_assoc|]; reflexivity.
Qed.

Lemma change_types_step (c : string -> Z) (s : string) :
  match assoc s (map (fun k => (k, c k)) change_type_keys) with
  | Some _ => incr s (map (fun k => (k, c k)) change_type_keys)
  | None => incr "modified" (map (fun k => (k, c k)) change_type_keys)
  end =
  map (fun k => (k, (c k + if String.eqb (change_bucket s) k then 1 else 0)%Z)) change_type_keys.
Proof.
  unfold change_bucket, change_type_keys, str_mem. simpl.
  destruct (String.eqb s "added") eqn:E1;
    [apply String.eqb_eq in E1; subst s; simpl; rewrite !Z.add_0_r; reflexivity|].
  destruct (String.eqb s "modified") eqn:E2;
    [apply String.eqb_eq in E2; subst s; simpl; rewrite !Z.add_0_r; reflexivity|].
  destruct (String.eqb s "deleted") eqn:E3;
    [apply String.eqb_eq in E3; subst s; simpl; rewrite !Z.add_0_r; reflexivity|].
  destruct (String.eqb s "renamed") eqn:E4;
    [apply String.eqb_eq in E4; subst s; simpl; rewrite !Z.add_0_r; reflexivity|].
  simpl. rewrite !Z.add_0_r. reflexivity.
Qed.

Lemma change_types_fold (l : list file_change) (c : string -> Z) :
  fold_left (fun ct fc => match assoc (fc_status fc) ct with
                          | Some _ => incr (fc_status fc) ct
                          | None => incr "modified" ct
                          end) l (map (fun k => (k, c k)) change_type_keys) =
  map (fun k => (k, (c k + Z.of_nat (count_by (fun fc => change_bucket (fc_status fc)) k l))%Z))
      change_type_keys.
Proof.
  revert c. induction l as [|fc l IH]; intro c; cbn [fold_left].
  - apply map_ext. intro k. unfold count_by. simpl. rewrite Z.add_0_r. reflexivity.
  - rewrite change_types_step.
    rewrite (IH (fun k => (c k + if String.eqb (change_bucket (fc_status fc)) k then 1 else 0)%Z)).
    apply map_ext. intro k. rewrite count_by_cons.
    destruct (String.eqb (change_bucket (fc_status fc)) k); f_equal; lia.
Qed.

Lemma change_types_counts (fcs : list file_change) :
  cs_change_types (analyze_code_changes fcs) =
  map (fun k => (k, Z.of_nat (count_by (fun fc => change_bucket (fc_status fc)) k fcs))) change_type_keys.
Proof.
  unfold analyze_code_changes.
  destruct (analyze_change_fold fcs
              (ChangeSummary (length fcs) [] (map (fun k => (k, 0%Z)) change_type_keys) [] []))
    as (_ & H & _).
  rewrite H. simpl cs_change_types.
  exact (change_types_fold fcs (fun _ => 0%Z)).
Qed.

(** X4: [change_types] keeps exactly its four keys, in order, and each
    counts the files whose status is that key; a status outside the four
    is counted under [modified]. *)
Theorem change_types_count_statuses (fcs : list file_change) :
  cs_change_types (analyze_code_changes fcs) =
  map (fun k => (k, Z.of_nat (count_by (fun fc => change_bucket (fc_status fc)) k fcs))) change_type_keys.
Proof. exact (change_types_counts fcs). Qed.

Lemma change_bucket_cases (s : string) :
  change_bucket s = "added" \/ change_bucket s = "modified" \/
  change_bucket s = "deleted" \/ change_bucket s = "renamed".
Proof.
  unfold change_bucket, change_type_keys, str_mem. simpl.
  destruct (String.eqb s "added") eqn:E1; [apply String.eqb_eq in E1; auto|].
  destruct (String.eqb s "modified") eqn:E2; [apply String.eqb_eq in E2; auto|].
  destruct (String.eqb s "deleted") eqn:E3; [apply String.eqb_eq in E3; auto|].
  destruct (String.eqb s "renamed") eqn:E4; [apply String.eqb_eq in E4; auto|].
  simpl. auto.
Qed.

Lemma change_bucket_total (l : list file_change) :
  (count_by (fun fc => change_bucket (fc_status fc)) "added" l +
   count_by (fun fc => change_bucket (fc_status fc)) "modified" l +
   count_by (fun fc => change_bucket (fc_status fc)) "deleted" l +
   count_by (fun fc => change_bucket (fc_status fc)) "renamed" l)%nat = length l.
Proof.
  induction l as [|fc l IH]; [reflexivity|].
  rewrite !count_by_cons. simpl length.
  destruct (change_bucket_cases (fc_status fc)) as [E|[E|[E|E]]]; rewrite E; simpl; lia.
Qed.

(** X5: every file is counted once: the four [change_types] counts add
    up to [total_files]. *)
Theorem change_types_sum_total (fcs : list file_change) :
  fold_right Z.add 0%Z (map snd (cs_change_types (analyze_code_changes fcs))) =
  Z.of_nat (cs_total_files (analyze_code_changes fcs)).
Proof.
  rewrite change_types_counts.
  unfold analyze_code_changes.
  rewrite (proj1 (analyze_change_fold _ _)).
  unfold change_type_keys. cbn [map fold_right snd cs_total_files].
  rewrite <- (change_bucket_total fcs). lia.
Qed.

(** X6: [file_types] maps each extension to the number of files with
    that extension (no entry when there is none), and
    [language_distribution] maps each language name, [language_map]'s
    or the bare extension, to the number of files of that language. *)
Theorem file_and_language_counts (fcs : list file_change) (k : string) :
  assoc k (cs_file_types (analyze_code_changes fcs)) =
    count_entry (count_by (fun fc => file_ext (fc_filename fc)) k fcs) /\
  assoc k (cs_language_distribution (analyze_code_changes fcs)) =
    count_entry (count_by (fun fc => language_of (file_ext (fc_filename fc))) k fcs).
Proof.
  unfold analyze_code_changes.
  destruct (analyze_change_fold fcs
              (ChangeSummary (length fcs) [] (map (fun k => (k, 0%Z)) change_type_keys) [] []))
    as (_ & _ & H3 & H4 & _).
  rewrite H3, H4. simpl.
  rewrite (assoc_incr_fold (fun fc => file_ext (fc_filename fc))),
          (assoc_incr_fold (fun fc => language_of (file_ext (fc_filename fc)))).
  split; reflexivity.
Qed.

(** X7: [significant_changes] lists, in order, exactly the files with
    more than 50 added plus deleted lines. *)
Theorem significant_changes_filter (fcs : list file_change) :
  cs_significant_changes (analyze_code_changes fcs) =
  map (fun fc => SignificantChange (fc_filename fc) (fc_additions fc) (fc_deletions fc))
      (filter (fun fc => Z.ltb 50 (fc_additions fc + fc_deletions fc)) fcs).
Proof.
  unfold analyze_code_changes.
  rewrite (proj2 (proj2 (proj2 (proj2 (analyze_change_fold _ _))))). reflexivity.
Qed.

(** ** File extensions *)

Lemma split_on_nonnil (c : ascii) (s : string) : split_on c s <> [].
Proof.
  destruct s as [|x t]; simpl; [discriminate|].
  destruct (Ascii.eqb x c); [discriminate|]. destruct (split_on c t); discriminate.
Qed.

Lemma split_on_app_sep (c : ascii) (a b : string) :
  split_on c (a ++ String c b) = app (split_on c a) (split_on c b).
Proof.
  induction a as [|x a IH]; simpl.
  - rewrite Ascii.eqb_refl. reflexivity.
  - destruct (Ascii.eqb x c); [rewrite IH; reflexivity|].
    rewrite IH. destruct (split_on c a) as [|w ws] eqn:E.
    + exfalso. exact (split_on_nonnil c a E).
    + reflexivity.
Qed.

Lemma split_on_no_sep (c : ascii) (b : string) :
  contains (String c "") b = false -> split_on c b = [b].
Proof.
  induction b as [|x t IH]; simpl; [reflexivity|].
  intro H. apply orb_false_iff in H as [H1 H2].
  rewrite andb_true_r in H1. rewrite Ascii.eqb_sym, H1, (IH H2). reflexivity.
Qed.

Lemma contains_app_r (n a t : string) : contains n t = true -> contains n (a ++ t) = true.
Proof.
  intro H. induction a as [|x a IH]; simpl; [exact H|].
  rewrite IH. apply orb_true_r.
Qed.

Lemma last_app_nonnil {A : Type} (l1 l2 : list A) (d : A) :
  l2 <> [] -> last (app l1 l2) d = last l2 d.
Proof.
  intro H. induction l1 as [|x l1 IH]; simpl; [reflexivity|].
  rewrite IH. destruct (app l1 l2) eqn:E; [|reflexivity].
  apply app_eq_nil in E as [_ E]. contradiction.
Qed.

(** X8: the extension recorded for a file name is the text after its
    last dot, possibly empty; a leading dot is no exception. *)
Theorem file_ext_after_last_dot (a b : string) :
  contains "." b = false -> file_ext (a ++ "." ++ b) = b.
Proof.
  intro Hb. unfold file_ext.
  rewrite (contains_app_r "." a ("." ++ b)) by reflexivity.
  change ("." ++ b) with (String "."%char b).
  rewrite split_on_app_sep, last_app_nonnil by apply split_on_nonnil.
  rewrite (split_on_no_sep _ _ Hb). reflexivity.
Qed.

Lemma file_ext_after_last_dot_witness :
  contains "." "gz" = false /\ file_ext ("archive.tar" ++ "." ++ "gz") = "gz".
Proof. split; [reflexivity|]. exact (file_ext_after_last_dot "archive.tar" "gz" eq_refl). Defined.

(** ** String matching helpers *)

Lemma str_app_assoc (a b c : string) : (a ++ b) ++ c = a ++ (b ++ c).
Proof. induction a as [|x a IH]; simpl; [reflexivity|rewrite IH; reflexivity]. Qed.

Lemma str_app_nil_r (a : string) : a ++ "" = a.
Proof. induction a as [|x a IH]; simpl; [reflexivity|rewrite IH; reflexivity]. Qed.

Lemma strip_prefix_spec (p s r : string) : strip_prefix p s = Some r <-> s = p ++ r.
Proof.
  revert s. induction p as [|a p IH]; intro s; simpl.
  - split; [intro H; injection H as <-; reflexivity|intros <-; reflexivity].
  - destruct s as [|b s]; [split; discriminate|].
    destruct (Ascii.eqb_spec a b) as [<-|Hne].
    + rewrite IH. split; [intros ->; reflexivity|intro H; injection H as H; exact H].
    + split; [discriminate|intro H; injection H as H _; congruence].
Qed.

Lemma strip_prefix_app (p r : string) : strip_prefix p (p ++ r) = Some r.
Proof. apply strip_prefix_spec. reflexivity. Qed.

Lemma span_app (p : ascii -> bool) (a s : string) :
  forallb p (list_ascii_of_string a) = true ->
  match s with String c _ => p c = false | EmptyString => True end ->
  span p (a ++ s) = (a, s).
Proof.
  intros Ha Hs. induction a as [|c a IH]; simpl.
  - destruct s as [|c t]; simpl; [reflexivity|]. rewrite Hs. reflexivity.
  - simpl in Ha. apply andb_true_iff in Ha as [Hc Ha]. rewrite Hc, (IH Ha). reflexivity.
Qed.

Lemma span_split (p : ascii -> bool) (s : string) : fst (span p s) ++ snd (span p s) = s.
Proof.
  induction s as [|c t IH]; simpl; [reflexivity|].
  destruct (p c); [|reflexivity].
  destruct (span p t) as [a b]. simpl in *. rewrite IH. reflexivity.
Qed.

Lemma contains_mid (n a b : string) : contains n (a ++ n ++ b) = true.
Proof. apply contains_app_r, contains_prefix_app. Qed.

Lemma rev_string_app (a b : string) : rev_string (a ++ b) = rev_string b ++ rev_string a.
Proof.
  induction a as [|x a IH]; simpl; [rewrite str_app_nil_r; reflexivity|].
  rewrite IH, str_app_assoc. reflexivity.
Qed.

Lemma ends_with_app (suf a : string) : ends_with suf (a ++ suf) = true.
Proof. unfold ends_with. rewrite rev_string_app. apply is_prefix_self_app. Qed.

(** ** [extract_pr_info_from_url] *)

Lemma search_pull_unfold (lit s : string) :
  search_pull lit s =
  match match strip_prefix lit s with Some r => match_pull_path r | None => None end with
  | Some m => Some m
  | None => match s with EmptyString => None | String _ t => search_pull lit t end
  end.
Proof. destruct s; reflexivity. Qed.

Lemma search_pull_found (lit s : string) (m : string * string * string) :
  search_pull lit s = Some m ->
  exists pre r, s = pre ++ lit ++ r /\ match_pull_path r = Some m.
Proof.
  induction s as [|c t IH]; rewrite search_pull_unfold.
  - destruct (strip_prefix lit "") as [r|] eqn:E; [|discriminate].
    destruct (match_pull_path r) eqn:M; [|discriminate]. intro H. injection H as <-.
    exists "", r. apply strip_prefix_spec in E. split; [exact E|exact M].
  - destruct (strip_prefix lit (String c t)) as [r|] eqn:E.
    + destruct (match_pull_path r) eqn:M.
      * intro H. injection H as <-. exists "", r.
        apply strip_prefix_spec in E. split; [exact E|exact M].
      * intro H. destruct (IH H) as (pre & r' & -> & M').
        exists (String c pre), r'. split; [reflexivity|exact M'].
    + intro H. destruct (IH H) as (pre & r' & -> & M').
      exists (String c pre), r'. split; [reflexivity|exact M'].
Qed.

Lemma search_pull_at (lit pre r : string) :
  match_pull_path r <> None -> search_pull lit (pre ++ lit ++ r) <> None.
Proof.
  intro M. induction pre as [|c pre IH]; rewrite search_pull_unfold.
  - simpl. rewrite strip_prefix_app. destruct (match_pull_path r); [discriminate|contradiction].
  - simpl (String c pre ++ lit ++ r).
    destruct (match strip_prefix lit _ with Some r' => match_pull_path r' | None => None end);
      [discriminate|exact IH].
Qed.

Lemma match_pull_path_contains (r : string) (m : string * string * string) :
  match_pull_path r = Some m -> contains "/pull/" r = true.
Proof.
  unfold match_pull_path.
  pose proof (span_split not_slash r) as E1.
  destruct (span not_slash r) as [owner r1]. simpl in E1.
  destruct (String.eqb owner ""); [discriminate|].
  destruct (strip_prefix "/" r1) as [r2|] eqn:E2; [|discriminate].
  apply strip_prefix_spec in E2.
  pose proof (span_split not_slash r2) as E3.
  destruct (span not_slash r2) as [repo r3]. simpl in E3.
  destruct (String.eqb repo ""); [discriminate|].
  destruct (strip_prefix "/pull/" r3) as [r4|] eqn:E4; [|discriminate].
  apply strip_prefix_spec in E4. intros _.
  rewrite <- E1, E2, <- E3, E4.
  rewrite <- (str_app_assoc owner "/"), <- (str_app_assoc (owner ++ "/") repo).
  apply contains_mid.
Qed.

(** X9: a pull-request URL in the usual form is parsed back into its
    parts: owner, repository, the number's value and an API URL that
    keeps the number's digits as written. *)
Theorem pr_url_round_trip (o r n rest : string) :
  o <> "" -> forallb not_slash (list_ascii_of_string o) = true ->
  r <> "" -> forallb not_slash (list_ascii_of_string r) = true ->
  is_digits n = true ->
  match rest with String c _ => is_digit c = false | EmptyString => True end ->
  extract_pr_info_from_url ("https://github.com/" ++ o ++ "/" ++ r ++ "/pull/" ++ n ++ rest) =
  Some (PrUrlInfo o r (digits_value n) ("https://api.github.com/repos/" ++ o ++ "/" ++ r ++ "/pulls/" ++ n)).
Proof.
  intros Ho Hos Hr Hrs Hn Hrest.
  unfold is_digits in Hn. apply andb_true_iff in Hn as [Hne Hd].
  assert (Hm : match_pull_path (o ++ "/" ++ r ++ "/pull/" ++ n ++ rest) = Some (o, r, n)).
  { unfold match_pull_path.
    rewrite (span_app not_slash o) by (exact Hos || reflexivity).
    destruct (String.eqb_spec o "") as [E|_]; [contradiction|].
    simpl strip_prefix. cbv iota.
    rewrite (span_app not_slash r) by (exact Hrs || reflexivity).
    destruct (String.eqb_spec r "") as [E|_]; [contradiction|].
    rewrite (span_app is_digit n) by assumption.
    apply negb_true_iff in Hne. rewrite Hne. reflexivity. }
  unfold extract_pr_info_from_url, first_pull_match, pr_url_patterns.
  rewrite search_pull_unfold, strip_prefix_app, Hm. reflexivity.
Qed.

Lemma pr_url_round_trip_witness :
  extract_pr_info_from_url ("https://github.com/" ++ "acme" ++ "/" ++ "widgets" ++ "/pull/" ++ "042" ++ "/files") =
  Some (PrUrlInfo "acme" "widgets" 42 ("https://api.github.com/repos/" ++ "acme" ++ "/" ++ "widgets" ++ "/pulls/" ++ "042")).
Proof.
  apply pr_url_round_trip; first [discriminate | reflexivity | exact I].
Defined.

(** X10: the third pattern, [https://www.github.com/...], never decides
    the result: whenever it matches, the second pattern already does. *)
Theorem www_pr_pattern_unused (pr_url : string) :
  first_pull_match pr_url_patterns pr_url = first_pull_match (firstn 2 pr_url_patterns) pr_url.
Proof.
  unfold pr_url_patterns. simpl firstn. simpl first_pull_match.
  destruct (search_pull "https://github.com/" pr_url); [reflexivity|].
  destruct (search_pull "github.com/" pr_url) eqn:E2; [reflexivity|].
  destruct (search_pull "https://www.github.com/" pr_url) as [m|] eqn:E3; [|reflexivity].
  exfalso. apply search_pull_found in E3 as (pre & r & -> & M).
  apply (search_pull_at "github.com/" (pre ++ "https://www.") r); [rewrite M; discriminate|].
  rewrite str_app_assoc. exact E2.
Qed.

(** X11: a URL without ["github.com/"] or without ["/pull/"] yields [None]. *)
Theorem pr_url_needs_github_and_pull (pr_url : string) :
  contains "github.com/" pr_url = false \/ contains "/pull/" pr_url = false ->
  extract_pr_info_from_url pr_url = None.
Proof.
  intro H. unfold extract_pr_info_from_url.
  assert (Hs : forall x, search_pull (x ++ "github.com/") pr_url = None).
  { intro x. destruct (search_pull _ pr_url) as [m|] eqn:E; [|reflexivity].
    exfalso. apply search_pull_found in E as (pre & r & -> & M).
    apply match_pull_path_contains in M.
    destruct H as [H|H]; rewrite <- (Bool.not_true_iff_false) in H; apply H.
    - rewrite (str_app_assoc x). apply contains_app_r. apply contains_mid.
    - rewrite <- str_app_assoc. apply contains_app_r. exact M. }
  unfold first_pull_match, pr_url_patterns.
  rewrite (Hs "https://" : search_pull "https://github.com/" pr_url = None),
          (Hs "" : search_pull "github.com/" pr_url = None),
          (Hs "https://www." : search_pull "https://www.github.com/" pr_url = None).
  reflexivity.
Qed.

Lemma pr_url_needs_github_and_pull_witness :
  (contains "github.com/" "https://gitlab.com/acme/widgets/pull/7" = false \/
   contains "/pull/" "https://gitlab.com/acme/widgets/pull/7" = false) /\
  extract_pr_info_from_url "https://gitlab.com/acme/widgets/pull/7" = None.
Proof.
  assert (H : contains "github.com/" "https://gitlab.com/acme/widgets/pull/7" = false \/
              contains "/pull/" "https://gitlab.com/acme/widgets/pull/7" = false)
    by (left; vm_compute; reflexivity).
  split; [exact H|exact (pr_url_needs_github_and_pull _ H)].
Defined.

(** ** [extract_repo_info] *)

Lemma plain_repo_char_facts (c : ascii) :
  plain_repo_char c = true ->
  Ascii.eqb c "/"%char = false /\ Ascii.eqb c "?"%char = false /\ Ascii.eqb c (ascii_of_nat 10) = false.
Proof.
  unfold plain_repo_char, not_slash. intro H.
  apply andb_true_iff in H as [H H3]. apply andb_true_iff in H as [H1 H2].
  apply negb_true_iff in H1, H2, H3. auto.
Qed.

Lemma slash_query_end_plain (c : ascii) (t : string) :
  plain_repo_char c = true -> slash_query_end (String c t) = false.
Proof.
  intro H. apply plain_repo_char_facts in H as (H1 & H2 & H3).
  unfold slash_query_end, query_end, at_end, nl.
  change (strip_prefix "/" (String c t)) with (if Ascii.eqb "/"%char c then strip_prefix "" t else None).
  change (strip_prefix "?" (String c t)) with (if Ascii.eqb "?"%char c then strip_prefix "" t else None).
  change (String.eqb (String c t) (String (ascii_of_nat 10) ""))
    with (Ascii.eqb c (ascii_of_nat 10) && String.eqb t "").
  rewrite (Ascii.eqb_sym "/"%char c), H1, (Ascii.eqb_sym "?"%char c), H2, H3.
  reflexivity.
Qed.

(** the shapes of [r2 ++ sfx] that start with [.git] *)
Lemma dot_git_prefix (r2 sfx rest : string) :
  In sfx [""; "/"; ".git"; ".git/"] -> r2 <> "" ->
  r2 ++ sfx = ".git" ++ rest -> exists r3, r2 = ".git" ++ r3.
Proof.
  intros Hs Hne H.
  destruct r2 as [|c1 [|c2 [|c3 [|c4 r3]]]]; [contradiction| | | |].
  - exfalso. destruct Hs as [<-|[<-|[<-|[<-|[]]]]]; simpl in H; inversion H.
  - exfalso. destruct Hs as [<-|[<-|[<-|[<-|[]]]]]; simpl in H; inversion H.
  - exfalso. destruct Hs as [<-|[<-|[<-|[<-|[]]]]]; simpl in H; inversion H.
  - simpl in H. injection H as -> -> -> -> _. exists r3. reflexivity.
Qed.

Lemma forallb_str_app (p : ascii -> bool) (a b : string) :
  forallb p (list_ascii_of_string (a ++ b)) = forallb p (list_ascii_of_string a) && forallb p (list_ascii_of_string b).
Proof. induction a as [|x a IH]; simpl; [reflexivity|rewrite IH, andb_assoc; reflexivity]. Qed.

Lemma repo_tail_inner (r1 r2 sfx : string) :
  In sfx [""; "/"; ".git"; ".git/"] ->
  forallb plain_repo_char (list_ascii_of_string (r1 ++ r2)) = true ->
  ends_with ".git" (r1 ++ r2) = false ->
  r2 <> "" -> repo_tail (r2 ++ sfx) = false.
Proof.
  intros Hs Hp Hend Hne.
  rewrite forallb_str_app in Hp. apply andb_true_iff in Hp as [_ Hp].
  destruct r2 as [|c t]; [contradiction|].
  pose proof Hp as Hp'. simpl in Hp'. apply andb_true_iff in Hp' as [Hc _].
  unfold repo_tail. simpl (String c t ++ sfx).
  rewrite (slash_query_end_plain c _ Hc), orb_false_r.
  destruct (strip_prefix ".git" (String c (t ++ sfx))) as [rest|] eqn:E; [|reflexivity].
  apply strip_prefix_spec in E.
  destruct (dot_git_prefix (String c t) sfx rest Hs ltac:(discriminate) E) as [r3 Hr3].
  change (String c (t ++ sfx)) with (String c t ++ sfx) in E.
  rewrite Hr3 in E, Hend, Hp.
  rewrite str_app_assoc in E. simpl in E. injection E as E.
  destruct r3 as [|c' t'].
  - exfalso. rewrite ends_with_app in Hend. discriminate.
  - rewrite <- E. simpl (String c' t' ++ sfx). apply slash_query_end_plain.
    rewrite forallb_str_app in Hp. apply andb_true_iff in Hp as [_ Hp].
    simpl in Hp. apply andb_true_iff in Hp as [Hp _]. exact Hp.
Qed.

Lemma lazy_repo_app (r sfx : string) :
  r <> "" -> forallb not_slash (list_ascii_of_string r) = true ->
  (forall r1 r2, r = r1 ++ r2 -> r1 <> "" -> r2 <> "" -> repo_tail (r2 ++ sfx) = false) ->
  repo_tail sfx = true ->
  lazy_repo (r ++ sfx) = Some r.
Proof.
  intros Hne Hr Hmin Htail. induction r as [|c t IH]; [contradiction|].
  simpl in Hr. apply andb_true_iff in Hr as [Hc Ht]. simpl. rewrite Hc.
  destruct t as [|c' t'].
  - simpl. rewrite Htail. reflexivity.
  - rewrite (Hmin (String c "") (String c' t') eq_refl ltac:(discriminate) ltac:(discriminate)).
    rewrite IH; [reflexivity|discriminate|exact Ht|].
    intros r1 r2 E H1 H2. apply (Hmin (String c r1) r2); [rewrite E; reflexivity|discriminate|exact H2].
Qed.

Lemma search_repo_unfold (s : string) :
  search_repo s =
  match match_repo_at s with
  | Some m => Some m
  | None => match s with EmptyString => None | String _ t => search_repo t end
  end.
Proof. destruct s; reflexivity. Qed.

Lemma search_repo_found (s : string) (m : string * string) :
  search_repo s = Some m -> exists pre r, s = pre ++ r /\ match_repo_at r = Some m.
Proof.
  induction s as [|c t IH]; rewrite search_repo_unfold.
  - destruct (match_repo_at "") eqn:M; [|discriminate].
    intro H. injection H as <-. exists "", "". split; [reflexivity|exact M].
  - destruct (match_repo_at (String c t)) eqn:M.
    + intro H. injection H as <-. exists "", (String c t). split; [reflexivity|exact M].
    + intro H. destruct (IH H) as (pre & r & -> & M').
      exists (String c pre), r. split; [reflexivity|exact M'].
Qed.

(** X12: the usual repository URLs are split back into owner and
    repository, with or without a trailing [.git] or ['/'], over https,
    http, www or ssh ([git@github.com:owner/repo]). *)
Theorem repo_url_round_trip (pre sep o r sfx : string) :
  In pre ["https://"; "http://"; "https://www."; "git@"; ""] ->
  In sep ["/"; ":"] ->
  o <> "" -> forallb not_slash (list_ascii_of_string o) = true ->
  r <> "" -> forallb plain_repo_char (list_ascii_of_string r) = true ->
  ends_with ".git" r = false ->
  In sfx [""; "/"; ".git"; ".git/"] ->
  extract_repo_info (pre ++ "github.com" ++ sep ++ o ++ "/" ++ r ++ sfx) = Some (o, r).
Proof.
  intros Hpre Hsep Ho Hos Hr Hrp Hend Hsfx.
  assert (Hns : forallb not_slash (list_ascii_of_string r) = true).
  { apply forallb_forall. intros c Hc. eapply forallb_forall in Hrp; [|exact Hc].
    unfold plain_repo_char in Hrp. apply andb_true_iff in Hrp as [Hrp _].
    apply andb_true_iff in Hrp as [Hrp _]. exact Hrp. }
  assert (Hlazy : lazy_repo (r ++ sfx) = Some r).
  { apply lazy_repo_app; [exact Hr|exact Hns| |].
    - intros r1 r2 E _ H2. subst r.
      exact (repo_tail_inner r1 r2 sfx Hsfx Hrp Hend H2).
    - destruct Hsfx as [<-|[<-|[<-|[<-|[]]]]]; reflexivity. }
  assert (Hat : match_repo_at ("github.com" ++ sep ++ o ++ "/" ++ r ++ sfx) = Some (o, r)).
  { unfold match_repo_at. rewrite strip_prefix_app.
    destruct Hsep as [<-|[<-|[]]]; simpl (String _ _ ++ _); cbv iota;
      (rewrite (span_app not_slash o) by (exact Hos || reflexivity));
      destruct (String.eqb_spec o "") as [E|_]; try contradiction;
      simpl strip_prefix; cbv iota; rewrite Hlazy; reflexivity. }
  assert (Hsearch : search_repo (pre ++ "github.com" ++ sep ++ o ++ "/" ++ r ++ sfx) =
                    search_repo ("github.com" ++ sep ++ o ++ "/" ++ r ++ sfx)).
  { destruct Hpre as [<-|[<-|[<-|[<-|[<-|[]]]]]]; reflexivity. }
  unfold extract_repo_info. rewrite Hsearch, search_repo_unfold, Hat, Hend. reflexivity.
Qed.

Lemma repo_url_round_trip_witness :
  extract_repo_info ("git@" ++ "github.com" ++ ":" ++ "acme" ++ "/" ++ "socket.io" ++ ".git") =
  Some ("acme", "socket.io").
Proof.
  apply repo_url_round_trip;
    first [discriminate | reflexivity | simpl; tauto].
Defined.

(** X13: a URL without ["github.com"] is rejected with the [ValueError]. *)
Theorem repo_url_needs_github (repo_url : string) :
  contains "github.com" repo_url = false -> extract_repo_info repo_url = None.
Proof.
  intro H. unfold extract_repo_info.
  destruct (search_repo repo_url) as [m|] eqn:E; [|reflexivity].
  exfalso. apply search_repo_found in E as (pre & r & -> & M).
  unfold match_repo_at in M.
  destruct (strip_prefix "github.com" r) as [x|] eqn:S; [|discriminate].
  apply strip_prefix_spec in S. subst r.
  rewrite contains_mid in H. discriminate.
Qed.

Lemma repo_url_needs_github_witness :
  contains "github.com" "https://gitlab.com/acme/widgets" = false /\
  extract_repo_info "https://gitlab.com/acme/widgets" = None.
Proof.
  assert (H : contains "github.com" "https://gitlab.com/acme/widgets" = false) by (vm_compute; reflexivity).
  split; [exact H|exact (repo_url_needs_github _ H)].
Defined.

(** ** [add_knowledge] and [add_pr_knowledge] *)

Lemma fold_left_preserves {A B : Type} (P : A -> Prop) (f : A -> B -> A) (l : list B) (acc : A) :
  (forall acc y, P acc -> P (f acc y)) -> P acc -> P (fold_left f l acc).
Proof. intros Hf. revert acc. induction l as [|y l IH]; intros acc H; simpl; [exact H|]. apply IH, Hf, H. Qed.

Lemma NoDup_snoc (l : list string) (x : string) : NoDup l -> ~ In x l -> NoDup (l ++ [x]).
Proof.
  induction l as [|y l IH]; intros Hd Hx; simpl; [constructor; [tauto|constructor]|].
  inversion Hd as [|? ? Hy Hl]; subst. constructor.
  - rewrite in_app_iff. intros [H|[H|[]]]; [exact (Hy H)|]. apply Hx. left. symmetry. exact H.
  - apply IH; [exact Hl|]. intro H. apply Hx. right. exact H.
Qed.

Lemma collect_symbols_distinct (r : list (list atom_obj)) (acc : list string) :
  NoDup acc /\ ~ In "" acc -> NoDup (collect_symbols r acc) /\ ~ In "" (collect_symbols r acc).
Proof.
  unfold collect_symbols.
  apply (fold_left_preserves (fun acc => NoDup acc /\ ~ In "" acc)).
  intros acc' o [Hd Hn].
  destruct (String.eqb_spec (strip (atom_str o)) "") as [E|E]; [split; assumption|].
  destruct (str_mem (strip (atom_str o)) acc') eqn:M; [split; assumption|]. cbn [negb andb].
  split.
  - apply NoDup_snoc; [exact Hd|]. intro H.
    assert (M' : str_mem (strip (atom_str o)) acc' = true).
    { unfold str_mem. apply existsb_exists. exists (strip (atom_str o)). split; [exact H|apply String.eqb_refl]. }
    congruence.
  - rewrite in_app_iff. intros [H|[H|[]]]; [exact (Hn H)|]. apply E. exact H.
Qed.


Lemma str_mem_In (x : string) (l : list string) : str_mem x l = true -> In x l.
Proof.
  unfold str_mem. intro H. apply existsb_exists in H as (y & Hy & E).
  apply String.eqb_eq in E. subst y. exact Hy.
Qed.


Lemma match_objs_add (rel subj : string) (a : atom) (sp : space) :
  match_objs rel subj (add_atom a sp) =
  app (match_objs rel subj sp)
      (if String.eqb rel (a_rel a) && String.eqb subj (a_subj a) then [a_obj a] else []).
Proof.
  unfold match_objs, add_atom. rewrite filter_app, map_app. simpl.
  destruct (String.eqb rel (a_rel a) && String.eqb subj (a_subj a)); reflexivity.
Qed.

Lemma collect_symbols_snoc (l : list atom_obj) (o : atom_obj) (acc : list string) :
  collect_symbols [app l [o]] acc =
  let old := collect_symbols [l] acc in
  let s := strip (atom_str o) in
  if String.eqb s "" || str_mem s old then old else app old [s].
Proof.
  unfold collect_symbols. simpl concat. rewrite !app_nil_r, fold_left_app. simpl.
  destruct (String.eqb (strip (atom_str o)) ""), (str_mem _ _); reflexivity.
Qed.

Lemma match_objs_adds (rel f : string) (ds : list string) (sp : space) :
  match_objs rel f (fold_left (fun sp d => fst (add_knowledge rel f (PyStr d) sp)) ds sp) =
  app (match_objs rel f sp) (map Val ds).
Proof.
  revert sp. induction ds as [|d ds IH]; intro sp; simpl; [rewrite app_nil_r; reflexivity|].
  rewrite IH. unfold add_knowledge. simpl fst. rewrite match_objs_add. simpl a_rel. simpl a_subj.
  rewrite !String.eqb_refl. simpl. rewrite <- app_assoc. reflexivity.
Qed.

Lemma seeded_feature_fact (f d0 : string) :
  In (feat f d0) repo_seed ->
  strip_quotes f = f /\ match_objs "feature" f (initialize_knowledge_graph []) = [Val d0].
Proof.
  intro H. unfold repo_seed in H.
  repeat (destruct H as [H|H];
          [cbv [pt feat] in H;
           first [discriminate H | injection H as E1 E2; subst; split; vm_compute; reflexivity]|]).
  destruct H.
Qed.

(** X14: a seeded feature keeps its seeded description: whatever
    descriptions [add_knowledge] adds later for the same name, and however
    many, [get_feature_description] still returns the seeded one alone.
    (All [feature] objects are grounded values here, so the store lists
    them in the order they were added.) *)
Theorem seeded_description_kept (f d0 : string) (ds : list string) :
  In (feat f d0) repo_seed ->
  get_feature_description
    (fold_left (fun sp d => fst (add_knowledge "feature" f (PyStr d) sp)) ds (initialize_knowledge_graph [])) f =
  POk [d0].
Proof.
  intro H. destruct (seeded_feature_fact f d0 H) as [Hq Hm].
  unfold get_feature_description, metta_run_match. rewrite Hq, match_objs_adds, Hm. reflexivity.
Qed.

Lemma seeded_description_kept_witness :
  In (feat "rate_limiting" "Smart rate limiting to respect website policies and avoid detection") repo_seed /\
  get_feature_description
    (fold_left (fun sp d => fst (add_knowledge "feature" "rate_limiting" (PyStr d) sp))
       ["Token bucket per domain"; "Exponential backoff"] (initialize_knowledge_graph [])) "rate_limiting" =
  POk ["Smart rate limiting to respect website policies and avoid detection"].
Proof.
  assert (H : In (feat "rate_limiting" "Smart rate limiting to respect website policies and avoid detection")
                repo_seed) by (cbv [repo_seed In]; repeat first [left; reflexivity | right]).
  split; [exact H|]. exact (seeded_description_kept _ _ _ H).
Defined.

Lemma rev_string_involutive (s : string) : rev_string (rev_string s) = s.
Proof.
  induction s as [|c t IH]; simpl; [reflexivity|].
  rewrite rev_string_app. simpl. rewrite IH. reflexivity.
Qed.

Lemma forallb_rev_string (p : ascii -> bool) (s : string) :
  forallb p (list_ascii_of_string (rev_string s)) = forallb p (list_ascii_of_string s).
Proof.
  induction s as [|c t IH]; simpl; [reflexivity|].
  rewrite forallb_str_app, IH. simpl. rewrite andb_true_r, andb_comm. reflexivity.
Qed.

Lemma lstrip_none (p : ascii -> bool) (s : string) :
  forallb (fun c => negb (p c)) (list_ascii_of_string s) = true -> lstrip_by p s = s.
Proof.
  destruct s as [|c t]; simpl; [reflexivity|].
  intro H. apply andb_true_iff in H as [H _]. apply negb_true_iff in H. rewrite H. reflexivity.
Qed.

Lemma strip_no_space (s : string) :
  forallb (fun c => negb (is_space c)) (list_ascii_of_string s) = true -> strip s = s.
Proof.
  intro H. unfold strip, rstrip_by. rewrite (lstrip_none _ _ H).
  rewrite lstrip_none; [apply rev_string_involutive|].
  rewrite forallb_rev_string. exact H.
Qed.

Lemma name_char_not_space (c : ascii) :
  (is_alpha c || is_digit c || Ascii.eqb c "_"%char || Ascii.eqb c "-"%char) = true ->
  is_space c = false.
Proof.
  destruct c as [[] [] [] [] [] [] [] []]; vm_compute; intro H; first [reflexivity | discriminate H].
Qed.

Lemma plain_name_no_space (s : string) :
  plain_name s = true -> forallb (fun c => negb (is_space c)) (list_ascii_of_string s) = true.
Proof.
  unfold plain_name. intro H. apply andb_true_iff in H as [_ H].
  apply forallb_forall. intros c Hc. eapply forallb_forall in H; [|exact Hc].
  rewrite (name_char_not_space c H). reflexivity.
Qed.

Lemma lstrip_quote (x : string) : lstrip_by is_space (dquote ++ x) = dquote ++ x.
Proof. reflexivity. Qed.

Lemma strip_quoted (m : string) : strip (dquote ++ m ++ dquote) = dquote ++ m ++ dquote.
Proof.
  assert (Hr : rev_string (dquote ++ m ++ dquote) = dquote ++ rev_string m ++ dquote).
  { rewrite !rev_string_app. change (rev_string dquote) with dquote. apply str_app_assoc. }
  unfold strip, rstrip_by. rewrite lstrip_quote, Hr, lstrip_quote, <- Hr. apply rev_string_involutive.
Qed.

Lemma add_project_symbol_query (sp : space) (t f : string) :
  strip_quotes t = t -> plain_name f = true ->
  let old := query_project_features sp t in
  query_project_features (fst (add_knowledge "project_type" t (PyAtom (Sym f)) sp)) t =
    (if str_mem f old then old else app old [f]).
Proof.
  intros Ht Hf. pose proof (plain_name_no_space f Hf) as Hs.
  assert (Hne : String.eqb f "" = false).
  { unfold plain_name in Hf. apply andb_true_iff in Hf as [Hf _]. apply negb_true_iff in Hf. exact Hf. }
  unfold query_project_features, add_knowledge, metta_run_match. simpl fst.
  rewrite Ht, match_objs_add. simpl a_rel. simpl a_subj. simpl a_obj.
  rewrite !String.eqb_refl. simpl andb. cbv iota.
  rewrite collect_symbols_snoc. cbv zeta. simpl to_atom_obj. unfold atom_str.
  rewrite (strip_no_space f Hs), Hne. reflexivity.
Qed.

Lemma add_project_text_query (sp : space) (t f : string) :
  strip_quotes t = t ->
  let old := query_project_features sp t in
  let q := dquote ++ f ++ dquote in
  query_project_features (fst (add_knowledge "project_type" t (PyStr f) sp)) t =
    (if str_mem q old then old else app old [q]).
Proof.
  intros Ht. unfold query_project_features, add_knowledge, metta_run_match. simpl fst.
  rewrite Ht, match_objs_add. simpl a_rel. simpl a_subj. simpl a_obj.
  rewrite !String.eqb_refl. simpl andb. cbv iota.
  rewrite collect_symbols_snoc. cbv zeta. simpl to_atom_obj. unfold atom_str.
  rewrite strip_quoted. reflexivity.
Qed.

Lemma project_type_names_plain (t : string) : In t project_type_names -> strip_quotes t = t.
Proof.
  intro H. simpl in H. repeat (destruct H as [H|H]; [subst t; reflexivity|]). destruct H.
Qed.

(** X15: on the seeded fact store, a feature added to one of the project
    types shows up in [query_project_features], and every feature is
    still listed once.  Added as a symbol, it goes at the end unless it is
    already listed (the type's features are all symbols then).  Added as
    a [str], it becomes a [ValueAtom], listed in double quotes; hyperon
    lists a grounded value before the symbols, so for that case only the
    set of features is stated. *)
Theorem seeded_type_feature_added (t fsym ftext : string) :
  In t project_type_names -> plain_name fsym = true -> plain_text ftext = true ->
  let sp := initialize_knowledge_graph [] in
  let old := query_project_features sp t in
  let with_sym := query_project_features (fst (add_knowledge "project_type" t (PyAtom (Sym fsym)) sp)) t in
  let with_text := query_project_features (fst (add_knowledge "project_type" t (PyStr ftext) sp)) t in
  with_sym = (if str_mem fsym old then old else app old [fsym]) /\
  NoDup with_text /\
  (forall x, In x with_text <-> In x old \/ x = dquote ++ ftext ++ dquote).
Proof.
  intros Ht Hf _. cbv zeta. pose proof (project_type_names_plain t Ht) as Hq.
  split; [exact (add_project_symbol_query _ t fsym Hq Hf)|].
  split.
  - unfold query_project_features.
    apply (collect_symbols_distinct _ [] (conj (NoDup_nil _) (fun H => H))).
  - intro x. rewrite (add_project_text_query _ t ftext Hq). cbv zeta.
    destruct (str_mem (dquote ++ ftext ++ dquote) (query_project_features (initialize_knowledge_graph []) t))
      eqn:M.
    + apply str_mem_In in M. split; [intro H; left; exact H|]. intros [H| ->]; [exact H|exact M].
    + rewrite in_app_iff. simpl. split; intros [H|H]; try tauto.
      * destruct H as [H|[]]. right. symmetry. exact H.
      * right. left. symmetry. exact H.
Qed.

Lemma seeded_type_feature_added_witness :
  In "scraping" project_type_names /\ plain_name "captcha_solver" = true /\ plain_text "Dark mode support" = true /\
  query_project_features
    (fst (add_knowledge "project_type" "scraping" (PyAtom (Sym "captcha_solver")) (initialize_knowledge_graph [])))
    "scraping" =
  ["data_storage"; "scheduled_scraping"; "proxy_rotation"; "data_visualization"; "rate_limiting";
   "error_handling"; "captcha_solver"].
Proof.
  assert (Ht : In "scraping" project_type_names) by (simpl; tauto).
  split; [exact Ht|]. split; [reflexivity|]. split; [reflexivity|].
  destruct (seeded_type_feature_added "scraping" "captcha_solver" "Dark mode support" Ht eq_refl eq_refl)
    as (Hs & _ & _).
  rewrite Hs. vm_compute. reflexivity.
Defined.

Lemma fold_left_ext_in {A B : Type} (f g : A -> B -> A) (l : list B) (a : A) :
  (forall acc x, In x l -> f acc x = g acc x) -> fold_left f l a = fold_left g l a.
Proof.
  revert a. induction l as [|x l IH]; intros a H; simpl; [reflexivity|].
  rewrite (H a x (or_introl eq_refl)). apply IH. intros acc y Hy. apply H. right. exact Hy.
Qed.

(** X16: [classify_pr_by_files] only reads the [file_pattern] facts of
    its eight hard-coded patterns: a [file_pattern] fact added for any
    other pattern (["readme"] in lower case included) never changes its
    result. *)
Theorem file_pattern_outside_list_ignored (sp : space) (p : string) (v : py_value) (files : list string) :
  str_mem p file_patterns = false ->
  classify_pr_by_files (fst (add_pr_knowledge "file_pattern" p v sp)) files =
  classify_pr_by_files sp files.
Proof.
  intro Hp. unfold classify_pr_by_files.
  assert (Hf : forall acc f, classify_file (fst (add_pr_knowledge "file_pattern" p v sp)) acc f =
                             classify_file sp acc f).
  { intros acc f. unfold classify_file. apply fold_left_ext_in. intros acc' x Hx.
    destruct (contains _ _); [|reflexivity].
    unfold add_pr_knowledge, metta_run_match. simpl fst. rewrite match_objs_add. simpl.
    assert (E : String.eqb x p = false).
    { destruct (String.eqb_spec x p) as [->|]; [|reflexivity].
      unfold str_mem in Hp. rewrite (proj2 (existsb_exists _ _)) in Hp; [discriminate|].
      exists p. split; [exact Hx|apply String.eqb_refl]. }
    rewrite E, app_nil_r. reflexivity. }
  rewrite (fold_left_ext_in _ (classify_file sp)); [reflexivity|].
  intros acc x _. apply Hf.
Qed.

Lemma file_pattern_outside_list_ignored_witness :
  str_mem "migration" file_patterns = false /\
  classify_pr_by_files (fst (add_pr_knowledge "file_pattern" "migration" (PyAtom (Sym "database")) pr_seed))
    ["db/migration_0042.sql"] = classify_pr_by_files pr_seed ["db/migration_0042.sql"].
Proof.
  split; [reflexivity|].
  exact (file_pattern_outside_list_ignored pr_seed "migration" (PyAtom (Sym "database"))
           ["db/migration_0042.sql"] eq_refl).
Defined.

(** ** [select_best_agents] *)

(** X17: the agents returned are always taken from the input list. *)
Theorem selected_agents_from_input (agent : Type) (agents : list agent) (reply : pyresult string) (a : agent) :
  In a (select_best_agents agent agents reply) -> In a agents.
Proof.
  assert (Hfirst : forall n, In a (firstn n agents) -> In a agents).
  { intros n H. rewrite <- (firstn_skipn n agents). apply in_or_app. left. exact H. }
  unfold select_best_agents. destruct agents as [|a0 rest]; [intros []|].
  destruct reply as [response|e]; [|apply Hfirst].
  destruct (find_index_list response) as [indices_str|]; [|apply Hfirst].
  intro H. apply in_flat_map in H as (i & _ & Hi).
  destruct (Z.ltb i _); [|destruct Hi].
  destruct (nth_error (a0 :: rest) (Z.to_nat i)) eqn:E; [|destruct Hi].
  destruct Hi as [<-|[]]. eapply nth_error_In. exact E.
Qed.

Lemma selected_agents_from_input_witness :
  In 12%nat (select_best_agents nat [10; 11; 12; 13]%nat (POk "[2]")) /\ In 12%nat [10; 11; 12; 13]%nat.
Proof.
  assert (H : In 12%nat (select_best_agents nat [10; 11; 12; 13]%nat (POk "[2]"))) by (vm_compute; tauto).
  split; [exact H|exact (selected_agents_from_input nat _ _ _ H)].
Defined.

Lemma digit_facts (n : nat) :
  (n < 10)%nat ->
  split_on ","%char (digit_str n) = [digit_str n] /\
  split_on ","%char (" " ++ digit_str n) = [" " ++ digit_str n] /\
  is_digits (strip (digit_str n)) = true /\
  is_digits (strip (" " ++ digit_str n)) = true /\
  digits_value (strip (digit_str n)) = Z.of_nat n /\
  digits_value (strip (" " ++ digit_str n)) = Z.of_nat n /\
  forallb index_char (list_ascii_of_string (digit_str n)) = true /\
  Ascii.eqb (ascii_of_nat (48 + n)) "["%char = false.
Proof.
  intro H.
  do 10 (destruct n as [|n]; [vm_compute; repeat split; reflexivity|]). lia.
Qed.

Lemma split_on_space_cons (w : string) (ws : list string) (s : string) :
  split_on ","%char s = w :: ws -> split_on ","%char (" " ++ s) = (" " ++ w) :: ws.
Proof. intro H. simpl. rewrite H. reflexivity. Qed.

Lemma split_join_digits (n : nat) (ns : list nat) :
  Forall (fun m => m < 10)%nat (n :: ns) ->
  split_on ","%char (join ", " (map digit_str (n :: ns))) =
  digit_str n :: map (fun m => " " ++ digit_str m) ns.
Proof.
  revert n. induction ns as [|m ns IH]; intros n H; inversion H as [|? ? Hn Hrest]; subst.
  - simpl join. apply (digit_facts n Hn).
  - change (join ", " (map digit_str (n :: m :: ns)))
      with (digit_str n ++ String ","%char (" " ++ join ", " (map digit_str (m :: ns)))).
    rewrite split_on_app_sep, (proj1 (digit_facts n Hn)).
    rewrite (split_on_space_cons _ _ _ (IH m Hrest)). reflexivity.
Qed.

Lemma parse_indices_digits (n : nat) (ns : list nat) :
  Forall (fun m => m < 10)%nat (n :: ns) ->
  parse_indices (join ", " (map digit_str (n :: ns))) = map Z.of_nat (n :: ns).
Proof.
  intro H. unfold parse_indices. rewrite (split_join_digits n ns H).
  inversion H as [|? ? Hn Hrest]; subst.
  destruct (digit_facts n Hn) as (_ & _ & D1 & _ & V1 & _).
  cbn [filter]. rewrite D1. cbn [map]. rewrite V1. f_equal.
  clear H Hn D1 V1. induction ns as [|m ns IH]; [reflexivity|].
  inversion Hrest as [|? ? Hm Hrest']; subst.
  destruct (digit_facts m Hm) as (_ & _ & _ & D2 & _ & V2 & _).
  cbn [map filter]. rewrite D2. cbn [map]. rewrite V2, (IH Hrest'). reflexivity.
Qed.

Lemma forallb_index_join (ns : list nat) :
  Forall (fun m => m < 10)%nat ns ->
  forallb index_char (list_ascii_of_string (join ", " (map digit_str ns))) = true.
Proof.
  induction ns as [|n ns IH]; intro H; [reflexivity|].
  inversion H as [|? ? Hn Hrest]; subst.
  destruct ns as [|m ns'].
  - apply (digit_facts n Hn).
  - change (join ", " (map digit_str (n :: m :: ns')))
      with (digit_str n ++ ", " ++ join ", " (map digit_str (m :: ns'))).
    rewrite !forallb_str_app, (proj1 (proj2 (proj2 (proj2 (proj2 (proj2 (proj2 (digit_facts n Hn)))))))).
    exact (IH Hrest).
Qed.

Lemma find_index_list_at (pre body post : string) :
  forallb (fun c => negb (Ascii.eqb c "["%char)) (list_ascii_of_string pre) = true ->
  body <> "" -> forallb index_char (list_ascii_of_string body) = true ->
  find_index_list (pre ++ "[" ++ body ++ "]" ++ post) = Some body.
Proof.
  intros Hpre Hne Hb. induction pre as [|c pre IH].
  - change ("" ++ "[" ++ body ++ "]" ++ post) with (String "["%char (body ++ "]" ++ post)).
    cbn [find_index_list].
    rewrite Ascii.eqb_refl, (span_app index_char body ("]" ++ post) Hb) by reflexivity.
    destruct (String.eqb_spec body "") as [E|_]; [contradiction|]. reflexivity.
  - simpl in Hpre. apply andb_true_iff in Hpre as [Hc Hpre]. apply negb_true_iff in Hc.
    simpl (String c pre ++ _). cbn [find_index_list]. rewrite Hc. exact (IH Hpre).
Qed.

(** X18: a reply with a bracketed list of one-digit indices after text
    without ['['] selects the agents at those indices, in the reply's
    order, repeats kept and indices past the end dropped. *)
Theorem selection_follows_indices (agent : Type) (agents : list agent) (pre post : string) (ns : list nat) :
  forallb (fun c => negb (Ascii.eqb c "["%char)) (list_ascii_of_string pre) = true ->
  ns <> [] -> Forall (fun n => n < 10)%nat ns ->
  select_best_agents agent agents (POk (pre ++ "[" ++ join ", " (map digit_str ns) ++ "]" ++ post)) =
  flat_map (fun n => match nth_error agents n with Some a => [a] | None => [] end) ns.
Proof.
  intros Hpre Hne Hns.
  destruct ns as [|n ns']; [contradiction|].
  assert (Hbody : join ", " (map digit_str (n :: ns')) <> "").
  { destruct ns' as [|m ns'']; simpl join; unfold digit_str; simpl; discriminate. }
  assert (Hfind : find_index_list (pre ++ "[" ++ join ", " (map digit_str (n :: ns')) ++ "]" ++ post) =
                  Some (join ", " (map digit_str (n :: ns')))).
  { apply find_index_list_at; [exact Hpre|exact Hbody|apply forallb_index_join; exact Hns]. }
  unfold select_best_agents. destruct agents as [|a0 rest].
  - symmetry. generalize (n :: ns') as l. intro l.
    induction l as [|m l IH]; simpl; [reflexivity|]. rewrite nth_error_nil. exact IH.
  - cbv iota. rewrite Hfind, (parse_indices_digits n ns' Hns).
    remember (a0 :: rest) as agents eqn:Ea. clear.
    generalize (n :: ns') as l. intro l.
    induction l as [|m l IH]; cbn [map flat_map]; [reflexivity|].
    rewrite IH, Nat2Z.id.
    destruct (Z.ltb_spec (Z.of_nat m) (Z.of_nat (length agents))); [reflexivity|].
    rewrite (proj2 (nth_error_None agents m)) by lia. reflexivity.
Qed.

Lemma selection_follows_indices_witness :
  select_best_agents nat [10; 11; 12; 13; 14]%nat
    (POk ("Best picks: " ++ "[" ++ join ", " (map digit_str [3; 0; 7; 3]%nat) ++ "]" ++ " (see above)")) =
  [13; 10; 13]%nat.
Proof.
  rewrite (selection_follows_indices nat [10; 11; 12; 13; 14]%nat "Best picks: " " (see above)" [3; 0; 7; 3]%nat);
    [reflexivity | reflexivity | discriminate | repeat constructor].
Defined.

(** ** [get_session_id] *)

Lemma get_session_keeps (uuid4 : nat -> string) (st : session_state) (c c' sid : string) :
  assoc c (session_map st) = Some sid ->
  assoc c (session_map (snd (get_session_id uuid4 st c'))) = Some sid.
Proof.
  intro H. unfold get_session_id.
  destruct (assoc c' (session_map st)); simpl; [exact H|].
  rewrite assoc_app, H. reflexivity.
Qed.

Lemma run_sessions_keeps (uuid4 : nat -> string) (cs : list string) (st : session_state) (c sid : string) :
  assoc c (session_map st) = Some sid ->
  assoc c (session_map (run_sessions uuid4 st cs)) = Some sid.
Proof.
  unfold run_sessions. revert st. induction cs as [|c' cs IH]; intros st H; simpl; [exact H|].
  apply IH, get_session_keeps, H.
Qed.

Lemma get_session_records (uuid4 : nat -> string) (st : session_state) (c : string) :
  assoc c (session_map (snd (get_session_id uuid4 st c))) = Some (fst (get_session_id uuid4 st c)).
Proof.
  unfold get_session_id. destruct (assoc c (session_map st)) eqn:E; simpl; [exact E|].
  rewrite assoc_app, E. simpl. rewrite String.eqb_refl. reflexivity.
Qed.

(** X19: a conversation keeps its session id: after the first
    [get_session_id] for it, every later call for it, whatever other
    conversations were served in between, returns the same id. *)
Theorem session_id_stable (uuid4 : nat -> string) (st : session_state) (c : string) (cs : list string) :
  fst (get_session_id uuid4 (run_sessions uuid4 (snd (get_session_id uuid4 st c)) cs) c) =
  fst (get_session_id uuid4 st c).
Proof.
  pose proof (run_sessions_keeps uuid4 cs _ c _ (get_session_records uuid4 st c)) as H.
  unfold get_session_id at 1. rewrite H. reflexivity.
Qed.

(** ** [create_github_payload] and the fallback issues *)

Lemma bullet_list (prefix : string) (l : list json) :
  match bullet_items prefix (JList l) with
  | POk _ => forallb is_str l = true
  | PRaise _ => forallb is_str l = false
  end.
Proof.
  unfold bullet_items. induction l as [|x l IH]; [reflexivity|]. cbn [fold_right].
  match goal with |- context [fold_right ?f ?a l] => destruct (fold_right f a l) eqn:E end;
    destruct x; simpl; try reflexivity; exact IH.
Qed.

Lemma payload_of_list_fields (py_format : json -> string) (v : dict) (t lb : json) (lt la : list json) :
  dget "title" v = Some t -> dget "labels" v = Some lb ->
  dget "technical_requirements" v = Some (JList lt) -> dget "acceptance_criteria" v = Some (JList la) ->
  match create_github_payload py_format v with
  | POk p =>
      str_items (dget_default "technical_requirements" (JList []) v) = true /\
      str_items (dget_default "acceptance_criteria" (JList []) v) = true /\
      dget "title" v = Some (gp_title p) /\ dget "labels" v = Some (gp_labels p) /\
      gp_assignees p = []
  | PRaise _ =>
      str_items (dget_default "technical_requirements" (JList []) v) = false \/
      str_items (dget_default "acceptance_criteria" (JList []) v) = false
  end.
Proof.
  intros Et El Ett Ea.
  unfold create_github_payload, dget_default. rewrite Ett, Ea, Et, El.
  pose proof (bullet_list "- " lt) as B1. pose proof (bullet_list "- [ ] " la) as B2.
  destruct (bullet_items "- " (JList lt)); [destruct (bullet_items "- [ ] " (JList la))|].
  - split; [exact B1|]. split; [exact B2|]. split; [reflexivity|]. split; reflexivity.
  - right. exact B2.
  - left. exact B1.
Qed.

Lemma payload_of_record_fields (py_format : json -> string) (v : dict) :
  list_at "technical_requirements" v = true -> list_at "acceptance_criteria" v = true ->
  present_truthy "title" v = true -> present_truthy "labels" v = true ->
  match create_github_payload py_format v with
  | POk p =>
      str_items (dget_default "technical_requirements" (JList []) v) = true /\
      str_items (dget_default "acceptance_criteria" (JList []) v) = true /\
      dget "title" v = Some (gp_title p) /\ dget "labels" v = Some (gp_labels p) /\
      gp_assignees p = []
  | PRaise _ =>
      str_items (dget_default "technical_requirements" (JList []) v) = false \/
      str_items (dget_default "acceptance_criteria" (JList []) v) = false
  end.
Proof.
  intros Lt La Pt Pl. unfold present_truthy in Pt, Pl. unfold list_at in Lt, La.
  assert (Et : exists t, dget "title" v = Some t)
    by (destruct (dget "title" v); [eexists; reflexivity|discriminate Pt]).
  assert (El : exists lb, dget "labels" v = Some lb)
    by (destruct (dget "labels" v); [eexists; reflexivity|discriminate Pl]).
  assert (Ett : exists lt, dget "technical_requirements" v = Some (JList lt))
    by (destruct (dget "technical_requirements" v) as [[| | | |l|]|]; try discriminate Lt;
        eexists; reflexivity).
  assert (Ea : exists la, dget "acceptance_criteria" v = Some (JList la))
    by (destruct (dget "acceptance_criteria" v) as [[| | | |l|]|]; try discriminate La;
        eexists; reflexivity).
  destruct Et as [t Et], El as [lb El], Ett as [lt Ett], Ea as [la Ea].
  exact (payload_of_list_fields py_format v t lb lt la Et El Ett Ea).
Qed.

(** X20: on a record the defaulting pass returned, [create_github_payload]
    raises exactly when an item of [technical_requirements] or
    [acceptance_criteria] is not a [str]; otherwise the payload carries the
    record's title and labels and no assignees. *)
Theorem payload_of_validated (py_format : json -> string) (d : dict) :
  let v := validate_and_fix_issue_data d in
  match create_github_payload py_format v with
  | POk p =>
      str_items (dget_default "technical_requirements" (JList []) v) = true /\
      str_items (dget_default "acceptance_criteria" (JList []) v) = true /\
      dget "title" v = Some (gp_title p) /\ dget "labels" v = Some (gp_labels p) /\
      gp_assignees p = []
  | PRaise _ =>
      str_items (dget_default "technical_requirements" (JList []) v) = false \/
      str_items (dget_default "acceptance_criteria" (JList []) v) = false
  end.
Proof.
  destruct (validate_lists d) as (_ & Lt & La).
  exact (payload_of_record_fields py_format _ Lt La
           (validate_present d "title" ltac:(simpl; tauto))
           (validate_present d "labels" ltac:(simpl; tauto))).
Qed.

Lemma first_suggestion_cases (t : string) (l : list (string * template)) (dflt : template) :
  first_suggestion t l dflt = dflt \/ In (first_suggestion t l dflt) (map snd l).
Proof.
  induction l as [|[k f] l IH]; simpl; [left; reflexivity|].
  destruct (contains k t); [right; left; reflexivity|].
  destruct IH as [H|H]; [left|right; right]; exact H.
Qed.

Lemma assoc_in_snd {A : Type} (k : string) (l : list (string * A)) (v : A) :
  assoc k l = Some v -> In v (map snd l).
Proof.
  induction l as [|[k' x] l IH]; simpl; [discriminate|].
  destruct (String.eqb k k'); [intro H; injection H as ->; left; reflexivity|].
  intro H. right. exact (IH H).
Qed.

Lemma select_template_cases (b : string) :
  select_template b = search_template \/ In (select_template b) (map snd feature_templates).
Proof.
  unfold select_template. destruct (assoc b feature_templates) as [t|] eqn:E; [|left; reflexivity].
  right. exact (assoc_in_snd _ _ _ E).
Qed.

(** X21: both fallback issues are already normalised: the defaulting pass
    returns the record [create_fallback_issue_data] or
    [create_smart_fallback_from_responses] built unchanged, whatever the
    agent responses and repository URL. *)
Theorem fallback_issues_normalised (rs : list string) (url : string) :
  validate_and_fix_issue_data (create_fallback_issue_data rs url) = create_fallback_issue_data rs url /\
  validate_and_fix_issue_data (create_smart_fallback_from_responses rs url) =
    create_smart_fallback_from_responses rs url.
Proof.
  split; apply validate_complete_id.
  - unfold create_fallback_issue_data. cbv zeta.
    generalize (first_suggestion_cases (lower (join " " rs)) feature_suggestions search_suggestion).
    generalize (first_suggestion (lower (join " " rs)) feature_suggestions search_suggestion) as t.
    intros t [H|H].
    + rewrite H. vm_compute. reflexivity.
    + simpl in H.
      repeat (destruct H as [H|H]; [rewrite <- H; vm_compute; reflexivity|]). destruct H.
  - unfold create_smart_fallback_from_responses. cbv zeta.
    generalize (best_feature (lower (join " " rs))). intro b.
    destruct (select_template_cases b) as [H|H].
    + rewrite H. vm_compute. reflexivity.
    + simpl in H.
      repeat (destruct H as [H|H]; [rewrite <- H; vm_compute; reflexivity|]). destruct H.
Qed.

Lemma bullet_strs (prefix : string) (l : list string) :
  bullet_items prefix (JList (map JStr l)) = POk (map (fun s => prefix ++ s) l).
Proof.
  unfold bullet_items. induction l as [|x l IH]; [reflexivity|].
  cbn [map fold_right]. rewrite IH. reflexivity.
Qed.

Lemma payload_of_str_lists (py_format : json -> string) (v : dict) (lt la : list string) :
  dget "technical_requirements" v = Some (jstrs lt) -> dget "acceptance_criteria" v = Some (jstrs la) ->
  exists p, create_github_payload py_format v = POk p /\
    gp_title p = dget_default "title" (JStr "AI-Generated Enhancement") v /\
    gp_labels p = dget_default "labels" (jstrs ["enhancement"]) v /\ gp_assignees p = [].
Proof.
  intros Et Ea. unfold create_github_payload.
  unfold dget_default at 1 2. rewrite Et, Ea. unfold jstrs. rewrite !bullet_strs.
  eexists. split; [reflexivity|]. split; [reflexivity|]. split; reflexivity.
Qed.

(** X22: a fallback issue always yields a GitHub payload: for either
    fallback record, [create_github_payload] succeeds, with the selected
    template's title, the record's three labels and no assignees. *)
Theorem fallback_payload_posts (py_format : json -> string) (rs : list string) (url : string) :
  (exists p, create_github_payload py_format (create_fallback_issue_data rs url) = POk p /\
     gp_title p = JStr (t_title (first_suggestion (lower (join " " rs)) feature_suggestions search_suggestion)) /\
     gp_labels p = jstrs ["enhancement"; "ai-generated"; "fallback"] /\ gp_assignees p = []) /\
  (exists p, create_github_payload py_format (create_smart_fallback_from_responses rs url) = POk p /\
     gp_title p = JStr (t_title (select_template (best_feature (lower (join " " rs))))) /\
     gp_labels p = jstrs ["enhancement"; "ai-generated"; best_feature (lower (join " " rs))] /\
     gp_assignees p = []).
Proof.
  split.
  - destruct (payload_of_str_lists py_format (create_fallback_issue_data rs url)
                ["Research best practices"; "Design system architecture";
                 "Implement core functionality"; "Add comprehensive testing"]
                ["Feature is fully implemented"; "All tests pass";
                 "Documentation is updated"; "Code review is completed"] eq_refl eq_refl)
      as (p & Hp & Ht & Hl & Ha).
    exists p. split; [exact Hp|]. split; [rewrite Ht; reflexivity|]. split; [rewrite Hl; reflexivity|exact Ha].
  - destruct (payload_of_str_lists py_format (create_smart_fallback_from_responses rs url)
                ["Research " ++ best_feature (lower (join " " rs)) ++ " best practices"; "Design system architecture";
                 "Implement core functionality"; "Add comprehensive testing"]
                [t_title (select_template (best_feature (lower (join " " rs)))) ++ " is fully implemented";
                 "All functionality works as expected";
                 "Tests pass with >90% coverage"; "Documentation is complete"] eq_refl eq_refl)
      as (p & Hp & Ht & Hl & Ha).
    exists p. split; [exact Hp|]. split; [rewrite Ht; reflexivity|]. split; [rewrite Hl; reflexivity|exact Ha].
Qed.


(** ** [process_repository_query] on the seeded fact store *)

Lemma classify_project_type_range (r : option repo_info) :
  In (classify_project_type r) project_type_names.
Proof.
  destruct r as [rd|]; [|simpl; tauto].
  unfold classify_project_type. cbv zeta.
  destruct (classify_by_description (lower_or_empty (rd_description rd))) as [ty|] eqn:E.
  - unfold classify_by_description in E.
    repeat match type of E with
           | context [if ?b then _ else _] => destruct b
           end; try discriminate E; injection E as <-; simpl; tauto.
  - repeat match goal with
           | |- context [if ?b then _ else _] => destruct b
           end; simpl; tauto.
Qed.

Lemma seeded_query_cases (ty : string) :
  In ty project_type_names ->
  exists l, describe_features (initialize_knowledge_graph [])
              (query_project_features (initialize_knowledge_graph []) ty) = POk l /\
    forallb (fun e => seeded_description (fe_description e)) (add_fallback_features l) = true /\
    (add_fallback_features l = [cicd_entry; monitoring_entry] <-> ty = "blockchain").
Proof.
  intro H. simpl in H.
  repeat (destruct H as [H|H];
          [subst ty; eexists; split; [vm_compute; reflexivity|];
           split; [vm_compute; reflexivity|];
           vm_compute; split; intro E; first [reflexivity | discriminate E | inversion E]|]).
  destruct H.
Qed.

(** X23: on the seeded fact store [process_repository_query] never raises
    and never returns an empty list: when the repository cannot be
    analysed it returns the single Error entry, otherwise every entry it
    returns carries one of the seeded feature descriptions. *)
Theorem repository_query_seeded (github_get : string -> pyresult (nat * gh_repo)) (url : string) :
  exists l, process_repository_query github_get url (initialize_knowledge_graph []) = POk l /\
    l <> [] /\
    match analyze_repository_basic github_get url with
    | None => l = [FeatureEntry "Error" "Could not analyze repository"]
    | Some _ => forallb (fun e => seeded_description (fe_description e)) l = true
    end.
Proof.
  unfold process_repository_query.
  destruct (analyze_repository_basic github_get url) as [rd|].
  - destruct (seeded_query_cases _ (classify_project_type_range (Some rd))) as (l & Hl & Hs & _).
    rewrite Hl. exists (add_fallback_features l). split; [reflexivity|]. split; [|exact Hs].
    destruct l; discriminate.
  - eexists. split; [reflexivity|]. split; [discriminate|reflexivity].
Qed.

(** X24: on the seeded fact store the two generic entries (CI/CD pipeline
    and monitoring dashboard) are exactly the answer for a repository
    classified as [blockchain], the one project type with no seeded
    features. *)
Theorem generic_entries_iff_blockchain (github_get : string -> pyresult (nat * gh_repo)) (url : string) :
  process_repository_query github_get url (initialize_knowledge_graph []) = POk [cicd_entry; monitoring_entry] <->
  exists rd, analyze_repository_basic github_get url = Some rd /\ classify_project_type (Some rd) = "blockchain".
Proof.
  unfold process_repository_query.
  destruct (analyze_repository_basic github_get url) as [rd|].
  - destruct (seeded_query_cases _ (classify_project_type_range (Some rd))) as (l & Hl & _ & Hb).
    rewrite Hl. split.
    + intro E. injection E as E. exists rd. split; [reflexivity|]. apply Hb. exact E.
    + intros (rd' & E & Ht). injection E as <-. rewrite (proj2 Hb Ht). reflexivity.
  - split; [intro E; discriminate E|intros (rd & E & _); discriminate E].
Qed.

(** ** [get_comprehensive_analysis_plan] *)


Lemma plan_for_areas_items (sp : space) (ty : string) (areas : list string) (l : list plan_item) :
  plan_for_areas sp ty areas = POk l ->
  forall it, In it l <->
    pi_pr_type it = ty /\ In (pi_area it) areas /\
    exists rest, get_analysis_description sp (pi_area it) = POk (pi_description it :: rest).
Proof.
  revert l. induction areas as [|a areas IH]; intros l H it.
  - injection H as <-. simpl. split; [tauto|intros (_ & [] & _)].
  - simpl in H.
    destruct (get_analysis_description sp a) as [[|d ds]|e] eqn:Ea;
      destruct (plan_for_areas sp ty areas) as [l'|e'] eqn:El; try discriminate H;
      injection H as <-; specialize (IH l' eq_refl it).
    + rewrite IH. simpl. split.
      * intros (Ht & Hin & rest & Hr). split; [exact Ht|]. split; [right; exact Hin|exists rest; exact Hr].
      * intros (Ht & [<-|Hin] & rest & Hr); [rewrite Ea in Hr; discriminate Hr|].
        split; [exact Ht|]. split; [exact Hin|exists rest; exact Hr].
    + simpl. rewrite IH. split.
      * intros [<-|(Ht & Hin & rest & Hr)]; cbn [pi_pr_type pi_area pi_description].
        -- split; [reflexivity|]. split; [left; reflexivity|exists ds; exact Ea].
        -- split; [exact Ht|]. split; [right; exact Hin|exists rest; exact Hr].
      * intros (Ht & [Hin|Hin] & rest & Hr).
        -- left. rewrite Hin in Ea. rewrite Ea in Hr. injection Hr as Hd _.
           destruct it as [ia id ity]; cbn [pi_pr_type pi_area pi_description] in *. subst. reflexivity.
        -- right. split; [exact Ht|]. split; [exact Hin|exists rest; exact Hr].
Qed.

Lemma plan_for_types_items (sp : space) (types : list string) (p : list plan_item) :
  plan_for_types sp types = POk p ->
  forall it, In it p <->
    In (pi_pr_type it) types /\ In (pi_area it) (query_pr_analysis_areas sp (pi_pr_type it)) /\
    exists rest, get_analysis_description sp (pi_area it) = POk (pi_description it :: rest).
Proof.
  revert p. induction types as [|ty types IH]; intros p H it.
  - injection H as <-. simpl. split; [tauto|intros ([] & _)].
  - simpl in H.
    destruct (plan_for_areas sp ty (query_pr_analysis_areas sp ty)) as [l1|e] eqn:E1;
      destruct (plan_for_types sp types) as [l2|e'] eqn:E2; try discriminate H.
    injection H as <-. rewrite in_app_iff, (plan_for_areas_items sp ty _ l1 E1 it), (IH l2 eq_refl it).
    simpl. split.
    + intros [(Ht & Hin & Hr)|(Ht & Hin & Hr)].
      * split; [left; symmetry; exact Ht|]. rewrite Ht. split; [exact Hin|exact Hr].
      * split; [right; exact Ht|]. split; [exact Hin|exact Hr].
    + intros ([Ht|Ht] & Hin & Hr).
      * left. split; [symmetry; exact Ht|]. rewrite <- Ht in Hin. split; [exact Hin|exact Hr].
      * right. split; [exact Ht|]. split; [exact Hin|exact Hr].
Qed.

Lemma comprehensive_plan_items (set_list : list string -> list string) (sp : space) (pr : pr_info)
    (p : analysis_plan) :
  get_comprehensive_analysis_plan_by set_list sp pr = POk p ->
  forall it, In it (plan p) <->
    In (pi_pr_type it) (pr_types p) /\ In (pi_area it) (query_pr_analysis_areas sp (pi_pr_type it)) /\
    exists rest, get_analysis_description sp (pi_area it) = POk (pi_description it :: rest).
Proof.
  unfold get_comprehensive_analysis_plan_by.
  destruct (plan_for_types sp _) as [l|e] eqn:E; intro H; [|discriminate H].
  injection H as <-. cbn [plan pr_types]. exact (plan_for_types_items sp _ l E).
Qed.

Lemma comprehensive_plan_parts (set_list : list string -> list string) (sp : space) (pr : pr_info)
    (p : analysis_plan) :
  get_comprehensive_analysis_plan_by set_list sp pr = POk p ->
  let types := set_list (app (analyze_pr_title_description (pr_title pr) (pr_body pr))
                             (classify_pr_by_files sp (pr_changed_files pr))) in
  pr_types p = types /\ plan_for_types sp types = POk (plan p).
Proof.
  unfold get_comprehensive_analysis_plan_by. cbv zeta.
  destruct (plan_for_types sp _) as [l|e] eqn:E; intro H; [|discriminate H].
  injection H as <-. split; reflexivity.
Qed.

Lemma NoDup_app_disjoint {A : Type} (l1 l2 : list A) :
  NoDup l1 -> NoDup l2 -> (forall x, In x l1 -> ~ In x l2) -> NoDup (app l1 l2).
Proof.
  induction l1 as [|x l1 IH]; intros H1 H2 Hx; simpl; [exact H2|].
  inversion H1 as [|? ? Hn Hl]; subst. constructor.
  - rewrite in_app_iff. intros [H|H]; [exact (Hn H)|]. exact (Hx x (or_introl eq_refl) H).
  - apply IH; [exact Hl|exact H2|]. intros y Hy. apply Hx. right. exact Hy.
Qed.

Lemma plan_for_areas_NoDup (sp : space) (ty : string) (areas : list string) (l : list plan_item) :
  plan_for_areas sp ty areas = POk l -> NoDup areas -> NoDup l.
Proof.
  revert l. induction areas as [|a areas IH]; intros l H Hd.
  - injection H as <-. constructor.
  - inversion Hd as [|? ? Ha Hr]; subst. simpl in H.
    destruct (get_analysis_description sp a) as [[|d ds]|e] eqn:Ea;
      destruct (plan_for_areas sp ty areas) as [l'|e'] eqn:El; try discriminate H;
      injection H as <-.
    + exact (IH l' eq_refl Hr).
    + constructor; [|exact (IH l' eq_refl Hr)].
      intro Hin. apply (proj1 (plan_for_areas_items sp ty areas l' El _)) in Hin as (_ & Hin & _).
      exact (Ha Hin).
Qed.

Lemma plan_for_types_NoDup (sp : space) (types : list string) (p : list plan_item) :
  plan_for_types sp types = POk p -> NoDup types -> NoDup p.
Proof.
  revert p. induction types as [|ty types IH]; intros p H Hd.
  - injection H as <-. constructor.
  - inversion Hd as [|? ? Ht Hr]; subst. simpl in H.
    destruct (plan_for_areas sp ty (query_pr_analysis_areas sp ty)) as [l1|e] eqn:E1;
      destruct (plan_for_types sp types) as [l2|e'] eqn:E2; try discriminate H.
    injection H as <-. apply NoDup_app_disjoint.
    + apply (plan_for_areas_NoDup sp ty _ l1 E1).
      apply (collect_symbols_distinct _ [] (conj (NoDup_nil _) (fun H => H))).
    + exact (IH l2 eq_refl Hr).
    + intros it H1 H2.
      apply (proj1 (plan_for_areas_items sp ty _ l1 E1 it)) in H1 as (Hty & _).
      apply (proj1 (plan_for_types_items sp types l2 E2 it)) in H2 as (Hin & _).
      rewrite Hty in Hin. exact (Ht Hin).
Qed.

(** X25: an analysis plan, when computed, lists each of its items once,
    whatever order the set of PR types comes in, and its items are
    exactly the [(area, description, type)] where the type is one the
    title/body classifier or the file classifier gives, the area is one of
    the areas the store gives that type, and the description is the first
    description the store gives the area. *)
Theorem analysis_plan_items (set_list : list string -> list string)
    (Hs : forall l, Permutation (set_list l) (dedup l)) (sp : space) (pr : pr_info) (p : analysis_plan) :
  get_comprehensive_analysis_plan_by set_list sp pr = POk p ->
  NoDup (plan p) /\
  forall it, In it (plan p) <->
    (In (pi_pr_type it) (analyze_pr_title_description (pr_title pr) (pr_body pr)) \/
     In (pi_pr_type it) (classify_pr_by_files sp (pr_changed_files pr))) /\
    In (pi_area it) (query_pr_analysis_areas sp (pi_pr_type it)) /\
    exists rest, get_analysis_description sp (pi_area it) = POk (pi_description it :: rest).
Proof.
  intro H. pose proof (comprehensive_plan_items set_list sp pr p H) as Hi.
  destruct (comprehensive_plan_parts set_list sp pr p H) as [Ht Hp].
  destruct (set_list_facts set_list (app (analyze_pr_title_description (pr_title pr) (pr_body pr))
                                          (classify_pr_by_files sp (pr_changed_files pr))) (Hs _)) as [Hd Hm].
  split; [exact (plan_for_types_NoDup sp _ _ Hp Hd)|].
  intro it. rewrite Hi, Ht, Hm, in_app_iff. reflexivity.
Qed.

(** X25 in a run whose set lists the types in reverse order of first
    occurrence. *)
Lemma analysis_plan_items_witness :
  (forall l, Permutation (rev (dedup l)) (dedup l)) /\
  exists p, get_comprehensive_analysis_plan_by (fun l => rev (dedup l)) (initialize_pr_knowledge_graph [])
              (PrInfo "Fix crash on empty input" None []) = POk p /\
    NoDup (plan p) /\
    In (PlanItem "regression_testing" "Ensure the fix doesn't introduce new issues" "bugfix") (plan p).
Proof.
  assert (Hs : forall l, Permutation (rev (dedup l)) (dedup l))
    by (intro l; apply Permutation_sym, Permutation_rev).
  split; [exact Hs|].
  destruct (get_comprehensive_analysis_plan_by (fun l => rev (dedup l)) (initialize_pr_knowledge_graph [])
              (PrInfo "Fix crash on empty input" None [])) as [p|e] eqn:H;
    [|vm_compute in H; discriminate H].
  exists p. split; [reflexivity|].
  destruct (analysis_plan_items (fun l => rev (dedup l)) Hs _ _ p H) as [Hd Hi].
  split; [exact Hd|].
  apply (proj2 (Hi _)). cbn [pi_pr_type pi_area pi_description pr_title pr_body pr_changed_files].
  split; [left; vm_compute; tauto|]. split; [vm_compute; tauto|]. eexists. vm_compute. reflexivity.
Defined.


Lemma collect_symbols_all (P : string -> Prop) (r : list (list atom_obj)) (acc : list string) :
  (forall y, In y acc -> P y) -> (forall o, In o (concat r) -> P (strip (atom_str o))) ->
  forall y, In y (collect_symbols r acc) -> P y.
Proof.
  unfold collect_symbols. generalize (concat r) as os. intro os. revert acc.
  induction os as [|o os IH]; intros acc Hacc Hos; simpl; [exact Hacc|].
  apply IH; [|intros o' Ho'; apply Hos; right; exact Ho'].
  match goal with |- context [if ?b then _ else _] => destruct b end; [|exact Hacc].
  intros y Hy. apply in_app_iff in Hy as [Hy|[<-|[]]]; [exact (Hacc y Hy)|].
  apply Hos. left. reflexivity.
Qed.


Lemma pr_seed_file_pattern_types :
  forallb (fun a => negb (String.eqb "file_pattern" (a_rel a)) || str_mem (strip (atom_str (a_obj a))) pr_type_names)
          pr_seed = true.
Proof. vm_compute. reflexivity. Qed.

Lemma match_objs_file_pattern (pat : string) (o : atom_obj) :
  In o (match_objs "file_pattern" pat pr_seed) -> In (strip (atom_str o)) pr_type_names.
Proof.
  unfold match_objs. intro H. apply in_map_iff in H as (a & <- & Ha).
  apply filter_In in Ha as [Ha Hm]. apply andb_true_iff in Hm as [Hr _].
  pose proof pr_seed_file_pattern_types as Hs. rewrite forallb_forall in Hs.
  specialize (Hs a Ha). rewrite Hr in Hs. apply str_mem_In. exact Hs.
Qed.

Lemma classify_pr_by_files_types (files : list string) (x : string) :
  In x (classify_pr_by_files pr_seed files) -> In x pr_type_names.
Proof.
  unfold classify_pr_by_files.
  assert (HF : forall y, In y (fold_left (classify_file pr_seed) files []) -> In y pr_type_names).
  { apply (fold_left_preserves (fun acc => forall y, In y acc -> In y pr_type_names)); [|intros y []].
    intros acc f Hacc. unfold classify_file.
    apply (fold_left_preserves (fun acc => forall y, In y acc -> In y pr_type_names)); [|exact Hacc].
    intros acc' pat Hacc'.
    match goal with |- context [if ?b then _ else _] => destruct b end; [|exact Hacc'].
    apply collect_symbols_all; [exact Hacc'|].
    intros o Ho. unfold metta_run_match in Ho. cbn [concat] in Ho. rewrite app_nil_r in Ho.
    exact (match_objs_file_pattern pat o Ho). }
  destruct (fold_left (classify_file pr_seed) files []) as [|y l].
  - intros [<-|[]]. simpl. tauto.
  - exact (HF x).
Qed.

Lemma analyze_pr_title_types (t : string) (b : option string) (x : string) :
  In x (analyze_pr_title_description t b) -> In x pr_type_names.
Proof.
  unfold analyze_pr_title_description.
  assert (H : forall f y, In y (map fst (filter f type_keywords)) -> In y pr_type_names).
  { intros f y Hy. apply in_map_iff in Hy as (tk & <- & Htk). apply filter_In in Htk as [Htk _].
    simpl in Htk. repeat (destruct Htk as [<-|Htk]; [simpl; tauto|]). destruct Htk. }
  match goal with |- context [map fst (filter ?f type_keywords)] =>
    pose proof (H f x) as Hx; destruct (map fst (filter f type_keywords)) end.
  - intros [<-|[]]. simpl. tauto.
  - exact Hx.
Qed.

Lemma analyze_pr_title_nonempty (t : string) (b : option string) :
  analyze_pr_title_description t b <> [].
Proof.
  unfold analyze_pr_title_description.
  match goal with |- context [match ?l with [] => _ | _ :: _ => _ end] => destruct l end; discriminate.
Qed.

Lemma seeded_plan_facts (pr : pr_info) :
  exists p, get_comprehensive_analysis_plan (initialize_pr_knowledge_graph []) pr = POk p /\
    pr_types p <> [] /\ NoDup (pr_types p) /\ (forall t, In t (pr_types p) -> In t pr_type_names).
Proof.
  rewrite initialize_pr_knowledge_graph_nil. unfold get_comprehensive_analysis_plan, get_comprehensive_analysis_plan_by. cbv zeta.
  destruct (plan_for_types_pr_seed (dedup (app (analyze_pr_title_description (pr_title pr) (pr_body pr))
                                               (classify_pr_by_files pr_seed (pr_changed_files pr)))))
    as [l Hl].
  rewrite Hl. eexists. split; [reflexivity|]. cbn [pr_types].
  split; [|split; [apply dedup_NoDup|]].
  - pose proof (analyze_pr_title_nonempty (pr_title pr) (pr_body pr)) as Hn.
    destruct (analyze_pr_title_description (pr_title pr) (pr_body pr)); [contradiction|discriminate].
  - intros t Ht. apply dedup_In, in_app_iff in Ht as [Ht|Ht].
    + exact (analyze_pr_title_types _ _ t Ht).
    + exact (classify_pr_by_files_types _ t Ht).
Qed.

(** X26: on the seeded PR store the analysis plan is always computed,
    for every pull request; its PR types are never empty, never repeat,
    and are among the six known types (feature, bugfix, refactor, docs,
    security, performance). *)
Theorem seeded_plan_total (pr : pr_info) :
  exists p, get_comprehensive_analysis_plan (initialize_pr_knowledge_graph []) pr = POk p /\
    pr_types p <> [] /\ NoDup (pr_types p) /\ (forall t, In t (pr_types p) -> In t pr_type_names).
Proof. exact (seeded_plan_facts pr). Qed.

(** ** Results of the fact-store queries *)


(** X27: the query helpers never return a name twice nor an empty name:
    for every fact store, [query_project_features],
    [query_pr_analysis_areas] and [classify_pr_by_files] give duplicate-free
    lists without [""]. *)
Theorem query_results_distinct (sp : space) (t : string) (files : list string) :
  (NoDup (query_project_features sp t) /\ ~ In "" (query_project_features sp t)) /\
  (NoDup (query_pr_analysis_areas sp t) /\ ~ In "" (query_pr_analysis_areas sp t)) /\
  (NoDup (classify_pr_by_files sp files) /\ ~ In "" (classify_pr_by_files sp files)).
Proof.
  assert (H0 : NoDup (@nil string) /\ ~ In "" (@nil string)) by (split; [constructor|intros []]).
  split; [apply collect_symbols_distinct, H0|].
  split; [apply collect_symbols_distinct, H0|].
  unfold classify_pr_by_files.
  assert (HF : NoDup (fold_left (classify_file sp) files []) /\ ~ In "" (fold_left (classify_file sp) files [])).
  { apply (fold_left_preserves (fun acc => NoDup acc /\ ~ In "" acc)); [|exact H0].
    intros acc f Hacc. unfold classify_file.
    apply (fold_left_preserves (fun acc => NoDup acc /\ ~ In "" acc)); [|exact Hacc].
    intros acc' pat Hacc'.
    match goal with |- context [if ?b then _ else _] => destruct b end; [|exact Hacc'].
    apply collect_symbols_distinct. exact Hacc'. }
  destruct (fold_left (classify_file sp) files []) as [|y l]; [|exact HF].
  split; [constructor; [intros []|constructor]|intros [H|[]]; discriminate H].
Qed.

(** ** [process_pr_query] on the seeded PR store *)

Lemma seeded_area_titles_ok :
  forallb (fun ty => forallb (fun a =>
             let n := title (replace_all "_" " " a) in
             negb (String.eqb n "Error") && negb (String.eqb n "Merge Conflicts") &&
             negb (String.eqb n "Review Status"))
           (query_pr_analysis_areas pr_seed ty)) pr_type_names = true.
Proof. vm_compute. reflexivity. Qed.

Lemma seeded_plan_titles (pr : pr_info) (p : analysis_plan) (n : string) :
  get_comprehensive_analysis_plan (initialize_pr_knowledge_graph []) pr = POk p ->
  (forall t, In t (pr_types p) -> In t pr_type_names) ->
  In n (map (fun item => title (replace_all "_" " " (pi_area item))) (plan p)) ->
  n <> "Error" /\ n <> "Merge Conflicts" /\ n <> "Review Status".
Proof.
  intros Hp Ht Hn. apply in_map_iff in Hn as (it & <- & Hit).
  apply (comprehensive_plan_items _ _ _ p Hp) in Hit as (Hty & Ha & _).
  rewrite initialize_pr_knowledge_graph_nil in Ha.
  pose proof seeded_area_titles_ok as H. rewrite forallb_forall in H.
  specialize (H _ (Ht _ Hty)). rewrite forallb_forall in H. specialize (H _ Ha). cbv zeta in H.
  apply andb_true_iff in H as [H H3]. apply andb_true_iff in H as [H1 H2].
  apply negb_true_iff, String.eqb_neq in H1, H2, H3. tauto.
Qed.

(** X28: with the seeded PR store, [process_pr_query] never takes its
    error branch: a PR that cannot be fetched gives the single "Failed to
    fetch PR data" entry; otherwise the report starts with "PR Overview"
    and "Change Analysis", has no "Error" entry, has a "Merge Conflicts"
    entry exactly when [mergeable] is [false] ([null] does not count), and
    a "Review Status" entry exactly when there are no comments and no
    review comments. *)
Theorem pr_query_seeded (fetch_pr_data : string -> option fetched_pr) (int_str : Z -> string)
    (list_repr : list string -> string) (exc_str : exc -> string) (url : string) :
  let names := map ae_analysis (process_pr_query fetch_pr_data int_str list_repr exc_str url
                                  (initialize_pr_knowledge_graph [])) in
  match fetch_pr_data url with
  | None => names = ["Failed to fetch PR data"]
  | Some pd =>
      firstn 2 names = ["PR Overview"; "Change Analysis"] /\ ~ In "Error" names /\
      (In "Merge Conflicts" names <-> fp_mergeable pd = Some false) /\
      (In "Review Status" names <-> fp_comments_count pd = 0%Z /\ fp_review_comments_count pd = 0%Z)
  end.
Proof.
  cbv zeta. unfold process_pr_query.
  destruct (fetch_pr_data url) as [pd|]; [|reflexivity]. cbv zeta.
  destruct (seeded_plan_facts (PrInfo (fp_title pd) (fp_body pd) (fp_changed_files pd)))
    as (p & Hp & _ & _ & Htypes).
  rewrite Hp.
  assert (Hpt : forall n, In n (map (fun item => title (replace_all "_" " " (pi_area item))) (plan p)) ->
                         n <> "Error" /\ n <> "Merge Conflicts" /\ n <> "Review Status")
    by (intro n; exact (seeded_plan_titles _ p n Hp Htypes)).
  rewrite !map_app, map_map. cbn [ae_analysis].
  generalize dependent (map (fun item => title (replace_all "_" " " (pi_area item))) (plan p)).
  intros ns Hpt.
  split; [reflexivity|].
  destruct (fp_mergeable pd) as [[|]|];
    destruct (Z.eqb_spec (fp_comments_count pd) 0) as [Ec|Ec];
    destruct (Z.eqb_spec (fp_review_comments_count pd) 0) as [Er|Er];
    cbn [andb map ae_analysis app];
    repeat split;
    repeat match goal with
           | |- ~ In _ _ => intro
           | |- _ -> _ => intro
           | H : _ /\ _ |- _ => destruct H
           | H : In _ (_ :: _) |- _ => destruct H as [H|H]
           | H : In _ (_ ++ _) |- _ => apply in_app_iff in H
           | H : _ \/ _ |- _ => destruct H as [H|H]
           | H : In _ [] |- _ => destruct H
           | H : In _ ns |- _ => destruct (Hpt _ H) as (? & ? & ?); clear H
           end;
    try discriminate; try congruence; auto using in_or_app, in_eq, in_cons.
  all: right; right; apply in_or_app; right; simpl; tauto.
Qed.

(** ** [discover_analysis_agents] *)

Lemma add_agent_inv (query : string) (st : list string * list agent_rec) (agent : agent_rec) :
  fst st = map ag_address (snd st) ->
  fst (add_agent query st agent) = map ag_address (snd (add_agent query st agent)).
Proof.
  destruct st as [seen acc]. cbn [fst snd]. intro H. unfold add_agent.
  destruct (negb _ && negb _); cbn [fst snd]; [|exact H].
  rewrite map_app, H. reflexivity.
Qed.

Lemma add_agent_keeps (query : string) (st : list string * list agent_rec) (agent : agent_rec) (a : string) :
  In a (fst st) -> In a (fst (add_agent query st agent)).
Proof.
  destruct st as [seen acc]. unfold add_agent. cbn [fst].
  destruct (negb _ && negb _); cbn [fst]; [intro H; apply in_or_app; left; exact H|exact (fun H => H)].
Qed.

Lemma add_agent_adds (query : string) (st : list string * list agent_rec) (agent : agent_rec) :
  ag_address agent <> "" -> In (ag_address agent) (fst (add_agent query st agent)).
Proof.
  destruct st as [seen acc]. unfold add_agent. cbn [fst]. intro Hne.
  destruct (String.eqb_spec (ag_address agent) "") as [E|_]; [contradiction|].
  destruct (str_mem (ag_address agent) seen) eqn:M; cbn [negb andb fst].
  - apply str_mem_In. exact M.
  - apply in_or_app. right. left. reflexivity.
Qed.

Lemma add_agent_distinct (query : string) (st : list string * list agent_rec) (agent : agent_rec) :
  NoDup (fst st) /\ ~ In "" (fst st) ->
  NoDup (fst (add_agent query st agent)) /\ ~ In "" (fst (add_agent query st agent)).
Proof.
  destruct st as [seen acc]. unfold add_agent. cbn [fst]. intros [Hd Hn].
  destruct (String.eqb_spec (ag_address agent) "") as [E|E]; [split; assumption|].
  destruct (str_mem (ag_address agent) seen) eqn:M; cbn [negb andb fst]; [split; assumption|].
  split.
  - apply NoDup_snoc; [exact Hd|]. intro H.
    assert (M' : str_mem (ag_address agent) seen = true).
    { unfold str_mem. apply existsb_exists. exists (ag_address agent). split; [exact H|apply String.eqb_refl]. }
    congruence.
  - rewrite in_app_iff. intros [H|[H|[]]]; [exact (Hn H)|]. apply E. exact H.
Qed.

Lemma add_agent_query (query : string) (st : list string * list agent_rec) (agent : agent_rec) (q : list string) :
  In query q -> (forall ag, In ag (snd st) -> exists x, ag_search_query ag = Some x /\ In x q) ->
  forall ag, In ag (snd (add_agent query st agent)) -> exists x, ag_search_query ag = Some x /\ In x q.
Proof.
  destruct st as [seen acc]. unfold add_agent. cbn [snd]. intros Hq Hacc ag.
  destruct (negb _ && negb _); cbn [snd]; [|exact (Hacc ag)].
  intro H. apply in_app_iff in H as [H|[<-|[]]]; [exact (Hacc ag H)|].
  exists query. split; [reflexivity|exact Hq].
Qed.

Lemma search_step_facts (fetch_ai : string -> pyresult (option (list agent_rec))) (qs : list string)
    (query : string) (st : list string * list agent_rec) :
  In query qs ->
  fst st = map ag_address (snd st) /\ NoDup (fst st) /\ ~ In "" (fst st) /\
  (forall ag, In ag (snd st) -> exists x, ag_search_query ag = Some x /\ In x qs) ->
  let st' := search_step fetch_ai st query in
  fst st' = map ag_address (snd st') /\ NoDup (fst st') /\ ~ In "" (fst st') /\
  (forall ag, In ag (snd st') -> exists x, ag_search_query ag = Some x /\ In x qs).
Proof.
  intros Hq H. cbv zeta. unfold search_step.
  destruct (fetch_ai query) as [[agents|]|e]; [|exact H|exact H].
  apply (fold_left_preserves (fun st =>
           fst st = map ag_address (snd st) /\ NoDup (fst st) /\ ~ In "" (fst st) /\
           (forall ag, In ag (snd st) -> exists x, ag_search_query ag = Some x /\ In x qs))); [|exact H].
  intros st0 agent (H1 & H2 & H3 & H4).
  destruct (add_agent_distinct query st0 agent (conj H2 H3)) as [D1 D2].
  split; [exact (add_agent_inv query st0 agent H1)|].
  split; [exact D1|]. split; [exact D2|]. exact (add_agent_query query st0 agent qs Hq H4).
Qed.

Lemma search_step_keeps (fetch_ai : string -> pyresult (option (list agent_rec))) (query a : string)
    (st : list string * list agent_rec) :
  In a (fst st) -> In a (fst (search_step fetch_ai st query)).
Proof.
  intro H. unfold search_step.
  destruct (fetch_ai query) as [[agents|]|e]; [|exact H|exact H].
  apply (fold_left_preserves (fun st => In a (fst st))); [|exact H].
  intros st0 agent H0. exact (add_agent_keeps query st0 agent a H0).
Qed.

Lemma search_step_finds (fetch_ai : string -> pyresult (option (list agent_rec))) (query : string)
    (agents : list agent_rec) (agent : agent_rec) (st : list string * list agent_rec) :
  fetch_ai query = POk (Some agents) -> In agent agents -> ag_address agent <> "" ->
  In (ag_address agent) (fst (search_step fetch_ai st query)).
Proof.
  intros Hf Hin Hne. unfold search_step. rewrite Hf.
  apply in_split in Hin as (pre & post & ->).
  rewrite fold_left_app. cbn [fold_left].
  apply (fold_left_preserves (fun st => In (ag_address agent) (fst st))).
  - intros st0 ag H0. exact (add_agent_keeps query st0 ag _ H0).
  - apply add_agent_adds. exact Hne.
Qed.

(** X29: [discover_analysis_agents] returns agents with pairwise distinct,
    non-empty addresses, each tagged with one of the five search queries;
    and every agent with a non-empty address that a successful search
    returned has its address among the result's. *)
Theorem discovered_agents_distinct (fetch_ai : string -> pyresult (option (list agent_rec))) (repo_url : string) :
  let res := discover_analysis_agents fetch_ai repo_url in
  NoDup (map ag_address res) /\ ~ In "" (map ag_address res) /\
  (forall ag, In ag res -> exists q, ag_search_query ag = Some q /\ In q (search_queries repo_url)) /\
  (forall q agents agent, In q (search_queries repo_url) -> fetch_ai q = POk (Some agents) ->
     In agent agents -> ag_address agent <> "" -> In (ag_address agent) (map ag_address res)).
Proof.
  cbv zeta. unfold discover_analysis_agents.
  set (qs := search_queries repo_url).
  assert (Hinv : forall l, incl l qs -> forall st,
            fst st = map ag_address (snd st) /\ NoDup (fst st) /\ ~ In "" (fst st) /\
            (forall ag, In ag (snd st) -> exists x, ag_search_query ag = Some x /\ In x qs) ->
            let st' := fold_left (search_step fetch_ai) l st in
            fst st' = map ag_address (snd st') /\ NoDup (fst st') /\ ~ In "" (fst st') /\
            (forall ag, In ag (snd st') -> exists x, ag_search_query ag = Some x /\ In x qs)).
  { induction l as [|q l IH]; intros Hl st H; [exact H|]. cbn [fold_left].
    apply IH; [intros x Hx; apply Hl; right; exact Hx|].
    apply search_step_facts; [apply Hl; left; reflexivity|exact H]. }
  assert (H0 : fst (@nil string, @nil agent_rec) = map ag_address (snd (@nil string, @nil agent_rec)) /\
               NoDup (fst (@nil string, @nil agent_rec)) /\ ~ In "" (fst (@nil string, @nil agent_rec)) /\
               (forall ag, In ag (snd (@nil string, @nil agent_rec)) ->
                  exists x, ag_search_query ag = Some x /\ In x qs))
    by (split; [reflexivity|split; [constructor|split; [intros []|intros ag []]]]).
  destruct (Hinv qs (incl_refl qs) _ H0) as (E & D & N & Q). cbv zeta in E, D, N, Q.
  rewrite <- E. split; [exact D|]. split; [exact N|]. split; [exact Q|].
  intros q agents agent Hq Hf Hin Hne.
  apply in_split in Hq as (pre & post & Eq). rewrite Eq, fold_left_app. cbn [fold_left].
  apply (fold_left_preserves (fun st => In (ag_address agent) (fst st))).
  - intros st0 q' H1. exact (search_step_keeps fetch_ai q' _ st0 H1).
  - exact (search_step_finds fetch_ai q agents agent _ Hf Hin Hne).
Qed.
